(** * market-scanner: signal scoring, ranking and the benchmark cache

    A shallow embedding of the scoring pipeline of the scanner:
    [signals/ignition.py], [signals/pressure.py], [signals/fuel.py],
    [scoring/benchmark.py] and [scoring/composite.py], with the
    configuration of [config.py] and the records of [utils.py].

    Modelling conventions.
    - A Python [float] is an exact rational ([Q]): every statement below
      is about exact arithmetic; rounding, NaN and the infinities of
      binary64 are not represented.  The one infinity the code builds on
      purpose, [float('inf')] for the put/call ratio, has its own
      constructor ([PosInf]).
    - A Python [int] is a [Z].
    - A raised exception is the [Raise] case of the [Exc] monad; a
      [try ... except Exception] block is [try_except].  Division of
      Python floats raises ZeroDivisionError on a zero divisor, division
      of Python ints also raises OverflowError beyond the float range;
      numpy's division does not raise.
    - numpy, scipy and pandas are an interface ([NumLib]) of uninterpreted
      functions: every theorem with a [NumLib] argument holds for every
      implementation of the interface.
    - A [dict] keyed by a float is an association list with replacement on
      insert; the benchmark cache, keyed by a string, is a [gmap].
    - The clock and the data provider are inputs of a call ([World]). *)

From Stdlib Require Import ZArith QArith Qabs Qround Lqa Lia List String Ascii.
From Stdlib Require Import Sorting.Sorted Sorting.Permutation.
From stdpp Require Import base gmap strings pretty.
Import ListNotations.
Open Scope Q_scope.

(** ** Exceptions *)

Inductive PyExn : Type :=
| ZeroDivisionError
| OverflowError
| ValueError
| IndexError
| LibraryError.

Inductive Exc (A : Type) : Type :=
| Ok (a : A)
| Raise (e : PyExn).
Arguments Ok {A} a.
Arguments Raise {A} e.

#[global] Instance exc_ret : MRet Exc := fun A a => Ok a.
#[global] Instance exc_bind : MBind Exc :=
  fun A B f m => match m with Ok a => f a | Raise e => Raise e end.

(** [try: body  except Exception: handler] *)
Definition try_except {A : Type} (body : Exc A) (handler : A) : A :=
  match body with
  | Ok a => a
  | Raise _ => handler
  end.

Definition raises {A : Type} (m : Exc A) : Prop := exists e, m = Raise e.

(** ** Python arithmetic on exact numbers *)

(** [min(a, b)] returns [a] unless [b < a]; [max(a, b)] returns [a] unless
    [b > a]. *)
Definition py_min (a b : Q) : Q := if Qlt_le_dec b a then b else a.
Definition py_max (a b : Q) : Q := if Qlt_le_dec a b then b else a.

Definition Qltb (a b : Q) : bool := if Qlt_le_dec a b then true else false.
Definition Qgtb (a b : Q) : bool := Qltb b a.
Definition Qleb (a b : Q) : bool := Qle_bool a b.

(** [a / b] on floats raises ZeroDivisionError when [b] is zero. *)
Definition float_div (a b : Q) : Exc Q :=
  if Qeq_bool b 0 then Raise ZeroDivisionError else Ok (a / b).

(** [a / b] on ints is true division: ZeroDivisionError for a zero
    divisor, OverflowError when the quotient rounds past the largest
    binary64 value. *)
Definition float_overflow_bound : Q := inject_Z (2 ^ 1024 - 2 ^ 970).

Definition int_truediv (a b : Z) : Exc Q :=
  if (b =? 0)%Z then Raise ZeroDivisionError
  else
    let q := inject_Z a / inject_Z b in
    if Qle_bool float_overflow_bound (Qabs q) then Raise OverflowError
    else Ok q.

(** [int(x)] on a float truncates toward zero. *)
Definition py_int_of_float (x : Q) : Z := Z.quot (Qnum x) (Zpos (Qden x)).

(** [round(x, 2)]: to two decimals, ties to even. *)
Definition round_half_even (x : Q) : Z :=
  let f := Qfloor x in
  let r := x - inject_Z f in
  if Qltb r (1 # 2) then f
  else if Qltb (1 # 2) r then (f + 1)%Z
  else if Z.even f then f else (f + 1)%Z.

Definition py_round2 (x : Q) : Q := inject_Z (round_half_even (x * 100)) / 100.

(** [l[:n]] for an int [n]: a negative [n] counts from the end. *)
Definition py_slice_to {A : Type} (n : Z) (l : list A) : list A :=
  if (0 <=? n)%Z then firstn (Z.to_nat n) l
  else firstn (length l - Z.to_nat (- n)) l.

(** A value that is a float or [float('inf')]. *)
Inductive ExtFloat : Type :=
| Fin (q : Q)
| PosInf.

Definition ext_ltb (x : ExtFloat) (c : Q) : bool :=
  match x with Fin q => Qltb q c | PosInf => false end.
Definition ext_gtb (x : ExtFloat) (c : Q) : bool :=
  match x with Fin q => Qgtb q c | PosInf => true end.

(** ** Dictionaries keyed by a float *)

Definition fdict (V : Type) : Type := list (Q * V).

Fixpoint fdict_get {V : Type} (d : fdict V) (k : Q) (default : V) : V :=
  match d with
  | [] => default
  | (k', v) :: d' => if Qeq_bool k' k then v else fdict_get d' k default
  end.

(** [d[k] = v]: replaces the value of a present key in place, appends a
    new key. *)
Fixpoint fdict_set {V : Type} (d : fdict V) (k : Q) (v : V) : fdict V :=
  match d with
  | [] => [(k, v)]
  | (k', v') :: d' =>
      if Qeq_bool k' k then (k', v) :: d' else (k', v') :: fdict_set d' k v
  end.

Definition fdict_values {V : Type} (d : fdict V) : list V := map snd d.
Definition fdict_keys {V : Type} (d : fdict V) : list Q := map fst d.

(** ** [sorted(l, key=..., reverse=True)]

    Python's sort is stable, also under [reverse=True]: elements with
    equal keys keep their input order.  Insertion from the right, placing
    an element in front of the first element whose key is not larger. *)
Section Sorted.
Context {A : Type} (key : A -> Q).

Fixpoint insert_desc (x : A) (l : list A) : list A :=
  match l with
  | [] => [x]
  | y :: ys =>
      if Qle_bool (key y) (key x) then x :: y :: ys
      else y :: insert_desc x ys
  end.

Fixpoint sorted_desc (l : list A) : list A :=
  match l with
  | [] => []
  | x :: xs => insert_desc x (sorted_desc xs)
  end.

(** [max(l, key=...)] returns the first maximal element. *)
Fixpoint py_max_by (best : A) (l : list A) : A :=
  match l with
  | [] => best
  | x :: xs => py_max_by (if Qltb (key best) (key x) then x else best) xs
  end.

(** [min(l, key=...)] returns the first minimal element. *)
Fixpoint py_min_by (best : A) (l : list A) : A :=
  match l with
  | [] => best
  | x :: xs => py_min_by (if Qltb (key x) (key best) then x else best) xs
  end.

(** The order of the result, and the test used to state stability:
    among the entries of one key value the input order is kept. *)
Definition descending (l : list A) : Prop :=
  StronglySorted (fun a b => key b <= key a) l.
End Sorted.

(** ** Configuration ([config.py]) *)

Record ScannerConfig : Type := {
  MAX_SYMBOLS_PER_SCAN : Z;
  MIN_PRICE : Q;
  MAX_PRICE : Q;
  MIN_VOLUME_MULTIPLE : Q;
  MIN_SCORE_THRESHOLD : Z;
  VWAP_MOMENTUM_WEIGHT : Q;
  OPTIONS_PRESSURE_WEIGHT : Q;
  VOLUME_WEIGHT : Q;
  FLOAT_WEIGHT : Q;
  TIMING_WEIGHT : Q;
  MAX_DISTANCE_FROM_HOD_LOD : Q;
  MIN_PROBABILITY_THRESHOLD : Q;
  MIN_FLOAT_SIZE : Z;
  MAX_FLOAT_SIZE : Z
}.

(** The global [config = ScannerConfig()]. *)
Definition config : ScannerConfig := {|
  MAX_SYMBOLS_PER_SCAN := 3;
  MIN_PRICE := 2;
  MAX_PRICE := 500;
  MIN_VOLUME_MULTIPLE := 2;
  MIN_SCORE_THRESHOLD := 70;
  VWAP_MOMENTUM_WEIGHT := 25;
  OPTIONS_PRESSURE_WEIGHT := 30;
  VOLUME_WEIGHT := 20;
  FLOAT_WEIGHT := 15;
  TIMING_WEIGHT := 10;
  MAX_DISTANCE_FROM_HOD_LOD := 0.20;
  MIN_PROBABILITY_THRESHOLD := 0.65;
  MIN_FLOAT_SIZE := 1000000;
  MAX_FLOAT_SIZE := 20000000
|}.

Definition with_min_score_threshold (t : Z) (cfg : ScannerConfig) : ScannerConfig := {|
  MAX_SYMBOLS_PER_SCAN := MAX_SYMBOLS_PER_SCAN cfg;
  MIN_PRICE := MIN_PRICE cfg;
  MAX_PRICE := MAX_PRICE cfg;
  MIN_VOLUME_MULTIPLE := MIN_VOLUME_MULTIPLE cfg;
  MIN_SCORE_THRESHOLD := t;
  VWAP_MOMENTUM_WEIGHT := VWAP_MOMENTUM_WEIGHT cfg;
  OPTIONS_PRESSURE_WEIGHT := OPTIONS_PRESSURE_WEIGHT cfg;
  VOLUME_WEIGHT := VOLUME_WEIGHT cfg;
  FLOAT_WEIGHT := FLOAT_WEIGHT cfg;
  TIMING_WEIGHT := TIMING_WEIGHT cfg;
  MAX_DISTANCE_FROM_HOD_LOD := MAX_DISTANCE_FROM_HOD_LOD cfg;
  MIN_PROBABILITY_THRESHOLD := MIN_PROBABILITY_THRESHOLD cfg;
  MIN_FLOAT_SIZE := MIN_FLOAT_SIZE cfg;
  MAX_FLOAT_SIZE := MAX_FLOAT_SIZE cfg
|}.

(** ** Records of [utils.py] *)

Module MarketData.
Record t : Type := mk {
  symbol : string;
  price : Q;
  volume : Z;
  vwap : Q;
  high : Q;
  low : Q;
  open : Q;
  timestamp : Z
}.
End MarketData.

Module OptionsData.
Record t : Type := mk {
  symbol : string;
  strikes : list Q;
  calls_volume : fdict Z;
  puts_volume : fdict Z;
  calls_oi : fdict Z;
  puts_oi : fdict Z;
  iv : fdict Q;
  timestamp : Z
}.
End OptionsData.

(** ** The numeric libraries

    What the code asks of numpy, scipy.stats and pandas.  The random
    generator is seeded with [hash(symbol)], so a draw is a function of the
    symbol and of its position in the sequence of draws. *)
Class NumLib : Type := {
  np_exp : Q -> Q;
  np_log : Q -> Q;
  np_sqrt : Q -> Q;
  np_mean : list Q -> Q;
  norm_cdf : Q -> Q;
  np_random_uniform : string -> nat -> Q -> Q -> Q;
  np_random_normal : string -> Q -> Q -> nat -> list Q;
  (** [np.polyfit(x, y, 1)[0]] with [x = np.arange(len(y))] *)
  np_polyfit_slope : list Q -> Exc Q;
  (** [pd.Series] *)
  Series : Type;
  pd_Series : list Q -> Series;
  series_len : Series -> nat;
  series_values : Series -> list Q;
  series_tail : nat -> Series -> Series;
  series_add : Series -> Series -> Series;
  series_sub : Series -> Series -> Series;
  series_div : Series -> Series -> Series;
  series_scale : Series -> Q -> Series;
  rolling_mean : nat -> Series -> Series;
  rolling_std : nat -> Series -> Series;
  (** [s.iloc[-1]]: IndexError on an empty series *)
  iloc_last : Series -> Exc Q;
  (** [pd.DataFrame], the hourly history of the reference asset *)
  DataFrame : Type;
  df_empty : DataFrame -> bool;
  df_len : DataFrame -> Z;
  (** [bool(df)], the truth test behind [not df] *)
  df_bool : DataFrame -> Exc bool;
  (** [df['Close'].pct_change().tail(n).std()] and [....mean()] *)
  returns_tail_std : DataFrame -> Z -> Q;
  returns_tail_mean : DataFrame -> Z -> Q
}.

(** The format specifications the code uses in its f-strings. *)
Class FormatLib : Type := {
  (** [f"{x:.0f}"], [f"{x:.1f}"], [f"{x:.2f}"] *)
  fmt_0f : Q -> string;
  fmt_1f : Q -> string;
  fmt_2f : Q -> string;
  (** [f"{x:.1%}"] *)
  fmt_pct1 : Q -> string
}.

(** [calculate_distance_from_extremes] of [utils.py] *)
Definition calculate_distance_from_extremes (price high low : Q) : Exc Q :=
  distance_from_high ← float_div (Qabs (price - high)) price;
  distance_from_low ← float_div (Qabs (price - low)) price;
  Ok (py_min distance_from_high distance_from_low).

(** [estimate_timeframe] of [utils.py] *)
Definition estimate_timeframe (probability volatility : Q) : string :=
  if Qgtb probability 0.8 then "20-60 minutes"
  else if Qgtb probability 0.7 then "1-2 hours"
  else if Qgtb probability 0.6 then "2-4 hours"
  else "4+ hours".

Module ScanResult.
Record t : Type := mk {
  symbol : string;
  rank : Z;
  score : Q;
  current_price : Q;
  vwap : Q;
  target_strike : option Q;
  probability_reach : Q;
  expected_return : Q;
  timeframe : string;
  entry_zone : Q * Q;
  stop_loss : Q;
  squeeze_factors : list string;
  reasoning : string
}.
End ScanResult.

(** The result of code that indexes a [dict] keyed by a string:
    [KeyError] carries the missing key. *)
Inductive Keyed (A : Type) : Type :=
| Built (a : A)
| KeyError (key : string).
Arguments Built {A} a.
Arguments KeyError {A} key.

(** [calculate_bollinger_bands] of [utils.py] *)
Definition calculate_bollinger_bands `{NumLib} (prices : Series)
    (period : nat) (std_dev : Q) : Series * Series * Series :=
  let sma := rolling_mean period prices in
  let std := rolling_std period prices in
  let upper_band := series_add sma (series_scale std std_dev) in
  let lower_band := series_sub sma (series_scale std std_dev) in
  (upper_band, sma, lower_band).

(** ** [signals/ignition.py] *)

Module IgnitionSignal.
Record t : Type := mk {
  vwap_momentum : bool;
  expansion_energy : bool;
  entry_timing : bool;
  vwap_spread_slope : Q;
  band_expansion_ratio : Q;
  distance_from_extremes : Q;
  score : Q
}.
End IgnitionSignal.

Module IgnitionEngine.
Section Engine.
Context `{NumLib} (cfg : ScannerConfig).

Definition _calculate_vwap_spread (prices : Series) (current_vwap : Q) : Series :=
  let synthetic_vwap := rolling_mean 20 prices in
  series_div (series_sub prices synthetic_vwap) synthetic_vwap.

Definition _calculate_slope (series : Series) (periods : nat) : Exc Q :=
  if (series_len series <? periods)%nat then Ok 0
  else
    let recent_data := series_tail periods series in
    let y := series_values recent_data in
    np_polyfit_slope y.

Fixpoint synthetic_walk (last : Q) (returns : list Q) : list Q :=
  match returns with
  | [] => []
  | ret :: rest =>
      let new_price := last * (1 + ret) in
      new_price :: synthetic_walk new_price rest
  end.

(** [prices[-1] = v] on a non-empty list *)
Definition set_last (prices : list Q) (v : Q) : list Q :=
  removelast prices ++ [v].

Definition _generate_synthetic_history (market_data : MarketData.t)
    (periods : nat) : Series :=
  let base_price := MarketData.price market_data * 0.95 in
  let returns := np_random_normal (MarketData.symbol market_data) 0 0.02 periods in
  let prices := base_price :: synthetic_walk base_price (tl returns) in
  pd_Series (set_last prices (MarketData.price market_data)).

Definition _calculate_ignition_score (vwap_slope expansion_ratio
    distance_from_extremes : Q)
    (vwap_momentum expansion_energy entry_timing : bool) : Q :=
  let score := 0 in
  let score :=
    if vwap_momentum then score + py_min 40 (Qabs vwap_slope * 10000)
    else score in
  let score :=
    if expansion_energy then score + py_min 35 ((expansion_ratio - 1) * 35)
    else score in
  let score :=
    if entry_timing then
      let timing_score :=
        (MAX_DISTANCE_FROM_HOD_LOD cfg - distance_from_extremes)
        / MAX_DISTANCE_FROM_HOD_LOD cfg in
      score + timing_score * 25
    else score in
  py_min 100 score.

(** The body of the [try] block of [analyze]. *)
Definition analyze_body (market_data : MarketData.t)
    (historical_prices : option Series) : Exc IgnitionSignal.t :=
  let historical_prices :=
    match historical_prices with
    | None => _generate_synthetic_history market_data 100
    | Some h => h
    end in
  let vwap_spread :=
    _calculate_vwap_spread historical_prices (MarketData.vwap market_data) in
  vwap_slope ← _calculate_slope vwap_spread 10;
  let '(upper_band, sma, lower_band) :=
    calculate_bollinger_bands historical_prices 20 2 in
  upper_last ← iloc_last upper_band;
  lower_last ← iloc_last lower_band;
  let current_expansion := upper_last - lower_last in
  historical_avg_expansion ←
    iloc_last (rolling_mean 20 (series_sub upper_band lower_band));
  let expansion_ratio :=
    if Qgtb historical_avg_expansion 0
    then current_expansion / historical_avg_expansion else 1 in
  let p := MarketData.price market_data in
  from_high ← float_div (Qabs (p - MarketData.high market_data)) p;
  from_low ← float_div (Qabs (p - MarketData.low market_data)) p;
  let distance_from_extremes := py_min from_high from_low in
  let vwap_momentum := Qgtb vwap_slope 0.001 in
  let expansion_energy := Qgtb expansion_ratio 1.5 in
  let entry_timing := Qltb distance_from_extremes (MAX_DISTANCE_FROM_HOD_LOD cfg) in
  let score :=
    _calculate_ignition_score vwap_slope expansion_ratio distance_from_extremes
      vwap_momentum expansion_energy entry_timing in
  mret (IgnitionSignal.mk vwap_momentum expansion_energy entry_timing
          vwap_slope expansion_ratio distance_from_extremes score).

(** The signal of the [except] branch. *)
Definition neutral : IgnitionSignal.t :=
  IgnitionSignal.mk false false false 0 1 1 0.

Definition analyze (market_data : MarketData.t)
    (historical_prices : option Series) : IgnitionSignal.t :=
  try_except (analyze_body market_data historical_prices) neutral.
End Engine.
End IgnitionEngine.

(** ** [signals/pressure.py] *)

Module GammaWall.
Record t : Type := mk {
  strike : Q;
  gamma_value : Q;
  net_positioning : Q;
  distance_from_price : Q;
  probability_reach : Q
}.
End GammaWall.

Module PressureSignal.
Record t : Type := mk {
  target_strike : option Q;
  probability_reach : Q;
  dealer_flow : string;
  nearest_walls : list GammaWall.t;
  max_pain : Q;
  put_call_ratio : ExtFloat;
  score : Q
}.
End PressureSignal.

(** [range(lo, lo + n)] *)
Fixpoint py_range (lo : Z) (n : nat) : list Z :=
  match n with
  | O => []
  | S n' => lo :: py_range (lo + 1) n'
  end.

Definition sum_Z (l : list Z) : Z := fold_left Z.add l 0%Z.

Module PressureEngine.
Section Engine.
Context `{NumLib}.

Definition _calculate_probability_reach (current_price target_strike : Q)
    (options_data : OptionsData.t) : Exc Q :=
  if Qeq_bool target_strike current_price then Ok 1
  else
    let avg_iv := np_mean (fdict_values (OptionsData.iv options_data)) in
    let time_to_expiry := 1 / 365 in
    ratio ← float_div current_price target_strike;
    (* the quotient below is numpy's: it does not raise *)
    let d2 :=
      (np_log ratio - 0.5 * (avg_iv * avg_iv) * time_to_expiry)
      / (avg_iv * np_sqrt time_to_expiry) in
    let probability :=
      if Qgtb target_strike current_price then 1 - norm_cdf d2
      else norm_cdf d2 in
    Ok (py_max 0.01 (py_min 0.99 probability)).

(** The per-strike loop of [_generate_synthetic_options]; [draw] counts
    the calls to [np.random.uniform] made so far. *)
Fixpoint synthetic_loop (sym : string) (current_price : Q) (todo : list Q)
    (draw : nat) (acc : OptionsData.t) : Exc OptionsData.t :=
  match todo with
  | [] => Ok acc
  | strike :: rest =>
      distance ← float_div (Qabs (strike - current_price)) current_price;
      let base_volume :=
        Z.max 10 (py_int_of_float (1000 * np_exp (- distance * 10))) in
      let base_oi :=
        Z.max 50 (py_int_of_float (5000 * np_exp (- distance * 8))) in
      let u k := np_random_uniform sym (draw + k) 0.5 2 in
      let cv := py_int_of_float (inject_Z base_volume * u 0%nat) in
      let pv := py_int_of_float (inject_Z base_volume * u 1%nat) in
      let co := py_int_of_float (inject_Z base_oi * u 2%nat) in
      let po := py_int_of_float (inject_Z base_oi * u 3%nat) in
      let base_iv := 0.3 + distance * 2 in
      let v := py_max 0.1 (base_iv + np_random_uniform sym (draw + 4) (-0.1) 0.1) in
      synthetic_loop sym current_price rest (draw + 5)
        (OptionsData.mk (OptionsData.symbol acc) (OptionsData.strikes acc)
           (fdict_set (OptionsData.calls_volume acc) strike cv)
           (fdict_set (OptionsData.puts_volume acc) strike pv)
           (fdict_set (OptionsData.calls_oi acc) strike co)
           (fdict_set (OptionsData.puts_oi acc) strike po)
           (fdict_set (OptionsData.iv acc) strike v)
           (OptionsData.timestamp acc))
  end.

Definition _generate_synthetic_options (market_data : MarketData.t)
    : Exc OptionsData.t :=
  let current_price := MarketData.price market_data in
  let strikes :=
    List.filter (fun strike => Qgtb strike 0)
      (map (fun i => py_round2 (current_price + inject_Z i * 0.5))
         (py_range (-10) 21)) in
  synthetic_loop (MarketData.symbol market_data) current_price strikes 0
    (OptionsData.mk (MarketData.symbol market_data) strikes [] [] [] [] []
       (MarketData.timestamp market_data)).

Fixpoint gamma_walls_loop (current_price : Q) (options_data : OptionsData.t)
    (todo : list Q) : Exc (list GammaWall.t) :=
  match todo with
  | [] => Ok []
  | strike :: rest =>
      let calls_oi := fdict_get (OptionsData.calls_oi options_data) strike 0%Z in
      let puts_oi := fdict_get (OptionsData.puts_oi options_data) strike 0%Z in
      distance ← float_div (Qabs (strike - current_price)) current_price;
      let gamma_factor := np_exp (- distance * 5) in
      let net_gamma :=
        inject_Z calls_oi * gamma_factor - inject_Z puts_oi * gamma_factor in
      if Qgtb (Qabs net_gamma) 1000 then
        probability ←
          _calculate_probability_reach current_price strike options_data;
        walls ← gamma_walls_loop current_price options_data rest;
        Ok (GammaWall.mk strike (Qabs net_gamma) net_gamma distance probability
              :: walls)
      else gamma_walls_loop current_price options_data rest
  end.

Definition _find_gamma_walls (market_data : MarketData.t)
    (options_data : OptionsData.t) : Exc (list GammaWall.t) :=
  walls ← gamma_walls_loop (MarketData.price market_data) options_data
             (OptionsData.strikes options_data);
  Ok (sorted_desc GammaWall.gamma_value walls).

Definition _find_target_wall (current_price : Q) (walls : list GammaWall.t)
    : option GammaWall.t :=
  match walls with
  | [] => None
  | strongest :: _ =>
      let candidates :=
        List.filter (fun wall =>
                  Qltb (GammaWall.distance_from_price wall) 0.15
                  && Qgtb (GammaWall.probability_reach wall) 0.3) walls in
      match candidates with
      | [] => Some strongest
      | c :: cs =>
          Some (py_max_by
                  (fun w => GammaWall.probability_reach w * GammaWall.gamma_value w)
                  c cs)
      end
  end.

Definition total_pain (current_price : Q) (options_data : OptionsData.t)
    (strike : Q) : Q :=
  let total_pain := 0 in
  let total_pain :=
    if Qgtb current_price strike then
      total_pain
      + inject_Z (fdict_get (OptionsData.calls_oi options_data) strike 0%Z)
        * (current_price - strike)
    else total_pain in
  if Qltb current_price strike then
    total_pain
    + inject_Z (fdict_get (OptionsData.puts_oi options_data) strike 0%Z)
      * (strike - current_price)
  else total_pain.

Definition _calculate_max_pain (current_price : Q)
    (options_data : OptionsData.t) : Q :=
  let max_pain_levels :=
    fold_left
      (fun d strike => fdict_set d strike (total_pain current_price options_data strike))
      (OptionsData.strikes options_data) [] in
  match fdict_keys max_pain_levels with
  | [] => current_price
  | k :: ks => py_min_by (fun s => fdict_get max_pain_levels s 0) k ks
  end.

Definition _calculate_put_call_ratio (options_data : OptionsData.t)
    : Exc ExtFloat :=
  let total_call_volume := sum_Z (fdict_values (OptionsData.calls_volume options_data)) in
  let total_put_volume := sum_Z (fdict_values (OptionsData.puts_volume options_data)) in
  if (total_call_volume =? 0)%Z then
    Ok (if (0 <? total_put_volume)%Z then PosInf else Fin 1)
  else
    q ← int_truediv total_put_volume total_call_volume;
    Ok (Fin q).

Definition _determine_dealer_flow (walls : list GammaWall.t) (pcr : ExtFloat)
    (current_price max_pain : Q) : string :=
  match walls with
  | [] => "neutral"
  | strongest_wall :: _ =>
      let bullish_score := 0%Z in
      let bullish_score :=
        if Qgtb (GammaWall.net_positioning strongest_wall) 0
           && Qgtb (GammaWall.strike strongest_wall) current_price
        then (bullish_score + 2)%Z else bullish_score in
      let bullish_score :=
        if ext_ltb pcr 0.8 then (bullish_score + 1)%Z else bullish_score in
      let bullish_score :=
        if Qgtb max_pain current_price then (bullish_score + 1)%Z
        else bullish_score in
      let bearish_score := 0%Z in
      let bearish_score :=
        if Qltb (GammaWall.net_positioning strongest_wall) 0
           && Qltb (GammaWall.strike strongest_wall) current_price
        then (bearish_score + 2)%Z else bearish_score in
      let bearish_score :=
        if ext_gtb pcr 1.2 then (bearish_score + 1)%Z else bearish_score in
      let bearish_score :=
        if Qltb max_pain current_price then (bearish_score + 1)%Z
        else bearish_score in
      if (bearish_score + 1 <? bullish_score)%Z then "bullish"
      else if (bullish_score + 1 <? bearish_score)%Z then "bearish"
      else "neutral"
  end.

Definition _calculate_pressure_score (probability : Q) (dealer_flow : string)
    (pcr : ExtFloat) (walls : list GammaWall.t) : Q :=
  let score := 0 in
  let score := score + probability * 40 in
  let score :=
    if String.eqb dealer_flow "bullish" then score + 30
    else if String.eqb dealer_flow "bearish" then score + 20
    else score in
  let score :=
    if ext_ltb pcr 0.7 then score + 20
    else if ext_ltb pcr 1 then score + 15
    else if ext_gtb pcr 1.5 then score + 10
    else score in
  let score :=
    match walls with
    | [] => score
    | strongest :: _ =>
        score + py_min 10 (GammaWall.gamma_value strongest / 5000)
    end in
  py_min 100 score.

(** The body of the [try] block of [analyze]. *)
Definition analyze_body (market_data : MarketData.t)
    (options_data : option OptionsData.t) : Exc PressureSignal.t :=
  options_data ←
    match options_data with
    | None => _generate_synthetic_options market_data
    | Some od => Ok od
    end;
  let current_price := MarketData.price market_data in
  gamma_walls ← _find_gamma_walls market_data options_data;
  let target_wall := _find_target_wall current_price gamma_walls in
  let max_pain := _calculate_max_pain current_price options_data in
  pcr ← _calculate_put_call_ratio options_data;
  let dealer_flow :=
    _determine_dealer_flow gamma_walls pcr current_price max_pain in
  '(target_strike, probability) ←
    match target_wall with
    | Some wall =>
        p ← _calculate_probability_reach current_price
              (GammaWall.strike wall) options_data;
        Ok (Some (GammaWall.strike wall), p)
    | None => Ok (None, 0)
    end;
  let score :=
    _calculate_pressure_score probability dealer_flow pcr gamma_walls in
  mret (PressureSignal.mk target_strike probability dealer_flow
          (firstn 3 gamma_walls) max_pain pcr score).

(** The signal of the [except] branch. *)
Definition neutral (market_data : MarketData.t) : PressureSignal.t :=
  PressureSignal.mk None 0 "neutral" [] (MarketData.price market_data)
    (Fin 1) 0.

Definition analyze (market_data : MarketData.t)
    (options_data : option OptionsData.t) : PressureSignal.t :=
  try_except (analyze_body market_data options_data) (neutral market_data).
End Engine.
End PressureEngine.

(** ** [signals/fuel.py] *)

Module FundamentalData.
Record t : Type := mk {
  symbol : string;
  float_shares : Z;
  short_percent : Q;
  short_shares : Z;
  borrow_fee : Q;
  avg_volume : Z;
  market_cap : Q;
  insider_ownership : Q
}.
End FundamentalData.

Module FuelSignal.
Record t : Type := mk {
  low_float : bool;
  high_short_interest : bool;
  high_borrow_cost : bool;
  volume_surge : bool;
  relative_volume : Q;
  short_squeeze_score : Q;
  fuel_factors : list string;
  score : Q
}.
End FuelSignal.

(** The three multipliers of [estimate_squeeze_potential]. *)
Module SqueezePotential.
Record t : Type := mk {
  low : Q;
  medium : Q;
  high : Q
}.
End SqueezePotential.

Module FuelEngine.
Section Engine.
Context `{NumLib} (cfg : ScannerConfig).

Definition _generate_synthetic_fundamentals (market_data : MarketData.t)
    : FundamentalData.t :=
  let sym := MarketData.symbol market_data in
  let base_float := np_random_uniform sym 0 5000000 50000000 in
  let short_percent := np_random_uniform sym 1 5 40 in
  let borrow_fee := np_random_uniform sym 2 10 200 in
  let avg_volume :=
    inject_Z (MarketData.volume market_data) * np_random_uniform sym 3 0.5 2 in
  let market_cap := MarketData.price market_data * base_float in
  let insider_ownership := np_random_uniform sym 4 5 50 in
  FundamentalData.mk sym (py_int_of_float base_float) short_percent
    (py_int_of_float (base_float * short_percent / 100)) borrow_fee
    (py_int_of_float avg_volume) market_cap insider_ownership.

Definition _calculate_squeeze_score (fundamental_data : FundamentalData.t)
    (relative_volume : Q) : Q :=
  let score := 0 in
  let fs := FundamentalData.float_shares fundamental_data in
  let score :=
    if (fs <? 5000000)%Z then score + 30
    else if (fs <? 10000000)%Z then score + 25
    else if (fs <? 20000000)%Z then score + 15
    else score in
  let sp := FundamentalData.short_percent fundamental_data in
  let score :=
    if Qgtb sp 30 then score + 25
    else if Qgtb sp 20 then score + 20
    else if Qgtb sp 15 then score + 10
    else score in
  let bf := FundamentalData.borrow_fee fundamental_data in
  let score :=
    if Qgtb bf 100 then score + 20
    else if Qgtb bf 50 then score + 15
    else if Qgtb bf 25 then score + 5
    else score in
  let score :=
    if Qgtb relative_volume 5 then score + 15
    else if Qgtb relative_volume 3 then score + 10
    else if Qgtb relative_volume 2 then score + 5
    else score in
  let io := FundamentalData.insider_ownership fundamental_data in
  let score :=
    if Qgtb io 40 then score + 10
    else if Qgtb io 30 then score + 5
    else score in
  py_min 100 score.

Definition _identify_fuel_factors (low_float high_short_interest
    high_borrow_cost volume_surge : bool)
    (fundamental_data : FundamentalData.t) : list string :=
  let fs := FundamentalData.float_shares fundamental_data in
  let sp := FundamentalData.short_percent fundamental_data in
  let factors := [] in
  let factors :=
    if low_float then
      if (fs <? 5000000)%Z then factors ++ ["micro_float"]
      else if (fs <? 10000000)%Z then factors ++ ["small_float"]
      else factors ++ ["low_float"]
    else factors in
  let factors :=
    if high_short_interest then
      if Qgtb sp 30 then factors ++ ["extreme_short_interest"]
      else if Qgtb sp 20 then factors ++ ["high_short_interest"]
      else factors ++ ["elevated_short_interest"]
    else factors in
  let factors :=
    if high_borrow_cost then
      if Qgtb (FundamentalData.borrow_fee fundamental_data) 100
      then factors ++ ["extreme_borrow_cost"]
      else factors ++ ["high_borrow_cost"]
    else factors in
  let factors :=
    if volume_surge then factors ++ ["volume_surge"] else factors in
  let factors :=
    if Qgtb (FundamentalData.insider_ownership fundamental_data) 40
    then factors ++ ["high_insider_ownership"] else factors in
  if (fs <? 5000000)%Z && Qgtb sp 25 then factors ++ ["squeeze_setup"]
  else factors.

Definition _calculate_fuel_score (low_float high_short_interest
    high_borrow_cost volume_surge : bool)
    (relative_volume squeeze_score : Q) : Q :=
  let score := 0 in
  let score := if low_float then score + 25 else score in
  let score := if high_short_interest then score + 25 else score in
  let score := if high_borrow_cost then score + 20 else score in
  let score :=
    if volume_surge then
      let volume_score := py_min 20 ((relative_volume - 2) * 5) in
      score + volume_score
    else score in
  let score := score + py_min 10 (squeeze_score / 10) in
  py_min 100 score.

(** The body of the [try] block of [analyze]. *)
Definition analyze_body (market_data : MarketData.t)
    (fundamental_data : option FundamentalData.t) : Exc FuelSignal.t :=
  let fundamental_data :=
    match fundamental_data with
    | None => _generate_synthetic_fundamentals market_data
    | Some fd => fd
    end in
  let low_float :=
    (FundamentalData.float_shares fundamental_data <? MAX_FLOAT_SIZE cfg)%Z in
  let high_short_interest :=
    Qgtb (FundamentalData.short_percent fundamental_data) 15 in
  let high_borrow_cost :=
    Qgtb (FundamentalData.borrow_fee fundamental_data) 50 in
  relative_volume ←
    (if (0 <? FundamentalData.avg_volume fundamental_data)%Z
     then int_truediv (MarketData.volume market_data)
            (FundamentalData.avg_volume fundamental_data)
     else Ok 1);
  let volume_surge := Qgtb relative_volume (MIN_VOLUME_MULTIPLE cfg) in
  let squeeze_score :=
    _calculate_squeeze_score fundamental_data relative_volume in
  let fuel_factors :=
    _identify_fuel_factors low_float high_short_interest high_borrow_cost
      volume_surge fundamental_data in
  let score :=
    _calculate_fuel_score low_float high_short_interest high_borrow_cost
      volume_surge relative_volume squeeze_score in
  mret (FuelSignal.mk low_float high_short_interest high_borrow_cost
          volume_surge relative_volume squeeze_score fuel_factors score).

(** The signal of the [except] branch. *)
Definition neutral : FuelSignal.t :=
  FuelSignal.mk false false false false 1 0 [] 0.

Definition analyze (market_data : MarketData.t)
    (fundamental_data : option FundamentalData.t) : FuelSignal.t :=
  try_except (analyze_body market_data fundamental_data) neutral.

Definition estimate_squeeze_potential (signal : FuelSignal.t)
    (fundamental_data : FundamentalData.t) : SqueezePotential.t :=
  if Qltb (FuelSignal.short_squeeze_score signal) 50 then
    SqueezePotential.mk 1.1 1.2 1.3
  else
    let base_multiplier :=
      1 + FundamentalData.short_percent fundamental_data / 100 in
    let float_multiplier :=
      if (FundamentalData.float_shares fundamental_data <? 5000000)%Z then 1.5
      else if (FundamentalData.float_shares fundamental_data <? 10000000)%Z
      then 1.3
      else 1.1 in
    let volume_multiplier :=
      1 + py_min 0.5 ((FuelSignal.relative_volume signal - 2) * 0.1) in
    let total_multiplier :=
      base_multiplier * float_multiplier * volume_multiplier in
    SqueezePotential.mk (total_multiplier * 0.8) total_multiplier
      (total_multiplier * 1.5).
End Engine.
End FuelEngine.

(** ** [scoring/benchmark.py] *)

(** *** Strings: ["h" in s], [s.replace("h", "")], [int(s)] *)

Fixpoint str_contains (c : ascii) (s : string) : bool :=
  match s with
  | EmptyString => false
  | String c' s' => if Ascii.eqb c' c then true else str_contains c s'
  end.

Fixpoint str_remove (c : ascii) (s : string) : string :=
  match s with
  | EmptyString => EmptyString
  | String c' s' =>
      if Ascii.eqb c' c then str_remove c s' else String c' (str_remove c s')
  end.

Definition is_py_space (c : ascii) : bool :=
  let n := nat_of_ascii c in
  ((n =? 32) || ((9 <=? n) && (n <=? 13)))%nat.

Fixpoint lstrip (l : list ascii) : list ascii :=
  match l with
  | [] => []
  | c :: l' => if is_py_space c then lstrip l' else l
  end.

Definition strip (l : list ascii) : list ascii :=
  rev (lstrip (rev (lstrip l))).

Definition digit_value (c : ascii) : option Z :=
  let n := nat_of_ascii c in
  if ((48 <=? n) && (n <=? 57))%nat then Some (Z.of_nat n - 48)%Z else None.

(** Digits, with single underscores allowed between two digits. *)
Fixpoint parse_digits (l : list ascii) (acc : Z) (after_digit : bool)
    : option Z :=
  match l with
  | [] => if after_digit then Some acc else None
  | c :: l' =>
      match digit_value c with
      | Some d => parse_digits l' (acc * 10 + d)%Z true
      | None =>
          if Ascii.eqb c "_" && after_digit then parse_digits l' acc false
          else None
      end
  end.

(** [int(s)] in base 10: ValueError unless [s] is a signed decimal
    literal, possibly surrounded by white space (ASCII only). *)
Definition py_int (s : string) : Exc Z :=
  let l := strip (list_ascii_of_string s) in
  let '(sign, body) :=
    match l with
    | c :: l' =>
        if Ascii.eqb c "-" then ((-1)%Z, l')
        else if Ascii.eqb c "+" then (1%Z, l')
        else (1%Z, l)
    | [] => (1%Z, l)
    end in
  match parse_digits body 0 false with
  | Some n => Ok (sign * n)%Z
  | None => Raise ValueError
  end.

(** *** Time

    [datetime.now()] is a count of microseconds.  [timedelta.seconds] is
    the seconds field of the normalised difference (days, seconds,
    microseconds), with [0 <= seconds < 86400]. *)
Definition us_per_second : Z := 1000000.
Definition us_per_day : Z := 86400 * us_per_second.

Definition timedelta_seconds (delta : Z) : Z :=
  ((delta mod us_per_day) / us_per_second)%Z.

(** *** The estimator *)

Inductive FetchOutcome `{NumLib} : Type :=
| FetchError
| FetchHistory (hist : DataFrame).

(** What one call of [get_expected_return] meets outside the process: the
    clock at the cache check, the clock at the cache write, and the answer
    of the data provider. *)
Record World `{NumLib} : Type := {
  now_at_check : Z;
  now_at_store : Z;
  history : FetchOutcome
}.

(** The way a call took through [get_expected_return]. *)
Inductive Path : Type :=
| CacheHit
| Defaulted
| Computed.

Record Outcome : Type := {
  returned : Q;
  cache_after : gmap string (Z * Q);
  path : Path
}.

(** The dictionary returned by [compare_to_btc]. *)
Module Comparison.
Record t : Type := mk {
  expected_return : Q;
  btc_return : Q;
  outperformance : Q;
  outperformance_ratio : ExtFloat;
  beats_btc : bool
}.
End Comparison.

Module BTCBenchmark.
Section Estimator.
Context `{NumLib}.

Definition cache_duration : Z := 300.

Definition timeframe_map : gmap string Z :=
  <["20m" := 1%Z]> (<["1h" := 1%Z]> (<["2h" := 2%Z]> (<["4h" := 4%Z]>
    (<["1d" := 24%Z]> ∅)))).

Definition _get_periods_for_timeframe (timeframe : string) : Exc Z :=
  if str_contains "h" timeframe then py_int (str_remove "h" timeframe)
  else if str_contains "m" timeframe then Ok 1%Z
  else if str_contains "d" timeframe then
    days ← py_int (str_remove "d" timeframe);
    Ok (days * 24)%Z
  else Ok (default 1%Z (timeframe_map !! timeframe)).

Definition _get_max_expectation_for_timeframe (timeframe : string) : Exc Q :=
  periods ← _get_periods_for_timeframe timeframe;
  Ok (if (periods <=? 1)%Z then 0.05
      else if (periods <=? 2)%Z then 0.08
      else if (periods <=? 4)%Z then 0.12
      else 0.20).

Definition _calculate_expected_return (btc_data : DataFrame)
    (timeframe : string) : Exc Q :=
  periods ← _get_periods_for_timeframe timeframe;
  if (df_len btc_data <? periods * 2)%Z then Ok 0.02
  else
    let recent_vol := returns_tail_std btc_data (periods * 4) in
    let momentum := returns_tail_mean btc_data periods in
    let base_expectation := momentum * inject_Z periods in
    let volatility_expectation := recent_vol * np_sqrt (inject_Z periods) in
    let expected_return :=
      py_min (Qabs base_expectation) volatility_expectation in
    let expected_return :=
      if Qgtb (Qabs momentum) (recent_vol * 0.5) then Qabs base_expectation
      else expected_return in
    let expected_return := py_max expected_return 0.01 in
    max_expectation ← _get_max_expectation_for_timeframe timeframe;
    Ok (py_min expected_return max_expectation).

Definition _fetch_btc_data (w : World) : option DataFrame :=
  match history w with
  | FetchError => None
  | FetchHistory hist => if df_empty hist then None else Some hist
  end.

Definition cache_key (timeframe : string) : string :=
  ("btc_return_" ++ timeframe)%string.

(** The cache check: the cached value when the entry passes the test
    [(datetime.now() - cached_time).seconds < self.cache_duration]. *)
Definition cache_check (cache : gmap string (Z * Q)) (timeframe : string)
    (now : Z) : option Q :=
  match cache !! cache_key timeframe with
  | Some (cached_time, cached_value) =>
      if (timedelta_seconds (now - cached_time) <? cache_duration)%Z
      then Some cached_value else None
  | None => None
  end.

(** The body of the [try] block. *)
Definition compute_body (cache : gmap string (Z * Q)) (timeframe : string)
    (w : World) : Exc Outcome :=
  match _fetch_btc_data w with
  | None => Ok {| returned := 0.02; cache_after := cache; path := Defaulted |}
  | Some btc_data =>
      truth ← df_bool btc_data;
      if negb truth then
        Ok {| returned := 0.02; cache_after := cache; path := Defaulted |}
      else
        expected_return ← _calculate_expected_return btc_data timeframe;
        Ok {| returned := expected_return;
              cache_after :=
                <[cache_key timeframe := (now_at_store w, expected_return)]> cache;
              path := Computed |}
  end.

Definition get_expected_return (cache : gmap string (Z * Q))
    (timeframe : string) (w : World) : Outcome :=
  match cache_check cache timeframe (now_at_check w) with
  | Some cached_value =>
      {| returned := cached_value; cache_after := cache; path := CacheHit |}
  | None =>
      try_except (compute_body cache timeframe w)
        {| returned := 0.02; cache_after := cache; path := Defaulted |}
  end.


(** [get_benchmark_summary]; nothing in its [try] block raises. *)
Definition get_benchmark_summary `{FormatLib} (cache : gmap string (Z * Q))
    (timeframe : string) (now : Z) : string :=
  match cache !! cache_key timeframe with
  | Some (cached_time, btc_return) =>
      if (timedelta_seconds (now - cached_time) <? cache_duration)%Z
      then ("BTC " ++ timeframe ++ " benchmark: " ++ fmt_pct1 btc_return)%string
      else ("BTC " ++ timeframe ++ " benchmark: fetching...")%string
  | None => ("BTC " ++ timeframe ++ " benchmark: fetching...")%string
  end.
End Estimator.
End BTCBenchmark.

(** ** [scoring/composite.py] *)

Module CompositeScore.
Record t : Type := mk {
  symbol : string;
  total_score : Q;
  ignition_score : Q;
  pressure_score : Q;
  fuel_score : Q;
  btc_benchmark_passed : bool;
  expected_return : Q;
  btc_expected_return : Q;
  probability_reach : Q;
  target_price : option Q;
  risk_reward_ratio : Q
}.
End CompositeScore.

(** Truth value of an [Optional[float]]: [None] and [0.0] are false. *)
Definition truthy (x : option Q) : bool :=
  match x with
  | None => false
  | Some q => negb (Qeq_bool q 0)
  end.

Module CompositeScorer.
Section Scorer.
Context `{NumLib} (cfg : ScannerConfig).

Definition _calculate_combination_bonus (ignition : IgnitionSignal.t)
    (pressure : PressureSignal.t) (fuel : FuelSignal.t) : Q :=
  let bonus := 0 in
  let strong_signals := 0%nat in
  let strong_signals :=
    if Qgtb (IgnitionSignal.score ignition) 70 then S strong_signals
    else strong_signals in
  let strong_signals :=
    if Qgtb (PressureSignal.score pressure) 70 then S strong_signals
    else strong_signals in
  let strong_signals :=
    if Qgtb (FuelSignal.score fuel) 70 then S strong_signals
    else strong_signals in
  let bonus :=
    if (3 <=? strong_signals)%nat then bonus + 15
    else if (2 <=? strong_signals)%nat then bonus + 8
    else bonus in
  let bonus :=
    if IgnitionSignal.vwap_momentum ignition
       && Qgtb (PressureSignal.probability_reach pressure) 0.7
    then bonus + 5 else bonus in
  let bonus :=
    if FuelSignal.low_float fuel && FuelSignal.high_short_interest fuel
       && String.eqb (PressureSignal.dealer_flow pressure) "bullish"
    then bonus + 8 else bonus in
  let bonus :=
    if IgnitionSignal.expansion_energy ignition && FuelSignal.volume_surge fuel
    then bonus + 5 else bonus in
  bonus.

Definition _calculate_weighted_score (ignition : IgnitionSignal.t)
    (pressure : PressureSignal.t) (fuel : FuelSignal.t) : Q :=
  let weighted_score :=
    IgnitionSignal.score ignition * (VWAP_MOMENTUM_WEIGHT cfg / 100)
    + PressureSignal.score pressure * (OPTIONS_PRESSURE_WEIGHT cfg / 100)
    + FuelSignal.score fuel * (VOLUME_WEIGHT cfg / 100)
    + 0 in
  let bonus := _calculate_combination_bonus ignition pressure fuel in
  py_min 100 (weighted_score + bonus).

Definition _estimate_price_move (market_data : MarketData.t)
    (fuel : FuelSignal.t) : Exc Q :=
  let base_move := 0.05 in
  let base_move :=
    if Qgtb (FuelSignal.relative_volume fuel) 3 then base_move * 1.5
    else if Qgtb (FuelSignal.relative_volume fuel) 2 then base_move * 1.2
    else base_move in
  base_move ←
    (if Qgtb (MarketData.high market_data) 0
        && Qgtb (MarketData.low market_data) 0
     then
       daily_range ←
         float_div (MarketData.high market_data - MarketData.low market_data)
           (MarketData.price market_data);
       Ok (if Qgtb daily_range 0.15 then base_move * 1.3 else base_move)
     else Ok base_move);
  let base_move :=
    if Qgtb (FuelSignal.short_squeeze_score fuel) 80 then base_move * 2
    else if Qgtb (FuelSignal.short_squeeze_score fuel) 60 then base_move * 1.5
    else base_move in
  Ok (py_min 0.50 base_move).

Definition _calculate_expected_return (market_data : MarketData.t)
    (pressure : PressureSignal.t) (fuel : FuelSignal.t)
    : Exc (Q * option Q) :=
  let current_price := MarketData.price market_data in
  '(target_price, basic_return) ←
    match PressureSignal.target_strike pressure with
    | Some strike =>
        if truthy (Some strike)
           && Qgtb (PressureSignal.probability_reach pressure) 0.5
        then
          basic_return ← float_div (strike - current_price) current_price;
          Ok (strike, basic_return)
        else
          estimated_move ← _estimate_price_move market_data fuel;
          Ok (current_price * (1 + estimated_move), estimated_move)
    | None =>
        estimated_move ← _estimate_price_move market_data fuel;
        Ok (current_price * (1 + estimated_move), estimated_move)
    end;
  let probability_adjusted_return :=
    basic_return * PressureSignal.probability_reach pressure in
  let probability_adjusted_return :=
    if Qgtb (FuelSignal.short_squeeze_score fuel) 70 then
      let squeeze_multiplier := 1 + FuelSignal.short_squeeze_score fuel / 200 in
      probability_adjusted_return * squeeze_multiplier
    else probability_adjusted_return in
  Ok (probability_adjusted_return, Some target_price).

Definition _calculate_risk_reward (current_price : Q)
    (target_price : option Q) (expected_return : Q) : Exc Q :=
  match target_price with
  | None => Ok 1
  | Some target =>
      if negb (truthy (Some target)) || Qleb target current_price then Ok 1
      else
        let stop_loss := current_price * 0.95 in
        potential_loss ← float_div (current_price - stop_loss) current_price;
        let potential_gain := expected_return in
        if Qleb potential_loss 0 then Ok 10
        else Ok (potential_gain / potential_loss)
  end.

(** [score_symbol]: the engines are called without auxiliary data, the
    benchmark reads and may write the shared cache; [None] is the result
    of the [except] branch. *)
Definition score_symbol (cache : gmap string (Z * Q))
    (market_data : MarketData.t) (timeframe : string) (w : World)
    : option CompositeScore.t * gmap string (Z * Q) :=
  let ignition_signal := IgnitionEngine.analyze cfg market_data None in
  let pressure_signal := PressureEngine.analyze market_data None in
  let fuel_signal := FuelEngine.analyze cfg market_data None in
  let total_score :=
    _calculate_weighted_score ignition_signal pressure_signal fuel_signal in
  match _calculate_expected_return market_data pressure_signal fuel_signal with
  | Raise _ => (None, cache)
  | Ok (expected_return, target_price) =>
      let o := BTCBenchmark.get_expected_return cache timeframe w in
      let btc_return := returned o in
      let btc_passed := Qgtb expected_return btc_return in
      match _calculate_risk_reward (MarketData.price market_data)
              target_price expected_return with
      | Raise _ => (None, cache_after o)
      | Ok risk_reward =>
          (Some (CompositeScore.mk (MarketData.symbol market_data) total_score
                   (IgnitionSignal.score ignition_signal)
                   (PressureSignal.score pressure_signal)
                   (FuelSignal.score fuel_signal)
                   btc_passed expected_return btc_return
                   (PressureSignal.probability_reach pressure_signal)
                   target_price risk_reward),
           cache_after o)
      end
  end.

(** The filter loop of [filter_and_rank]; each [continue] drops the
    entry. *)
Fixpoint filter_loop (scores : list CompositeScore.t) : list CompositeScore.t :=
  match scores with
  | [] => []
  | score :: rest =>
      if negb (CompositeScore.btc_benchmark_passed score) then filter_loop rest
      else if Qltb (CompositeScore.total_score score)
                (inject_Z (MIN_SCORE_THRESHOLD cfg))
      then filter_loop rest
      else if Qltb (CompositeScore.probability_reach score)
                (MIN_PROBABILITY_THRESHOLD cfg)
      then filter_loop rest
      else score :: filter_loop rest
  end.

Definition ranking_key (score : CompositeScore.t) : Q :=
  CompositeScore.total_score score * 0.7
  + CompositeScore.probability_reach score * 30
  + CompositeScore.risk_reward_ratio score * 5.

Definition filter_and_rank (scores : list CompositeScore.t)
    : list CompositeScore.t :=
  let filtered := filter_loop scores in
  let ranked := sorted_desc ranking_key filtered in
  py_slice_to (MAX_SYMBOLS_PER_SCAN cfg) ranked.

Definition _estimate_timeframe (probability : Q) : string :=
  if Qgtb probability 0.8 then "20-60 minutes"
  else if Qgtb probability 0.7 then "1-2 hours"
  else if Qgtb probability 0.6 then "2-4 hours"
  else "4+ hours".

Definition _generate_reasoning `{FormatLib} (score : CompositeScore.t)
    (market_data : MarketData.t) : string :=
  let reasons :=
    [("Score: " ++ fmt_0f (CompositeScore.total_score score) ++ "/100")%string] in
  let reasons :=
    if Qgtb (CompositeScore.expected_return score) 0.1 then
      reasons ++ [("Expected return: "
                   ++ fmt_pct1 (CompositeScore.expected_return score))%string]
    else reasons in
  let reasons :=
    match CompositeScore.target_price score with
    | Some target =>
        if truthy (Some target) then
          reasons ++ [("Target: $" ++ fmt_2f target)%string]
        else reasons
    | None => reasons
    end in
  let reasons :=
    reasons ++ [("vs BTC: " ++ fmt_pct1 (CompositeScore.expected_return score)
                 ++ " vs "
                 ++ fmt_pct1 (CompositeScore.btc_expected_return score))%string] in
  let reasons :=
    if Qgtb (CompositeScore.probability_reach score) 0.7 then
      reasons ++ [("High probability: "
                   ++ fmt_pct1 (CompositeScore.probability_reach score))%string]
    else reasons in
  let reasons :=
    if Qgtb (CompositeScore.risk_reward_ratio score) 3 then
      reasons ++ [("Good R/R: "
                   ++ fmt_1f (CompositeScore.risk_reward_ratio score)
                   ++ ":1")%string]
    else reasons in
  String.concat "; " reasons.

Definition _identify_squeeze_factors (score : CompositeScore.t) : list string :=
  let factors := [] in
  let factors :=
    if Qgtb (CompositeScore.ignition_score score) 70
    then factors ++ ["momentum_ignition"%string] else factors in
  let factors :=
    if Qgtb (CompositeScore.pressure_score score) 70
    then factors ++ ["options_pressure"%string] else factors in
  let factors :=
    if Qgtb (CompositeScore.fuel_score score) 70
    then factors ++ ["squeeze_fuel"%string] else factors in
  let factors :=
    if Qgtb (CompositeScore.probability_reach score) 0.8
    then factors ++ ["high_probability"%string] else factors in
  let factors :=
    if Qgtb (CompositeScore.expected_return score) 0.15
    then factors ++ ["high_return_potential"%string] else factors in
  factors.

(** The loop of [create_scan_results]; [i] is the index of [enumerate]. *)
Fixpoint create_scan_results_from `{FormatLib} (i : Z)
    (scores : list CompositeScore.t)
    (market_data_dict : gmap string MarketData.t)
    : Keyed (list ScanResult.t) :=
  match scores with
  | [] => Built []
  | score :: rest =>
      match market_data_dict !! CompositeScore.symbol score with
      | None => KeyError (CompositeScore.symbol score)
      | Some market_data =>
          let entry_low := MarketData.price market_data * 0.99 in
          let entry_high := MarketData.price market_data * 1.01 in
          let stop_loss := MarketData.price market_data * 0.95 in
          let timeframe :=
            _estimate_timeframe (CompositeScore.probability_reach score) in
          let reasoning := _generate_reasoning score market_data in
          let squeeze_factors := _identify_squeeze_factors score in
          let result :=
            ScanResult.mk (CompositeScore.symbol score) (i + 1)
              (CompositeScore.total_score score)
              (MarketData.price market_data) (MarketData.vwap market_data)
              (CompositeScore.target_price score)
              (CompositeScore.probability_reach score)
              (CompositeScore.expected_return score)
              timeframe (entry_low, entry_high) stop_loss squeeze_factors
              reasoning in
          match create_scan_results_from (i + 1) rest market_data_dict with
          | Built results => Built (result :: results)
          | KeyError key => KeyError key
          end
      end
  end.

Definition create_scan_results `{FormatLib} (scores : list CompositeScore.t)
    (market_data_dict : gmap string MarketData.t) : Keyed (list ScanResult.t) :=
  create_scan_results_from 0 scores market_data_dict.
End Scorer.
End CompositeScorer.

(** ** [execution/scanner.py] *)

Module MarketScanner.
Section Scanner.
Context (cfg : ScannerConfig).

(** The loop of [_apply_basic_filters]; each [continue] drops the
    snapshot.  [high == low == price] is the chain
    [high == low and low == price]. *)
Fixpoint _apply_basic_filters (market_data_list : list MarketData.t)
    : list MarketData.t :=
  match market_data_list with
  | [] => []
  | data :: rest =>
      if Qltb (MarketData.price data) (MIN_PRICE cfg)
         || Qgtb (MarketData.price data) (MAX_PRICE cfg)
      then _apply_basic_filters rest
      else if (MarketData.volume data <=? 0)%Z
      then _apply_basic_filters rest
      else if Qleb (MarketData.high data) 0 || Qleb (MarketData.low data) 0
              || Qleb (MarketData.open data) 0
      then _apply_basic_filters rest
      else if (Qeq_bool (MarketData.high data) (MarketData.low data)
               && Qeq_bool (MarketData.low data) (MarketData.price data))
              && (MarketData.volume data <? 1000)%Z
      then _apply_basic_filters rest
      else data :: _apply_basic_filters rest
  end.

(** [{md.symbol: md for md in filtered_data}] of [run_scan]: a later
    snapshot of a symbol replaces an earlier one. *)
Definition market_data_dict (filtered_data : list MarketData.t)
    : gmap string MarketData.t :=
  fold_left (fun d md => <[MarketData.symbol md := md]> d) filtered_data ∅.
End Scanner.
End MarketScanner.

(** ** One implementation of the numeric interface

    Concrete inputs are run with this implementation.  Its frames are
    given by their observations, its random draws return the lower end of
    the interval, its truth test of a frame raises ValueError as pandas
    does.  Its analytic functions are constants ([np_exp] is 1, its value
    at 0; [np_sqrt] is exact on squares of integers); the runs below meet
    them at these arguments only, or raise before they are called. *)
Record SampleFrame : Type := {
  sample_empty : bool;
  sample_len : Z;
  sample_std : Z -> Q;
  sample_mean : Z -> Q
}.

Definition sum_Q (l : list Q) : Q := fold_right Qplus 0 l.

Definition sample_lib : NumLib := {|
  np_exp := fun _ => 1;
  np_log := fun _ => 0;
  np_sqrt := fun x => inject_Z (Z.sqrt (Qfloor x));
  np_mean := fun l => sum_Q l / inject_Z (Z.of_nat (length l));
  norm_cdf := fun _ => 1 # 2;
  np_random_uniform := fun _ _ lo _ => lo;
  np_random_normal := fun _ mu _ n => repeat mu n;
  np_polyfit_slope := fun _ => Ok 0;
  Series := list Q;
  pd_Series := fun l => l;
  series_len := fun s => length s;
  series_values := fun s => s;
  series_tail := fun n s => skipn (length s - n) s;
  series_add := fun a b => map (fun p => fst p + snd p) (combine a b);
  series_sub := fun a b => map (fun p => fst p - snd p) (combine a b);
  series_div := fun a b => map (fun p => fst p / snd p) (combine a b);
  series_scale := fun a c => map (fun x => x * c) a;
  rolling_mean := fun _ s => s;
  rolling_std := fun _ s => map (fun _ => 0) s;
  iloc_last := fun s =>
    match rev s with
    | [] => Raise IndexError
    | x :: _ => Ok x
    end;
  DataFrame := SampleFrame;
  df_empty := sample_empty;
  df_len := sample_len;
  df_bool := fun _ => Raise ValueError;
  returns_tail_std := sample_std;
  returns_tail_mean := sample_mean
|}.

(** ** Predicates and inputs of the statements *)


Definition retainedb (cfg : ScannerConfig) (s : CompositeScore.t) : bool :=
  CompositeScore.btc_benchmark_passed s
  && negb (Qltb (CompositeScore.total_score s) (inject_Z (MIN_SCORE_THRESHOLD cfg)))
  && negb (Qltb (CompositeScore.probability_reach s) (MIN_PROBABILITY_THRESHOLD cfg)).

(** Candidates for the ranking: symbol, total score, probability,
    risk/reward ratio, benchmark flag. *)
Definition candidate (sym : string) (total probability risk_reward : Q)
    (passed : bool) : CompositeScore.t :=
  CompositeScore.mk sym total 0 0 0 passed 0.05 0.02 probability (Some 1)
    risk_reward.

Definition ranking_input : list CompositeScore.t :=
  [ candidate "AAA" 80 0.70 2 true;
    candidate "BBB" 69 0.90 2 true;
    candidate "CCC" 90 0.80 1 true;
    candidate "DDD" 80 0.70 2 true;
    candidate "EEE" 95 0.99 3 false;
    candidate "FFF" 85 0.60 2 true;
    candidate "GGG" 75 0.75 1 true ].

(** The scenario of the specification: AAPL at 150.00 with a pressure
    target of 155.00 reached with probability 0.62, and a squeeze score of
    75. *)
Definition scenario_market_data : MarketData.t :=
  MarketData.mk "AAPL" 150 5000000 149.80 152 148.50 150 0.

Definition scenario_pressure : PressureSignal.t :=
  PressureSignal.mk (Some 155) 0.62 "neutral" [] 150 (Fin 1) 50.

Definition scenario_fuel : FuelSignal.t :=
  FuelSignal.mk false true true false 1 75 [] 55.

(** A week of hourly data with the statistics of the scenario. *)
Definition scenario_frame : SampleFrame := {|
  sample_empty := false;
  sample_len := 168;
  sample_std := fun _ => 0.01;
  sample_mean := fun _ => 0.002
|}.

(** [n] seconds, in the unit of the clock. *)
Definition seconds (n : Z) : Z := (n * us_per_second)%Z.

(** An entry for "1h" written at time 0, and a call made 24 hours and 10
    seconds later. *)
Definition day_old_cache : gmap string (Z * Q) :=
  {[ "btc_return_1h"%string := (0%Z, 0.05) ]}.

Definition next_day : @World sample_lib := {|
  now_at_check := seconds 86410;
  now_at_store := seconds 86411;
  history := @FetchHistory sample_lib scenario_frame
|}.

(** A call at a time when the data provider fails. *)
Definition provider_down : @World sample_lib := {|
  now_at_check := seconds 1000;
  now_at_store := seconds 1001;
  history := @FetchError sample_lib
|}.

(** An options snapshot without strikes, and one whose only strike is the
    current price of the scenario. *)
Definition no_strikes : OptionsData.t :=
  OptionsData.mk "AAPL" [] [] [] [] [] [] 0.

Definition at_the_money : OptionsData.t :=
  OptionsData.mk "AAPL" [150] [(150, 900%Z)] [(150, 700%Z)]
    [(150, 5000%Z)] [(150, 100%Z)] [(150, 0.3)] 0.

(** A snapshot with a price of zero, and one with a volume beyond the
    range of a float next to an average volume of one share. *)
Definition zero_price : MarketData.t :=
  MarketData.mk "ZERO" 0 1000 0 1 0 0 0.

Definition huge_volume : MarketData.t :=
  MarketData.mk "HUGE" 10 (2 ^ 1024) 10 11 9 10 0.

Definition one_share_average : FundamentalData.t :=
  FundamentalData.mk "HUGE" 10000000 20 2000000 60 1 100000000 10.

(** The tests a snapshot has to pass in [_apply_basic_filters]. *)
Definition passes_basic_filters (cfg : ScannerConfig) (data : MarketData.t)
    : Prop :=
  MIN_PRICE cfg <= MarketData.price data <= MAX_PRICE cfg
  /\ (0 < MarketData.volume data)%Z
  /\ 0 < MarketData.high data
  /\ 0 < MarketData.low data
  /\ 0 < MarketData.open data
  /\ ~ (MarketData.high data == MarketData.low data
        /\ MarketData.low data == MarketData.price data
        /\ (MarketData.volume data < 1000)%Z).

Definition passes_basic_filtersb (cfg : ScannerConfig) (data : MarketData.t)
    : bool :=
  negb (Qltb (MarketData.price data) (MIN_PRICE cfg)
        || Qgtb (MarketData.price data) (MAX_PRICE cfg))
  && negb (MarketData.volume data <=? 0)%Z
  && negb (Qleb (MarketData.high data) 0 || Qleb (MarketData.low data) 0
           || Qleb (MarketData.open data) 0)
  && negb ((Qeq_bool (MarketData.high data) (MarketData.low data)
            && Qeq_bool (MarketData.low data) (MarketData.price data))
           && (MarketData.volume data <? 1000)%Z).

(** One implementation of the formats, for concrete runs: it prints the
    exact fraction where Python prints a rounded decimal. *)
Definition fraction_text (x : Q) : string :=
  (pretty (Qnum x) ++ "/" ++ pretty (Zpos (Qden x)))%string.

Definition sample_format : FormatLib := {|
  fmt_0f := fraction_text;
  fmt_1f := fraction_text;
  fmt_2f := fraction_text;
  fmt_pct1 := fun x => (fraction_text (x * 100) ++ "%")%string
|}.

(** The snapshots of a scan and the scores of its candidates. *)
Definition scan_snapshots : list MarketData.t :=
  [ MarketData.mk "AAA" 10 50000 10 11 9 10 0;
    MarketData.mk "CCC" 20 60000 20 21 19 20 0;
    MarketData.mk "DDD" 30 70000 30 31 29 30 0 ].

(** The numeric interface of [sample_lib] with a truth test that lets a
    frame pass, to run the path that computes and caches. *)
Definition lenient_lib : NumLib := {|
  np_exp := @np_exp sample_lib;
  np_log := @np_log sample_lib;
  np_sqrt := @np_sqrt sample_lib;
  np_mean := @np_mean sample_lib;
  norm_cdf := @norm_cdf sample_lib;
  np_random_uniform := @np_random_uniform sample_lib;
  np_random_normal := @np_random_normal sample_lib;
  np_polyfit_slope := @np_polyfit_slope sample_lib;
  Series := list Q;
  pd_Series := @pd_Series sample_lib;
  series_len := @series_len sample_lib;
  series_values := @series_values sample_lib;
  series_tail := @series_tail sample_lib;
  series_add := @series_add sample_lib;
  series_sub := @series_sub sample_lib;
  series_div := @series_div sample_lib;
  series_scale := @series_scale sample_lib;
  rolling_mean := @rolling_mean sample_lib;
  rolling_std := @rolling_std sample_lib;
  iloc_last := @iloc_last sample_lib;
  DataFrame := SampleFrame;
  df_empty := sample_empty;
  df_len := sample_len;
  df_bool := fun _ => Ok true;
  returns_tail_std := sample_std;
  returns_tail_mean := sample_mean
|}.

(** A first call that finds the provider up, and a second call a minute
    after the first has written the cache. *)
Definition provider_up : @World lenient_lib := {|
  now_at_check := seconds 1000;
  now_at_store := seconds 1001;
  history := @FetchHistory lenient_lib scenario_frame
|}.


(** The snapshot a symbol has in the dictionary of [run_scan]: the last
    one of the list with that symbol. *)
Definition last_snapshot_of (key : string) (snapshots : list MarketData.t)
    : option MarketData.t :=
  List.find (fun md => String.eqb (MarketData.symbol md) key) (rev snapshots).

(** * Properties *)

(** ** Comparisons, [min] and [max] *)

Lemma Qltb_true (a b : Q) : Qltb a b = true <-> a < b.
Proof.
  unfold Qltb. destruct (Qlt_le_dec a b) as [Hlt | Hle]; split; intros Hx;
    try reflexivity; try assumption; try discriminate.
  exfalso. lra.
Qed.

Lemma Qltb_false (a b : Q) : Qltb a b = false <-> b <= a.
Proof.
  unfold Qltb. destruct (Qlt_le_dec a b) as [Hlt | Hle]; split; intros Hx;
    try reflexivity; try assumption; try discriminate.
  exfalso. lra.
Qed.

Lemma Qgtb_true (a b : Q) : Qgtb a b = true <-> b < a.
Proof. unfold Qgtb. apply Qltb_true. Qed.

Lemma Qgtb_false (a b : Q) : Qgtb a b = false <-> a <= b.
Proof. unfold Qgtb. apply Qltb_false. Qed.

Lemma Qleb_true (a b : Q) : Qleb a b = true <-> a <= b.
Proof. unfold Qleb. apply Qle_bool_iff. Qed.

Lemma Qleb_false (a b : Q) : Qleb a b = false <-> b < a.
Proof.
  unfold Qleb. split; intros Hx.
  - destruct (Qlt_le_dec b a) as [Hlt | Hle]; [assumption |].
    apply Qle_bool_iff in Hle. congruence.
  - destruct (Qle_bool a b) eqn:E; [| reflexivity].
    apply Qle_bool_iff in E. exfalso. lra.
Qed.

Lemma py_min_le_l (a b : Q) : py_min a b <= a.
Proof. unfold py_min. destruct (Qlt_le_dec b a); lra. Qed.

Lemma py_min_le_r (a b : Q) : py_min a b <= b.
Proof. unfold py_min. destruct (Qlt_le_dec b a); lra. Qed.

Lemma py_min_glb (a b c : Q) : c <= a -> c <= b -> c <= py_min a b.
Proof. unfold py_min. destruct (Qlt_le_dec b a); lra. Qed.

Lemma py_max_ge_l (a b : Q) : a <= py_max a b.
Proof. unfold py_max. destruct (Qlt_le_dec a b); lra. Qed.

Lemma py_max_ge_r (a b : Q) : b <= py_max a b.
Proof. unfold py_max. destruct (Qlt_le_dec a b); lra. Qed.

Lemma py_max_lub (a b c : Q) : a <= c -> b <= c -> py_max a b <= c.
Proof. unfold py_max. destruct (Qlt_le_dec a b); lra. Qed.

(** The clamp [max(lo, min(hi, x))] lands in [[lo, hi]]. *)
Lemma clamp_bounds (lo hi x : Q) :
  lo <= hi -> lo <= py_max lo (py_min hi x) <= hi.
Proof.
  intros Hlohi. split.
  - apply py_max_ge_l.
  - apply py_max_lub; [assumption | apply py_min_le_l].
Qed.

(** ** [sorted(..., reverse=True)] *)

Section SortedFacts.
Context {A : Type} (key : A -> Q).

Lemma insert_desc_perm (x : A) (l : list A) :
  Permutation (insert_desc key x l) (x :: l).
Proof.
  induction l as [| y ys IH]; simpl.
  - apply Permutation_refl.
  - destruct (Qle_bool (key y) (key x)).
    + apply Permutation_refl.
    + eapply Permutation_trans; [apply perm_skip, IH | apply perm_swap].
Qed.

Lemma sorted_desc_perm (l : list A) : Permutation (sorted_desc key l) l.
Proof.
  induction l as [| x xs IH]; simpl.
  - apply perm_nil.
  - eapply Permutation_trans; [apply insert_desc_perm |].
    apply perm_skip, IH.
Qed.

Lemma sorted_desc_length (l : list A) :
  length (sorted_desc key l) = length l.
Proof. apply Permutation_length, sorted_desc_perm. Qed.

Lemma insert_desc_descending (x : A) (l : list A) :
  descending key l -> descending key (insert_desc key x l).
Proof.
  unfold descending. induction l as [| y ys IH]; intros Hs; simpl.
  - constructor; constructor.
  - apply StronglySorted_inv in Hs. destruct Hs as [Hys Hall].
    destruct (Qle_bool (key y) (key x)) eqn:E.
    + apply Qle_bool_iff in E. constructor.
      * constructor; assumption.
      * constructor; [assumption |].
        eapply List.Forall_impl; [| exact Hall]. simpl. intros b Hb. lra.
    + assert (Hlt : key x < key y).
      { destruct (Qlt_le_dec (key x) (key y)) as [Hl | Hl]; [assumption |].
        apply Qle_bool_iff in Hl. congruence. }
      constructor; [apply IH; assumption |].
      eapply Permutation_Forall.
      * apply Permutation_sym, insert_desc_perm.
      * constructor; [lra | assumption].
Qed.

Lemma sorted_desc_descending (l : list A) : descending key (sorted_desc key l).
Proof.
  induction l as [| x xs IH]; simpl.
  - constructor.
  - apply insert_desc_descending, IH.
Qed.


End SortedFacts.

Lemma py_slice_to_length {A : Type} (n : Z) (l : list A) :
  length (py_slice_to n l)
  = if (0 <=? n)%Z then Nat.min (Z.to_nat n) (length l)
    else (length l - Z.to_nat (- n))%nat.
Proof.
  unfold py_slice_to. destruct (0 <=? n)%Z; rewrite length_firstn; lia.
Qed.

(** ** [filter_and_rank] *)


Lemma filter_loop_filter (cfg : ScannerConfig) (scores : list CompositeScore.t) :
  CompositeScorer.filter_loop cfg scores = List.filter (retainedb cfg) scores.
Proof.
  induction scores as [| s rest IH]; [reflexivity |].
  simpl. unfold retainedb at 1.
  destruct (CompositeScore.btc_benchmark_passed s); simpl; [| exact IH].
  destruct (Qltb (CompositeScore.total_score s) _); simpl; [exact IH |].
  destruct (Qltb (CompositeScore.probability_reach s) _); simpl; [exact IH |].
  rewrite IH. reflexivity.
Qed.


Lemma filter_loop_length_antitone (cfg : ScannerConfig) (t1 t2 : Z)
    (scores : list CompositeScore.t) :
  (t1 <= t2)%Z ->
  (length (CompositeScorer.filter_loop (with_min_score_threshold t2 cfg) scores)
   <= length (CompositeScorer.filter_loop (with_min_score_threshold t1 cfg) scores))%nat.
Proof.
  intros Hle. induction scores as [| s rest IH]; [apply Nat.le_refl |].
  simpl.
  destruct (CompositeScore.btc_benchmark_passed s); simpl; [| exact IH].
  assert (Hq : inject_Z t1 <= inject_Z t2).
  { rewrite <- Zle_Qle. exact Hle. }
  destruct (Qltb (CompositeScore.total_score s) (inject_Z t2)) eqn:E2;
    destruct (Qltb (CompositeScore.total_score s) (inject_Z t1)) eqn:E1.
  - exact IH.
  - destruct (Qltb (CompositeScore.probability_reach s) _); simpl; lia.
  - apply Qltb_false in E2. apply Qltb_true in E1. exfalso. lra.
  - destruct (Qltb (CompositeScore.probability_reach s) _); simpl; lia.
Qed.

(** C6.  Raising MIN_SCORE_THRESHOLD never increases the number of
    candidates [filter_and_rank] returns for one input list. *)
Theorem raising_min_score_never_adds_candidates
    (cfg : ScannerConfig) (t1 t2 : Z) (scores : list CompositeScore.t) :
  (t1 <= t2)%Z ->
  (length (CompositeScorer.filter_and_rank (with_min_score_threshold t2 cfg) scores)
   <= length (CompositeScorer.filter_and_rank (with_min_score_threshold t1 cfg) scores))%nat.
Proof.
  intros Hle. unfold CompositeScorer.filter_and_rank.
  rewrite !py_slice_to_length, !sorted_desc_length. simpl.
  pose proof (filter_loop_length_antitone cfg t1 t2 scores Hle) as Hlen.
  destruct (0 <=? MAX_SYMBOLS_PER_SCAN cfg)%Z; lia.
Qed.

Lemma raising_min_score_never_adds_candidates_witness :
  (length (CompositeScorer.filter_and_rank (with_min_score_threshold 70 config)
             ranking_input)
   <= length (CompositeScorer.filter_and_rank (with_min_score_threshold 60 config)
                ranking_input))%nat.
Proof.
  apply (raising_min_score_never_adds_candidates config 60 70 ranking_input).
  lia.
Defined.

(** The ranking on seven candidates: one fails the benchmark, one is below
    the minimum score, one below the minimum probability; of the four
    others the first three by key are returned, the two of equal key in
    their input order. *)
Example filter_and_rank_on_ranking_input :
  map CompositeScore.symbol (CompositeScorer.filter_and_rank config ranking_input)
  = ["CCC"; "AAA"; "DDD"]%string.
Proof. reflexivity. Qed.

Example filter_and_rank_equal_keys :
  CompositeScorer.ranking_key (candidate "AAA" 80 0.70 2 true)
  == CompositeScorer.ranking_key (candidate "DDD" 80 0.70 2 true).
Proof. reflexivity. Qed.

(** With MIN_SCORE_THRESHOLD at 70, a single candidate scoring 69 gives no
    result. *)
Example single_candidate_below_threshold :
  CompositeScorer.filter_and_rank config [candidate "BBB" 69 0.90 2 true] = [].
Proof. reflexivity. Qed.

(** ** Expected return and risk/reward *)

(** C1, as the code has it.  With price 150, target strike 155 reached
    with probability 0.62 (above the 0.5 cutoff) and squeeze score 75 (above
    70), the expected return is ((155-150)/150) * 0.62 * (1 + 75/200), which
    is 341/12000, about 0.0284; the target price is the strike. *)
Theorem expected_return_of_scenario
    (market_data : MarketData.t) (pressure : PressureSignal.t)
    (fuel : FuelSignal.t) (strike : Q) :
  MarketData.price market_data == 150 ->
  PressureSignal.target_strike pressure = Some strike ->
  strike == 155 ->
  PressureSignal.probability_reach pressure == 0.62 ->
  FuelSignal.short_squeeze_score fuel == 75 ->
  exists r,
    CompositeScorer._calculate_expected_return market_data pressure fuel
    = Ok (r, Some strike)
    /\ r == ((155 - 150) / 150) * 0.62 * (1 + 75 / 200)
    /\ r == 341 # 12000
    /\ 0.0284 < r < 0.0285.
Proof.
  intros Hprice Hts Hstrike Hprob Hsq.
  unfold CompositeScorer._calculate_expected_return. rewrite Hts.
  assert (Htruthy : truthy (Some strike) = true).
  { simpl. destruct (Qeq_bool strike 0) eqn:E; [| reflexivity].
    apply Qeq_bool_iff in E. exfalso. lra. }
  assert (Hcut : Qgtb (PressureSignal.probability_reach pressure) 0.5 = true).
  { apply Qgtb_true. lra. }
  rewrite Htruthy, Hcut. simpl andb. cbv iota.
  unfold float_div.
  destruct (Qeq_bool (MarketData.price market_data) 0) eqn:E.
  { apply Qeq_bool_iff in E. exfalso. lra. }
  assert (Hsqz : Qgtb (FuelSignal.short_squeeze_score fuel) 70 = true).
  { apply Qgtb_true. lra. }
  simpl. rewrite Hsqz.
  eexists. split; [reflexivity |].
  assert (Hr : (strike - MarketData.price market_data)
               / MarketData.price market_data
               * PressureSignal.probability_reach pressure
               * (1 + FuelSignal.short_squeeze_score fuel / 200)
               == 341 # 12000).
  { rewrite Hprice, Hstrike, Hprob, Hsq. reflexivity. }
  split; [rewrite Hr; reflexivity |].
  split; [exact Hr |].
  rewrite Hr. split; reflexivity.
Qed.

Lemma expected_return_of_scenario_witness :
  exists r,
    CompositeScorer._calculate_expected_return scenario_market_data
      scenario_pressure scenario_fuel = Ok (r, Some 155)
    /\ r == ((155 - 150) / 150) * 0.62 * (1 + 75 / 200)
    /\ r == 341 # 12000
    /\ 0.0284 < r < 0.0285.
Proof.
  apply (expected_return_of_scenario scenario_market_data scenario_pressure
           scenario_fuel 155); reflexivity.
Defined.

(** The value 0.0431 given for the scenario is not what the formula
    yields: the expected return of the scenario is 341/12000, more than
    0.014 below 0.0431. *)
Lemma scenario_expected_return_is_not_0_0431 :
  exists r,
    CompositeScorer._calculate_expected_return scenario_market_data
      scenario_pressure scenario_fuel = Ok (r, Some 155)
    /\ r == ((155 - 150) / 150) * 0.62 * (1 + 75 / 200)
    /\ ~ (Qabs (r - 0.0431) <= 0.01).
Proof.
  eexists. split; [reflexivity |]. split; [reflexivity |].
  intros Habs. vm_compute in Habs. apply Habs. reflexivity.
Qed.



(** ** The benchmark estimator *)

Lemma periods_of_4h : BTCBenchmark._get_periods_for_timeframe "4h" = Ok 4%Z.
Proof. reflexivity. Qed.

Lemma periods_of_1d : BTCBenchmark._get_periods_for_timeframe "1d" = Ok 24%Z.
Proof. reflexivity. Qed.

Lemma periods_of_bad_hours :
  BTCBenchmark._get_periods_for_timeframe "1h30m" = Raise ValueError.
Proof. reflexivity. Qed.

(** C2, as the code has it.  With momentum 0.002, four periods and
    volatility 0.01 on a sufficient history, the momentum is not dominant
    (0.002 is not above 0.005), so the conservative choice
    min(|0.002 * 4|, 0.01 * sqrt 4) stands; it is at most 0.008, the floor
    of 0.01 lifts it, and the ceiling 0.12 leaves it: the result is 0.01. *)
Theorem benchmark_scenario_returns_floor `{NumLib} (btc_data : DataFrame) :
  (8 <= df_len btc_data)%Z ->
  returns_tail_mean btc_data 4 == 0.002 ->
  returns_tail_std btc_data 16 == 0.01 ->
  exists r,
    BTCBenchmark._calculate_expected_return btc_data "4h" = Ok r
    /\ r == 0.01
    /\ ~ r == 0.02.
Proof.
  intros Hlen Hmom Hvol.
  unfold BTCBenchmark._calculate_expected_return.
  unfold BTCBenchmark._get_max_expectation_for_timeframe.
  rewrite periods_of_4h. unfold mbind, exc_bind. cbv beta iota.
  assert (Hlong : (df_len btc_data <? 4 * 2)%Z = false).
  { apply Z.ltb_ge. lia. }
  rewrite Hlong.
  change (4 <=? 1)%Z with false. change (4 <=? 2)%Z with false.
  change (4 <=? 4)%Z with true. cbv beta iota.
  change (4 * 4)%Z with 16%Z.
  assert (Hweak : Qgtb (Qabs (returns_tail_mean btc_data 4))
                    (returns_tail_std btc_data 16 * 0.5) = false).
  { apply Qgtb_false. rewrite Hmom, Hvol. vm_compute. discriminate. }
  rewrite Hweak.
  eexists. split; [reflexivity |].
  set (base := Qabs (returns_tail_mean btc_data 4 * inject_Z 4)).
  set (vexp := returns_tail_std btc_data 16 * np_sqrt (inject_Z 4)).
  assert (Hbase : base == 0.008).
  { unfold base. rewrite Hmom. reflexivity. }
  assert (Hmin : py_min base vexp <= 0.008).
  { rewrite <- Hbase. apply py_min_le_l. }
  assert (Hfloor : py_max (py_min base vexp) 0.01 == 0.01).
  { unfold py_max. destruct (Qlt_le_dec (py_min base vexp) 0.01) as [Hl | Hl].
    - reflexivity.
    - exfalso. lra. }
  assert (Hres : py_min (py_max (py_min base vexp) 0.01) 0.12 == 0.01).
  { unfold py_min at 1.
    destruct (Qlt_le_dec 0.12 (py_max (py_min base vexp) 0.01)) as [Hl | Hl].
    - exfalso. lra.
    - exact Hfloor. }
  split; [exact Hres |].
  rewrite Hres. intros Habs. vm_compute in Habs. discriminate.
Qed.

Lemma benchmark_scenario_returns_floor_witness :
  exists r,
    @BTCBenchmark._calculate_expected_return sample_lib scenario_frame "4h"
    = Ok r
    /\ r == 0.01
    /\ ~ r == 0.02.
Proof.
  apply (@benchmark_scenario_returns_floor sample_lib scenario_frame).
  - vm_compute. discriminate.
  - reflexivity.
  - reflexivity.
Defined.

(** The scenario does not return 0.02: the volatility expectation
    0.01 * sqrt 4 = 0.02 is the larger of the two candidates and is not
    selected; the code returns 0.01. *)
Lemma benchmark_scenario_is_not_0_02 :
  @np_sqrt sample_lib (inject_Z 4) == 2
  /\ exists r,
       @BTCBenchmark._calculate_expected_return sample_lib scenario_frame "4h"
       = Ok r
       /\ r == 0.01
       /\ ~ r == 0.02.
Proof.
  split; [reflexivity |].
  eexists. split; [reflexivity |]. split; [reflexivity |].
  intros Habs. vm_compute in Habs. discriminate.
Qed.

(** *** The cache check *)

Lemma timedelta_seconds_within_a_day (delta : Z) :
  (0 <= delta < us_per_day)%Z ->
  timedelta_seconds delta = (delta / us_per_second)%Z.
Proof.
  intros Hr. unfold timedelta_seconds. rewrite Z.mod_small; [reflexivity | lia].
Qed.

(** Whole days of age do not show in [timedelta.seconds]. *)
Lemma timedelta_seconds_ignores_days (delta days : Z) :
  timedelta_seconds (delta + days * us_per_day) = timedelta_seconds delta.
Proof.
  unfold timedelta_seconds. rewrite Z.mod_add; [reflexivity |].
  unfold us_per_day, us_per_second. lia.
Qed.

(** For an entry less than a day old, the check is the test "age below
    300 seconds". *)
Lemma cache_check_within_a_day (cache : gmap string (Z * Q))
    (timeframe : string) (now cached_time : Z) (cached_value : Q) :
  cache !! BTCBenchmark.cache_key timeframe = Some (cached_time, cached_value) ->
  (0 <= now - cached_time < us_per_day)%Z ->
  BTCBenchmark.cache_check cache timeframe now
  = if (now - cached_time <? seconds 300)%Z then Some cached_value else None.
Proof.
  intros Hentry Hage. unfold BTCBenchmark.cache_check. rewrite Hentry.
  rewrite timedelta_seconds_within_a_day by assumption.
  unfold BTCBenchmark.cache_duration, seconds, us_per_second.
  destruct (now - cached_time <? 300 * 1000000)%Z eqn:E.
  - apply Z.ltb_lt in E.
    assert (Hq : ((now - cached_time) / 1000000 <? 300)%Z = true).
    { apply Z.ltb_lt. apply Z.div_lt_upper_bound; lia. }
    rewrite Hq. reflexivity.
  - apply Z.ltb_ge in E.
    assert (Hq : ((now - cached_time) / 1000000 <? 300)%Z = false).
    { apply Z.ltb_ge. apply Z.div_le_lower_bound; lia. }
    rewrite Hq. reflexivity.
Qed.

(** An entry passes the check again every 24 hours. *)
Lemma cache_check_ignores_days (cache : gmap string (Z * Q))
    (timeframe : string) (now days : Z) :
  BTCBenchmark.cache_check cache timeframe (now + days * us_per_day)
  = BTCBenchmark.cache_check cache timeframe now.
Proof.
  unfold BTCBenchmark.cache_check.
  destruct (cache !! BTCBenchmark.cache_key timeframe) as [[t v] |];
    [| reflexivity].
  replace (now + days * us_per_day - t)%Z
    with (now - t + days * us_per_day)%Z by lia.
  rewrite timedelta_seconds_ignores_days. reflexivity.
Qed.

(** Within the window the cached value is returned, nothing is fetched or
    computed, and the cache is left as it was; a second call inside the
    window does the same. *)
Lemma fresh_entry_is_returned `{NumLib} (cache : gmap string (Z * Q))
    (timeframe : string) (w : World) (cached_time : Z) (cached_value : Q) :
  cache !! BTCBenchmark.cache_key timeframe = Some (cached_time, cached_value) ->
  (0 <= now_at_check w - cached_time < seconds 300)%Z ->
  BTCBenchmark.get_expected_return cache timeframe w
  = {| returned := cached_value; cache_after := cache; path := CacheHit |}.
Proof.
  intros Hentry Hage. unfold BTCBenchmark.get_expected_return.
  rewrite (cache_check_within_a_day cache timeframe _ cached_time cached_value)
    by (try assumption; unfold seconds, us_per_day, us_per_second in *; lia).
  assert (Hlt : (now_at_check w - cached_time <? seconds 300)%Z = true).
  { apply Z.ltb_lt. lia. }
  rewrite Hlt. reflexivity.
Qed.

(** Two calls inside the window return the one cached value, the second
    on the cache the first has left. *)
Lemma two_calls_within_the_window `{NumLib} (cache : gmap string (Z * Q))
    (timeframe : string) (w1 w2 : World) (cached_time : Z) (cached_value : Q) :
  cache !! BTCBenchmark.cache_key timeframe = Some (cached_time, cached_value) ->
  (0 <= now_at_check w1 - cached_time < seconds 300)%Z ->
  (0 <= now_at_check w2 - cached_time < seconds 300)%Z ->
  let first := BTCBenchmark.get_expected_return cache timeframe w1 in
  let second :=
    BTCBenchmark.get_expected_return (cache_after first) timeframe w2 in
  returned first = cached_value
  /\ returned second = cached_value
  /\ path first = CacheHit
  /\ path second = CacheHit
  /\ cache_after second = cache.
Proof.
  intros Hentry H1 H2 first second. unfold second, first.
  rewrite (fresh_entry_is_returned cache timeframe w1 cached_time cached_value)
    by assumption.
  cbn [cache_after].
  rewrite (fresh_entry_is_returned cache timeframe w2 cached_time cached_value)
    by assumption.
  repeat split.
Qed.


(** Without an entry, or with an entry aged between 300 seconds and a day,
    the cached value is not used. *)
Lemma expired_entry_within_a_day_is_not_returned `{NumLib}
    (cache : gmap string (Z * Q)) (timeframe : string) (w : World)
    (cached_time : Z) (cached_value : Q) :
  cache !! BTCBenchmark.cache_key timeframe = Some (cached_time, cached_value) ->
  (seconds 300 <= now_at_check w - cached_time < us_per_day)%Z ->
  path (BTCBenchmark.get_expected_return cache timeframe w) <> CacheHit.
Proof.
  intros Hentry Hage. unfold BTCBenchmark.get_expected_return.
  rewrite (cache_check_within_a_day cache timeframe _ cached_time cached_value)
    by (try assumption; unfold seconds, us_per_second in *; lia).
  assert (Hge : (now_at_check w - cached_time <? seconds 300)%Z = false).
  { apply Z.ltb_ge. lia. }
  rewrite Hge. unfold try_except, BTCBenchmark.compute_body.
  destruct (BTCBenchmark._fetch_btc_data w) as [df |]; simpl; [| discriminate].
  destruct (df_bool df) as [[|] | e]; simpl; try discriminate.
  destruct (BTCBenchmark._calculate_expected_return df timeframe); simpl;
    discriminate.
Qed.

(** C7, at the failing input.  The entry is 86410 seconds old, far beyond
    the 300 seconds of [cache_duration]; its [timedelta.seconds] is 10, the
    check passes, and the stale value is returned without a fetch. *)
Theorem day_old_entry_is_served_from_cache :
  (seconds 300 <= now_at_check next_day - 0)%Z
  /\ timedelta_seconds (now_at_check next_day - 0) = 10%Z
  /\ @BTCBenchmark.get_expected_return sample_lib day_old_cache "1h" next_day
     = {| returned := 0.05; cache_after := day_old_cache; path := CacheHit |}.
Proof.
  split; [vm_compute; discriminate |]. split; reflexivity.
Qed.

(** *** Failure paths *)

(** C9.  When the fetch fails, or yields an empty history, or an
    exception is raised in the [try] block, [get_expected_return] returns
    0.02 and leaves the cache as it was.  The fetch is attempted when the
    cache check has found nothing to return, which is the first
    hypothesis. *)
Theorem benchmark_failure_returns_default_uncached `{NumLib}
    (cache : gmap string (Z * Q)) (timeframe : string) (w : World) :
  BTCBenchmark.cache_check cache timeframe (now_at_check w) = None ->
  history w = FetchError
  \/ (exists hist, history w = FetchHistory hist /\ df_empty hist = true)
  \/ raises (BTCBenchmark.compute_body cache timeframe w) ->
  BTCBenchmark.get_expected_return cache timeframe w
  = {| returned := 0.02; cache_after := cache; path := Defaulted |}.
Proof.
  intros Hmiss Hfail. unfold BTCBenchmark.get_expected_return.
  rewrite Hmiss.
  destruct Hfail as [Herr | [[hist [Hhist Hempty]] | [e Hraise]]].
  - unfold BTCBenchmark.compute_body, BTCBenchmark._fetch_btc_data.
    rewrite Herr. reflexivity.
  - unfold BTCBenchmark.compute_body, BTCBenchmark._fetch_btc_data.
    rewrite Hhist, Hempty. reflexivity.
  - rewrite Hraise. reflexivity.
Qed.

Lemma benchmark_failure_returns_default_uncached_witness :
  @BTCBenchmark.get_expected_return sample_lib day_old_cache "1h" provider_down
  = {| returned := 0.02; cache_after := day_old_cache; path := Defaulted |}.
Proof.
  apply (@benchmark_failure_returns_default_uncached sample_lib day_old_cache
           "1h" provider_down).
  - reflexivity.
  - left. reflexivity.
Defined.

(** An exception in the computation takes the same path: a time frame
    that [int] rejects, on a history that passes the truth test. *)
Lemma bad_timeframe_returns_default `{NumLib} (cache : gmap string (Z * Q))
    (w : World) (hist : DataFrame) :
  BTCBenchmark.cache_check cache "1h30m" (now_at_check w) = None ->
  history w = FetchHistory hist ->
  df_empty hist = false ->
  df_bool hist = Ok true ->
  raises (BTCBenchmark.compute_body cache "1h30m" w)
  /\ BTCBenchmark.get_expected_return cache "1h30m" w
     = {| returned := 0.02; cache_after := cache; path := Defaulted |}.
Proof.
  intros Hmiss Hhist Hne Htruth.
  assert (Hraise : raises (BTCBenchmark.compute_body cache "1h30m" w)).
  { exists ValueError.
    unfold BTCBenchmark.compute_body, BTCBenchmark._fetch_btc_data.
    rewrite Hhist, Hne. unfold mbind, exc_bind. rewrite Htruth. cbv beta iota.
    unfold BTCBenchmark._calculate_expected_return.
    rewrite periods_of_bad_hours. reflexivity. }
  split; [exact Hraise |].
  destruct Hraise as [e He].
  unfold BTCBenchmark.get_expected_return. rewrite Hmiss, He. reflexivity.
Qed.

(** With the truth test of pandas, which raises ValueError for every
    frame, no call writes the cache. *)
Lemma pandas_truth_test_never_caches `{NumLib} (cache : gmap string (Z * Q))
    (timeframe : string) (w : World) :
  (forall df, raises (df_bool df)) ->
  cache_after (BTCBenchmark.get_expected_return cache timeframe w) = cache
  /\ path (BTCBenchmark.get_expected_return cache timeframe w) <> Computed.
Proof.
  intros Htruth. unfold BTCBenchmark.get_expected_return.
  destruct (BTCBenchmark.cache_check cache timeframe (now_at_check w));
    [split; [reflexivity | discriminate] |].
  unfold BTCBenchmark.compute_body.
  destruct (BTCBenchmark._fetch_btc_data w) as [df |];
    [| split; [reflexivity | discriminate]].
  destruct (Htruth df) as [e He]. rewrite He.
  split; [reflexivity | discriminate].
Qed.

(** ** The signal engines *)

Lemma exc_bind_ok {A B : Type} (m : Exc A) (k : A -> Exc B) (b : B) :
  (x ← m; k x) = Ok b -> exists a, m = Ok a /\ k a = Ok b.
Proof.
  unfold mbind, exc_bind. destruct m as [a | e]; [| discriminate].
  intros Hk. exists a. split; [reflexivity | exact Hk].
Qed.

Lemma Ok_inj {A : Type} (a b : A) : Ok a = Ok b -> a = b.
Proof. intros Hab. congruence. Qed.

Lemma exc_bind_raises {A B : Type} (m : Exc A) (k : A -> Exc B) :
  raises m -> raises (x ← m; k x).
Proof. intros [e He]. exists e. rewrite He. reflexivity. Qed.

Lemma float_div_by_zero (a b : Q) : b == 0 -> float_div a b = Raise ZeroDivisionError.
Proof.
  intros Hb. unfold float_div.
  apply Qeq_bool_iff in Hb. rewrite Hb. reflexivity.
Qed.

(** *** Ignition *)

Lemma ignition_score_bounds (cfg : ScannerConfig)
    (vwap_slope expansion_ratio distance_from_extremes : Q) :
  0 < MAX_DISTANCE_FROM_HOD_LOD cfg ->
  0 <= IgnitionEngine._calculate_ignition_score cfg vwap_slope expansion_ratio
         distance_from_extremes
         (Qgtb vwap_slope 0.001) (Qgtb expansion_ratio 1.5)
         (Qltb distance_from_extremes (MAX_DISTANCE_FROM_HOD_LOD cfg))
    <= 100.
Proof.
  intros Hmax. unfold IgnitionEngine._calculate_ignition_score.
  split; [| apply py_min_le_l].
  apply py_min_glb; [lra |].
  assert (Hm : 0 <= py_min 40 (Qabs vwap_slope * 10000)).
  { apply py_min_glb; [lra |]. pose proof (Qabs_nonneg vwap_slope). lra. }
  assert (He : Qgtb expansion_ratio 1.5 = true ->
               0 <= py_min 35 ((expansion_ratio - 1) * 35)).
  { intros Hg. apply Qgtb_true in Hg. apply py_min_glb; lra. }
  assert (Ht : Qltb distance_from_extremes (MAX_DISTANCE_FROM_HOD_LOD cfg) = true ->
               0 <= (MAX_DISTANCE_FROM_HOD_LOD cfg - distance_from_extremes)
                    / MAX_DISTANCE_FROM_HOD_LOD cfg * 25).
  { intros Hl. apply Qltb_true in Hl.
    apply Qmult_le_0_compat; [| lra].
    apply Qle_shift_div_l; [assumption | lra]. }
  destruct (Qgtb vwap_slope 0.001);
    destruct (Qgtb expansion_ratio 1.5);
    destruct (Qltb distance_from_extremes (MAX_DISTANCE_FROM_HOD_LOD cfg));
    try specialize (He eq_refl); try specialize (Ht eq_refl); lra.
Qed.

Lemma ignition_body_score (H : NumLib) (cfg : ScannerConfig)
    (market_data : MarketData.t) (historical_prices : option Series)
    (s : IgnitionSignal.t) :
  IgnitionEngine.analyze_body cfg market_data historical_prices = Ok s ->
  exists vwap_slope expansion_ratio distance_from_extremes,
    IgnitionSignal.score s
    = IgnitionEngine._calculate_ignition_score cfg vwap_slope expansion_ratio
        distance_from_extremes
        (Qgtb vwap_slope 0.001) (Qgtb expansion_ratio 1.5)
        (Qltb distance_from_extremes (MAX_DISTANCE_FROM_HOD_LOD cfg)).
Proof.
  unfold IgnitionEngine.analyze_body. intros Hbody.
  apply exc_bind_ok in Hbody. destruct Hbody as [slope [_ Hbody]].
  destruct (calculate_bollinger_bands _ 20 2) as [[upper sma] lower].
  apply exc_bind_ok in Hbody. destruct Hbody as [u [_ Hbody]].
  apply exc_bind_ok in Hbody. destruct Hbody as [l [_ Hbody]].
  apply exc_bind_ok in Hbody. destruct Hbody as [avg [_ Hbody]].
  apply exc_bind_ok in Hbody. destruct Hbody as [fh [_ Hbody]].
  apply exc_bind_ok in Hbody. destruct Hbody as [fl [_ Hbody]].
  injection Hbody as <-. simpl. eauto.
Qed.

Lemma ignition_score_in_range (H : NumLib) (cfg : ScannerConfig)
    (market_data : MarketData.t) (historical_prices : option Series) :
  0 < MAX_DISTANCE_FROM_HOD_LOD cfg ->
  0 <= IgnitionSignal.score
         (IgnitionEngine.analyze cfg market_data historical_prices) <= 100.
Proof.
  intros Hmax. unfold IgnitionEngine.analyze, try_except.
  destruct (IgnitionEngine.analyze_body cfg market_data historical_prices)
    as [s | e] eqn:Hbody.
  - apply ignition_body_score in Hbody.
    destruct Hbody as [slope [ratio [dist ->]]].
    apply ignition_score_bounds. assumption.
  - simpl. lra.
Qed.

(** At a price of zero the distance from the extremes cannot be computed:
    the body raises, whatever the libraries did before. *)
Lemma ignition_raises_at_zero_price (H : NumLib) (cfg : ScannerConfig)
    (market_data : MarketData.t) (historical_prices : option Series) :
  MarketData.price market_data == 0 ->
  raises (IgnitionEngine.analyze_body cfg market_data historical_prices).
Proof.
  intros Hzero. unfold IgnitionEngine.analyze_body.
  unfold mbind, exc_bind.
  destruct (IgnitionEngine._calculate_slope _ _) as [slope | e];
    [| exists e; reflexivity].
  destruct (calculate_bollinger_bands _ 20 2) as [[upper sma] lower].
  destruct (iloc_last upper) as [u | e]; [| exists e; reflexivity].
  destruct (iloc_last lower) as [l | e]; [| exists e; reflexivity].
  destruct (iloc_last _) as [avg | e]; [| exists e; reflexivity].
  rewrite float_div_by_zero by assumption.
  exists ZeroDivisionError. reflexivity.
Qed.

(** *** Pressure *)

(** The probability of reaching a strike is 1 for the price itself, and
    clamped into [0.01, 0.99] for every other strike. *)
Lemma probability_reach_cases (H : NumLib) (current_price target_strike : Q)
    (options_data : OptionsData.t) (r : Q) :
  PressureEngine._calculate_probability_reach current_price target_strike
    options_data = Ok r ->
  (Qeq_bool target_strike current_price = true /\ r = 1)
  \/ (Qeq_bool target_strike current_price = false /\ 0.01 <= r <= 0.99).
Proof.
  unfold PressureEngine._calculate_probability_reach.
  destruct (Qeq_bool target_strike current_price).
  - intros [= <-]. left. split; reflexivity.
  - intros Hr. apply exc_bind_ok in Hr. destruct Hr as [ratio [_ Hr]].
    injection Hr as <-. right. split; [reflexivity |].
    apply clamp_bounds. lra.
Qed.

Lemma probability_reach_unit (H : NumLib) (current_price target_strike : Q)
    (options_data : OptionsData.t) (r : Q) :
  PressureEngine._calculate_probability_reach current_price target_strike
    options_data = Ok r ->
  0 <= r <= 1.
Proof.
  intros Hr. apply probability_reach_cases in Hr.
  destruct Hr as [[_ ->] | [_ Hr]]; lra.
Qed.

Lemma gamma_walls_loop_cons (H : NumLib) (current_price : Q)
    (options_data : OptionsData.t) (strike : Q) (rest : list Q) :
  PressureEngine.gamma_walls_loop current_price options_data (strike :: rest)
  = (distance ← float_div (Qabs (strike - current_price)) current_price;
     let net_gamma :=
       inject_Z (fdict_get (OptionsData.calls_oi options_data) strike 0%Z)
       * np_exp (- distance * 5)
       - inject_Z (fdict_get (OptionsData.puts_oi options_data) strike 0%Z)
         * np_exp (- distance * 5) in
     if Qgtb (Qabs net_gamma) 1000 then
       probability ←
         PressureEngine._calculate_probability_reach current_price strike
           options_data;
       walls ← PressureEngine.gamma_walls_loop current_price options_data rest;
       Ok (GammaWall.mk strike (Qabs net_gamma) net_gamma distance probability
             :: walls)
     else PressureEngine.gamma_walls_loop current_price options_data rest).
Proof. reflexivity. Qed.

Lemma gamma_walls_loop_nonneg (H : NumLib) (current_price : Q)
    (options_data : OptionsData.t) (todo : list Q) (walls : list GammaWall.t) :
  PressureEngine.gamma_walls_loop current_price options_data todo = Ok walls ->
  Forall (fun w => 0 <= GammaWall.gamma_value w) walls.
Proof.
  revert walls. induction todo as [| strike rest IH]; intros walls Hloop.
  - injection Hloop as <-. constructor.
  - rewrite gamma_walls_loop_cons in Hloop.
    apply exc_bind_ok in Hloop. destruct Hloop as [distance [_ Hloop]].
    cbv zeta in Hloop.
    destruct (Qgtb _ 1000).
    + apply exc_bind_ok in Hloop. destruct Hloop as [probability [_ Hloop]].
      apply exc_bind_ok in Hloop. destruct Hloop as [walls' [Hrest Hloop]].
      apply Ok_inj in Hloop. subst walls. constructor.
      * cbv beta iota delta [GammaWall.gamma_value]. apply Qabs_nonneg.
      * apply IH. exact Hrest.
    + apply IH. exact Hloop.
Qed.

Lemma find_gamma_walls_nonneg (H : NumLib) (market_data : MarketData.t)
    (options_data : OptionsData.t) (walls : list GammaWall.t) :
  PressureEngine._find_gamma_walls market_data options_data = Ok walls ->
  Forall (fun w => 0 <= GammaWall.gamma_value w) walls.
Proof.
  unfold PressureEngine._find_gamma_walls. intros Hw.
  apply exc_bind_ok in Hw. destruct Hw as [unsorted [Hloop Hw]].
  injection Hw as <-.
  apply gamma_walls_loop_nonneg in Hloop.
  eapply Permutation_Forall; [| exact Hloop].
  apply Permutation_sym, sorted_desc_perm.
Qed.

Lemma pressure_score_bounds (probability : Q) (dealer_flow : string)
    (pcr : ExtFloat) (walls : list GammaWall.t) :
  0 <= probability <= 1 ->
  Forall (fun w => 0 <= GammaWall.gamma_value w) walls ->
  0 <= PressureEngine._calculate_pressure_score probability dealer_flow pcr walls
    <= 100.
Proof.
  intros Hp Hwalls. unfold PressureEngine._calculate_pressure_score.
  split; [| apply py_min_le_l].
  apply py_min_glb; [lra |].
  assert (Hg : match walls with
               | [] => True
               | strongest :: _ =>
                   0 <= py_min 10 (GammaWall.gamma_value strongest / 5000)
               end).
  { destruct walls as [| w ws]; [exact I |].
    apply Forall_inv in Hwalls. apply py_min_glb; [lra |].
    apply Qle_shift_div_l; lra. }
  destruct (String.eqb dealer_flow "bullish");
    destruct (String.eqb dealer_flow "bearish");
    destruct (ext_ltb pcr 0.7); destruct (ext_ltb pcr 1);
    destruct (ext_gtb pcr 1.5); destruct walls as [| w ws]; lra.
Qed.

(** What a completed run of the body has put into the signal. *)
Lemma pressure_body_shape (H : NumLib) (market_data : MarketData.t)
    (options_data : option OptionsData.t) (s : PressureSignal.t) :
  PressureEngine.analyze_body market_data options_data = Ok s ->
  exists od walls pcr,
    PressureEngine._find_gamma_walls market_data od = Ok walls
    /\ PressureSignal.score s
       = PressureEngine._calculate_pressure_score
           (PressureSignal.probability_reach s) (PressureSignal.dealer_flow s)
           pcr walls
    /\ match PressureSignal.target_strike s with
       | None =>
           PressureEngine._find_target_wall (MarketData.price market_data) walls
           = None
           /\ PressureSignal.probability_reach s = 0
       | Some strike =>
           PressureEngine._calculate_probability_reach
             (MarketData.price market_data) strike od
           = Ok (PressureSignal.probability_reach s)
       end.
Proof.
  unfold PressureEngine.analyze_body. intros Hbody.
  apply exc_bind_ok in Hbody. destruct Hbody as [od [_ Hbody]].
  apply exc_bind_ok in Hbody. destruct Hbody as [walls [Hwalls Hbody]].
  apply exc_bind_ok in Hbody. destruct Hbody as [pcr [_ Hbody]].
  apply exc_bind_ok in Hbody. destruct Hbody as [[target p] [Htarget Hbody]].
  injection Hbody as <-. simpl.
  exists od, walls, pcr. split; [exact Hwalls |]. split; [reflexivity |].
  destruct (PressureEngine._find_target_wall _ walls) as [wall |].
  - apply exc_bind_ok in Htarget. destruct Htarget as [p' [Hp' Htarget]].
    injection Htarget as <- <-. exact Hp'.
  - injection Htarget as <- <-. split; reflexivity.
Qed.

Lemma pressure_score_in_range (H : NumLib) (market_data : MarketData.t)
    (options_data : option OptionsData.t) :
  0 <= PressureSignal.score (PressureEngine.analyze market_data options_data)
    <= 100.
Proof.
  unfold PressureEngine.analyze, try_except.
  destruct (PressureEngine.analyze_body market_data options_data)
    as [s | e] eqn:Hbody; [| simpl; lra].
  apply pressure_body_shape in Hbody.
  destruct Hbody as [od [walls [pcr [Hwalls [-> Hprob]]]]].
  apply pressure_score_bounds.
  - destruct (PressureSignal.target_strike s) as [strike |].
    + eapply probability_reach_unit. exact Hprob.
    + destruct Hprob as [_ ->]. lra.
  - eapply find_gamma_walls_nonneg. exact Hwalls.
Qed.

(** C3, as the code has it.  The probability of the signal is 0 when no
    target strike was selected (no gamma wall, or a failed computation), 1
    when the target strike is the current price, and within [0.01, 0.99]
    for every other target strike. *)
Theorem probability_reach_is_0_or_1_or_clamped `{NumLib}
    (market_data : MarketData.t) (options_data : option OptionsData.t) :
  let s := PressureEngine.analyze market_data options_data in
  match PressureSignal.target_strike s with
  | None => PressureSignal.probability_reach s = 0
  | Some strike =>
      if Qeq_bool strike (MarketData.price market_data)
      then PressureSignal.probability_reach s = 1
      else 0.01 <= PressureSignal.probability_reach s <= 0.99
  end.
Proof.
  unfold PressureEngine.analyze, try_except.
  destruct (PressureEngine.analyze_body market_data options_data)
    as [s | e] eqn:Hbody; [| reflexivity].
  apply pressure_body_shape in Hbody.
  destruct Hbody as [od [walls [pcr [_ [_ Hprob]]]]]. simpl.
  destruct (PressureSignal.target_strike s) as [strike |].
  - apply probability_reach_cases in Hprob.
    destruct Hprob as [[-> ->] | [-> Hr]]; [reflexivity | exact Hr].
  - destruct Hprob as [_ ->]. reflexivity.
Qed.

(** Without strikes there is no wall and no target, for every
    implementation of the numeric interface. *)
Lemma no_strikes_probability_zero (H : NumLib) (market_data : MarketData.t)
    (od : OptionsData.t) :
  OptionsData.strikes od = [] ->
  PressureSignal.probability_reach (PressureEngine.analyze market_data (Some od))
  = 0.
Proof.
  intros Hs. unfold PressureEngine.analyze, PressureEngine.analyze_body.
  unfold mbind, exc_bind. cbv beta iota.
  unfold PressureEngine._find_gamma_walls, mbind, exc_bind. rewrite Hs.
  cbn [PressureEngine.gamma_walls_loop sorted_desc
       PressureEngine._find_target_wall].
  destruct (PressureEngine._calculate_put_call_ratio od); reflexivity.
Qed.

(** The probability 0 of a signal without target, and the probability 1 of
    a target at the current price, are outside [0.01, 0.99]. *)
Lemma probability_reach_outside_clamp :
  PressureSignal.target_strike
    (@PressureEngine.analyze sample_lib scenario_market_data (Some no_strikes))
  = None
  /\ ~ (0.01 <= PressureSignal.probability_reach
                  (@PressureEngine.analyze sample_lib scenario_market_data
                     (Some no_strikes)) <= 0.99)
  /\ PressureSignal.target_strike
       (@PressureEngine.analyze sample_lib scenario_market_data
          (Some at_the_money))
     = Some 150
  /\ ~ (0.01 <= PressureSignal.probability_reach
                  (@PressureEngine.analyze sample_lib scenario_market_data
                     (Some at_the_money)) <= 0.99).
Proof.
  split; [reflexivity |]. split.
  - intros [Hlo _]. vm_compute in Hlo. apply Hlo. reflexivity.
  - split; [reflexivity |].
    intros [_ Hhi]. vm_compute in Hhi. apply Hhi. reflexivity.
Qed.

(** With strikes and a price of zero the first distance cannot be
    computed. *)
Lemma pressure_raises_at_zero_price (H : NumLib) (market_data : MarketData.t)
    (od : OptionsData.t) (strike : Q) (rest : list Q) :
  MarketData.price market_data == 0 ->
  OptionsData.strikes od = strike :: rest ->
  raises (PressureEngine.analyze_body market_data (Some od)).
Proof.
  intros Hzero Hs. exists ZeroDivisionError.
  unfold PressureEngine.analyze_body.
  unfold mbind, exc_bind. cbv beta iota.
  unfold PressureEngine._find_gamma_walls. rewrite Hs, gamma_walls_loop_cons.
  rewrite float_div_by_zero by assumption. reflexivity.
Qed.

(** *** Fuel *)

Lemma squeeze_score_bounds (fundamental_data : FundamentalData.t)
    (relative_volume : Q) :
  0 <= FuelEngine._calculate_squeeze_score fundamental_data relative_volume
    <= 100.
Proof.
  unfold FuelEngine._calculate_squeeze_score.
  split; [| apply py_min_le_l].
  apply py_min_glb; [lra |].
  repeat match goal with
         | |- context [if ?c then _ else _] => destruct c
         end; lra.
Qed.

Lemma fuel_score_bounds (min_multiple relative_volume squeeze_score : Q)
    (low_float high_short_interest high_borrow_cost : bool) :
  2 <= min_multiple ->
  0 <= squeeze_score ->
  0 <= FuelEngine._calculate_fuel_score low_float high_short_interest
         high_borrow_cost (Qgtb relative_volume min_multiple)
         relative_volume squeeze_score
    <= 100.
Proof.
  intros Hmin Hsq. unfold FuelEngine._calculate_fuel_score.
  split; [| apply py_min_le_l].
  apply py_min_glb; [lra |].
  assert (Hb : 0 <= py_min 10 (squeeze_score / 10)).
  { apply py_min_glb; [lra |]. apply Qle_shift_div_l; lra. }
  assert (Hv : Qgtb relative_volume min_multiple = true ->
               0 <= py_min 20 ((relative_volume - 2) * 5)).
  { intros Hg. apply Qgtb_true in Hg. apply py_min_glb; lra. }
  destruct low_float; destruct high_short_interest; destruct high_borrow_cost;
    destruct (Qgtb relative_volume min_multiple);
    try specialize (Hv eq_refl); lra.
Qed.

Lemma fuel_body_score (H : NumLib) (cfg : ScannerConfig)
    (market_data : MarketData.t) (fundamental_data : option FundamentalData.t)
    (s : FuelSignal.t) :
  FuelEngine.analyze_body cfg market_data fundamental_data = Ok s ->
  exists fd relative_volume low_float high_short_interest high_borrow_cost,
    FuelSignal.score s
    = FuelEngine._calculate_fuel_score low_float high_short_interest
        high_borrow_cost (Qgtb relative_volume (MIN_VOLUME_MULTIPLE cfg))
        relative_volume
        (FuelEngine._calculate_squeeze_score fd relative_volume).
Proof.
  unfold FuelEngine.analyze_body. intros Hbody.
  apply exc_bind_ok in Hbody. destruct Hbody as [rv [_ Hbody]].
  apply Ok_inj in Hbody. subst s. cbv beta iota delta [FuelSignal.score].
  eauto 10.
Qed.

Lemma fuel_score_in_range (H : NumLib) (cfg : ScannerConfig)
    (market_data : MarketData.t) (fundamental_data : option FundamentalData.t) :
  2 <= MIN_VOLUME_MULTIPLE cfg ->
  0 <= FuelSignal.score (FuelEngine.analyze cfg market_data fundamental_data)
    <= 100.
Proof.
  intros Hmin. unfold FuelEngine.analyze, try_except.
  destruct (FuelEngine.analyze_body cfg market_data fundamental_data)
    as [s | e] eqn:Hbody; [| simpl; lra].
  apply fuel_body_score in Hbody.
  destruct Hbody as [fd [rv [lf [hs [hb ->]]]]].
  apply fuel_score_bounds; [assumption |].
  apply squeeze_score_bounds.
Qed.

(** The relative volume is an int divided by an int: with a volume beyond
    the range of a float the division raises. *)
Lemma fuel_raises_on_huge_volume (H : NumLib) (cfg : ScannerConfig)
    (market_data : MarketData.t) (fd : FundamentalData.t) :
  MarketData.volume market_data = (2 ^ 1024)%Z ->
  FundamentalData.avg_volume fd = 1%Z ->
  raises (FuelEngine.analyze_body cfg market_data (Some fd)).
Proof.
  intros Hv Ha. exists OverflowError.
  unfold FuelEngine.analyze_body. rewrite Hv, Ha. reflexivity.
Qed.

(** *** The composite score *)

Lemma combination_bonus_nonneg (ignition : IgnitionSignal.t)
    (pressure : PressureSignal.t) (fuel : FuelSignal.t) :
  0 <= CompositeScorer._calculate_combination_bonus ignition pressure fuel.
Proof.
  unfold CompositeScorer._calculate_combination_bonus.
  repeat match goal with
         | |- context [if ?c then _ else _] => destruct c
         end; lra.
Qed.

Lemma weighted_score_bounds (cfg : ScannerConfig) (ignition : IgnitionSignal.t)
    (pressure : PressureSignal.t) (fuel : FuelSignal.t) :
  0 <= VWAP_MOMENTUM_WEIGHT cfg ->
  0 <= OPTIONS_PRESSURE_WEIGHT cfg ->
  0 <= VOLUME_WEIGHT cfg ->
  0 <= IgnitionSignal.score ignition ->
  0 <= PressureSignal.score pressure ->
  0 <= FuelSignal.score fuel ->
  0 <= CompositeScorer._calculate_weighted_score cfg ignition pressure fuel
    <= 100.
Proof.
  intros Hwi Hwp Hwf Hi Hp Hf.
  unfold CompositeScorer._calculate_weighted_score.
  split; [| apply py_min_le_l].
  apply py_min_glb; [lra |].
  pose proof (combination_bonus_nonneg ignition pressure fuel) as Hb.
  assert (H1 : 0 <= IgnitionSignal.score ignition * (VWAP_MOMENTUM_WEIGHT cfg / 100)).
  { apply Qmult_le_0_compat; [assumption |]. apply Qle_shift_div_l; lra. }
  assert (H2 : 0 <= PressureSignal.score pressure * (OPTIONS_PRESSURE_WEIGHT cfg / 100)).
  { apply Qmult_le_0_compat; [assumption |]. apply Qle_shift_div_l; lra. }
  assert (H3 : 0 <= FuelSignal.score fuel * (VOLUME_WEIGHT cfg / 100)).
  { apply Qmult_le_0_compat; [assumption |]. apply Qle_shift_div_l; lra. }
  lra.
Qed.

(** C4.  Under the configuration of [config.py], with any minimum score
    threshold (the one field that is reassigned at run time), for every
    snapshot and every auxiliary input (supplied or synthetic), the scores
    of the ignition, pressure and fuel signals lie in [0, 100], and so
    does the total score computed from these signals. *)
Theorem scores_lie_within_0_and_100 `{NumLib} (threshold : Z)
    (market_data : MarketData.t)
    (historical_prices : option Series) (options_data : option OptionsData.t)
    (fundamental_data : option FundamentalData.t) :
  let cfg := with_min_score_threshold threshold config in
  let ignition := IgnitionEngine.analyze cfg market_data historical_prices in
  let pressure := PressureEngine.analyze market_data options_data in
  let fuel := FuelEngine.analyze cfg market_data fundamental_data in
  0 <= IgnitionSignal.score ignition <= 100
  /\ 0 <= PressureSignal.score pressure <= 100
  /\ 0 <= FuelSignal.score fuel <= 100
  /\ 0 <= CompositeScorer._calculate_weighted_score cfg ignition pressure fuel
       <= 100.
Proof.
  intros cfg ignition pressure fuel.
  assert (Hi : 0 <= IgnitionSignal.score ignition <= 100).
  { apply ignition_score_in_range. reflexivity. }
  assert (Hp : 0 <= PressureSignal.score pressure <= 100).
  { apply pressure_score_in_range. }
  assert (Hf : 0 <= FuelSignal.score fuel <= 100).
  { apply fuel_score_in_range. unfold cfg. cbn. lra. }
  split; [exact Hi |]. split; [exact Hp |]. split; [exact Hf |].
  apply weighted_score_bounds.
  - unfold cfg. cbn. lra.
  - unfold cfg. cbn. lra.
  - unfold cfg. cbn. lra.
  - apply Hi.
  - apply Hp.
  - apply Hf.
Qed.

(** The total score of a scored symbol is the weighted score of the
    signals of the three engines, hence within [0, 100] as well. *)
Lemma score_symbol_total_in_range (H : NumLib) (cache : gmap string (Z * Q))
    (market_data : MarketData.t) (timeframe : string) (w : World)
    (result : CompositeScore.t) :
  fst (CompositeScorer.score_symbol config cache market_data timeframe w)
  = Some result ->
  0 <= CompositeScore.total_score result <= 100.
Proof.
  unfold CompositeScorer.score_symbol.
  destruct (CompositeScorer._calculate_expected_return _ _ _) as [[er tp] | e];
    [| discriminate].
  destruct (CompositeScorer._calculate_risk_reward _ _ _) as [rr | e];
    [| discriminate].
  cbn [fst]. intros [= <-]. cbv beta iota delta [CompositeScore.total_score].
  apply weighted_score_bounds.
  - vm_compute. discriminate.
  - vm_compute. discriminate.
  - vm_compute. discriminate.
  - apply ignition_score_in_range. reflexivity.
  - apply pressure_score_in_range.
  - apply fuel_score_in_range. vm_compute. discriminate.
Qed.

(** *** Failures inside an engine *)

(** C8.  When the body of an engine's [analyze] raises, [analyze] returns
    the neutral signal of its [except] branch: every trigger flag false,
    no target, probability 0, flow "neutral", score 0.  [analyze] has a
    signal for every input, it has no exceptional result. *)
Theorem analyze_failure_yields_neutral_signal `{NumLib} (cfg : ScannerConfig)
    (market_data : MarketData.t) (historical_prices : option Series)
    (options_data : option OptionsData.t)
    (fundamental_data : option FundamentalData.t) :
  (raises (IgnitionEngine.analyze_body cfg market_data historical_prices) ->
   let s := IgnitionEngine.analyze cfg market_data historical_prices in
   s = IgnitionEngine.neutral
   /\ IgnitionSignal.vwap_momentum s = false
   /\ IgnitionSignal.expansion_energy s = false
   /\ IgnitionSignal.entry_timing s = false
   /\ IgnitionSignal.score s = 0)
  /\ (raises (PressureEngine.analyze_body market_data options_data) ->
      let s := PressureEngine.analyze market_data options_data in
      s = PressureEngine.neutral market_data
      /\ PressureSignal.target_strike s = None
      /\ PressureSignal.probability_reach s = 0
      /\ PressureSignal.dealer_flow s = "neutral"%string
      /\ PressureSignal.score s = 0)
  /\ (raises (FuelEngine.analyze_body cfg market_data fundamental_data) ->
      let s := FuelEngine.analyze cfg market_data fundamental_data in
      s = FuelEngine.neutral
      /\ FuelSignal.low_float s = false
      /\ FuelSignal.high_short_interest s = false
      /\ FuelSignal.high_borrow_cost s = false
      /\ FuelSignal.volume_surge s = false
      /\ FuelSignal.score s = 0).
Proof.
  split; [| split].
  - intros [e He]. unfold IgnitionEngine.analyze. rewrite He.
    repeat split.
  - intros [e He]. unfold PressureEngine.analyze. rewrite He.
    repeat split.
  - intros [e He]. unfold FuelEngine.analyze. rewrite He.
    repeat split.
Qed.

Lemma analyze_failure_yields_neutral_signal_witness :
  (raises (@IgnitionEngine.analyze_body sample_lib config zero_price None)
   /\ IgnitionSignal.score (@IgnitionEngine.analyze sample_lib config zero_price None)
      = 0)
  /\ (raises (@PressureEngine.analyze_body sample_lib zero_price None)
      /\ PressureSignal.score (@PressureEngine.analyze sample_lib zero_price None)
         = 0)
  /\ (raises (@FuelEngine.analyze_body sample_lib config huge_volume
                (Some one_share_average))
      /\ FuelSignal.score
           (@FuelEngine.analyze sample_lib config huge_volume
              (Some one_share_average)) = 0).
Proof.
  assert (Hi : raises (@IgnitionEngine.analyze_body sample_lib config zero_price None)).
  { exists ZeroDivisionError. vm_compute. reflexivity. }
  assert (Hp : raises (@PressureEngine.analyze_body sample_lib zero_price None)).
  { exists ZeroDivisionError. vm_compute. reflexivity. }
  assert (Hf : raises (@FuelEngine.analyze_body sample_lib config huge_volume
                         (Some one_share_average))).
  { exists OverflowError. vm_compute. reflexivity. }
  destruct (@analyze_failure_yields_neutral_signal sample_lib config zero_price
              None None None) as [Hci [Hcp _]].
  destruct (@analyze_failure_yields_neutral_signal sample_lib config huge_volume
              None None (Some one_share_average)) as [_ [_ Hcf]].
  split; [split; [exact Hi | apply (Hci Hi)] |].
  split; [split; [exact Hp | apply (Hcp Hp)] |].
  split; [exact Hf | apply (Hcf Hf)].
Defined.

(** * Further properties of the scoring code *)

(** ** Expected move, expected return, risk/reward *)

Lemma float_div_nonzero (a b : Q) : ~ b == 0 -> float_div a b = Ok (a / b).
Proof.
  intros Hb. unfold float_div.
  destruct (Qeq_bool b 0) eqn:E; [| reflexivity].
  apply Qeq_bool_iff in E. contradiction.
Qed.

Lemma estimate_price_move_range (market_data : MarketData.t)
    (fuel : FuelSignal.t) (move : Q) :
  CompositeScorer._estimate_price_move market_data fuel = Ok move ->
  0.05 <= move <= 0.195.
Proof.
  unfold CompositeScorer._estimate_price_move. intros Hm.
  apply exc_bind_ok in Hm. destruct Hm as [base [Hbase Hm]].
  apply Ok_inj in Hm. subst move.
  assert (Hb : 0.05 <= base <= 0.0975).
  { destruct (Qgtb (MarketData.high market_data) 0
              && Qgtb (MarketData.low market_data) 0).
    - apply exc_bind_ok in Hbase. destruct Hbase as [range [_ Hbase]].
      apply Ok_inj in Hbase. subst base.
      destruct (Qgtb (FuelSignal.relative_volume fuel) 3);
        destruct (Qgtb (FuelSignal.relative_volume fuel) 2);
        destruct (Qgtb range 0.15); lra.
    - apply Ok_inj in Hbase. subst base.
      destruct (Qgtb (FuelSignal.relative_volume fuel) 3);
        destruct (Qgtb (FuelSignal.relative_volume fuel) 2); lra. }
  split.
  - apply py_min_glb; [lra |].
    destruct (Qgtb (FuelSignal.short_squeeze_score fuel) 80);
      destruct (Qgtb (FuelSignal.short_squeeze_score fuel) 60); lra.
  - eapply Qle_trans; [apply py_min_le_r |].
    destruct (Qgtb (FuelSignal.short_squeeze_score fuel) 80);
      destruct (Qgtb (FuelSignal.short_squeeze_score fuel) 60); lra.
Qed.

Lemma estimate_price_move_total (market_data : MarketData.t)
    (fuel : FuelSignal.t) :
  ~ MarketData.price market_data == 0 ->
  exists move, CompositeScorer._estimate_price_move market_data fuel = Ok move.
Proof.
  intros Hp. unfold CompositeScorer._estimate_price_move.
  destruct (Qgtb (MarketData.high market_data) 0
            && Qgtb (MarketData.low market_data) 0).
  - rewrite float_div_nonzero by assumption. eexists. reflexivity.
  - eexists. reflexivity.
Qed.

(** X1.  For a snapshot with a non-zero price, [_estimate_price_move]
    returns a move between 5% and 19.5%: the factors multiply to at most
    0.05 * 1.5 * 1.3 * 2.0, so the cap of 50% is never reached. *)
Theorem estimated_move_between_5_and_19_5_percent
    (market_data : MarketData.t) (fuel : FuelSignal.t) :
  ~ MarketData.price market_data == 0 ->
  exists move,
    CompositeScorer._estimate_price_move market_data fuel = Ok move
    /\ 0.05 <= move <= 0.195
    /\ move < 0.50.
Proof.
  intros Hp.
  destruct (estimate_price_move_total market_data fuel Hp) as [move Hm].
  exists move. split; [exact Hm |].
  pose proof (estimate_price_move_range market_data fuel move Hm) as Hr.
  split; [exact Hr | lra].
Qed.

Lemma estimated_move_between_5_and_19_5_percent_witness :
  exists move,
    CompositeScorer._estimate_price_move scenario_market_data scenario_fuel
    = Ok move
    /\ 0.05 <= move <= 0.195
    /\ move < 0.50.
Proof.
  apply (estimated_move_between_5_and_19_5_percent scenario_market_data
           scenario_fuel).
  intros Habs. vm_compute in Habs. discriminate.
Defined.

(** X2.  A pressure signal with probability 0 (the neutral signal, or a
    signal without target wall) gives an expected return of 0, which is
    above no positive benchmark. *)
Theorem zero_probability_gives_zero_expected_return
    (market_data : MarketData.t) (pressure : PressureSignal.t)
    (fuel : FuelSignal.t) (expected_return : Q) (target_price : option Q) :
  PressureSignal.probability_reach pressure == 0 ->
  CompositeScorer._calculate_expected_return market_data pressure fuel
  = Ok (expected_return, target_price) ->
  expected_return == 0
  /\ forall btc_return, 0 < btc_return -> Qgtb expected_return btc_return = false.
Proof.
  intros Hp Hr.
  assert (Hz : expected_return == 0).
  { unfold CompositeScorer._calculate_expected_return in Hr.
    apply exc_bind_ok in Hr. destruct Hr as [[target basic] [_ Hr]].
    apply Ok_inj in Hr.
    destruct (Qgtb (FuelSignal.short_squeeze_score fuel) 70);
      injection Hr as Hr _; rewrite <- Hr, Hp; ring. }
  split; [exact Hz |].
  intros btc Hb. apply Qgtb_false. lra.
Qed.

Lemma zero_probability_gives_zero_expected_return_witness :
  exists expected_return target_price,
    CompositeScorer._calculate_expected_return scenario_market_data
      (PressureEngine.neutral scenario_market_data) scenario_fuel
    = Ok (expected_return, target_price)
    /\ expected_return == 0
    /\ forall btc_return,
         0 < btc_return -> Qgtb expected_return btc_return = false.
Proof.
  eexists. eexists. split; [reflexivity |].
  eapply (zero_probability_gives_zero_expected_return scenario_market_data
            (PressureEngine.neutral scenario_market_data) scenario_fuel).
  - reflexivity.
  - reflexivity.
Defined.


Lemma expected_return_total (market_data : MarketData.t)
    (pressure : PressureSignal.t) (fuel : FuelSignal.t) :
  ~ MarketData.price market_data == 0 ->
  exists r target,
    CompositeScorer._calculate_expected_return market_data pressure fuel
    = Ok (r, Some target).
Proof.
  intros Hp. unfold CompositeScorer._calculate_expected_return.
  destruct (estimate_price_move_total market_data fuel Hp) as [move Hm].
  destruct (PressureSignal.target_strike pressure) as [strike |].
  - destruct (truthy (Some strike)
              && Qgtb (PressureSignal.probability_reach pressure) 0.5).
    + rewrite float_div_nonzero by assumption.
      eexists. eexists. reflexivity.
    + rewrite Hm. eexists. eexists. reflexivity.
  - rewrite Hm. eexists. eexists. reflexivity.
Qed.

Lemma risk_reward_total (current_price : Q) (target_price : option Q)
    (expected_return : Q) :
  ~ current_price == 0 ->
  exists r,
    CompositeScorer._calculate_risk_reward current_price target_price
      expected_return = Ok r
    /\ (r == 1 \/ r == expected_return * 20).
Proof.
  intros Hnz. unfold CompositeScorer._calculate_risk_reward.
  destruct target_price as [target |];
    [| exists 1; split; [reflexivity | left; reflexivity]].
  destruct (negb (truthy (Some target)) || Qleb target current_price);
    [exists 1; split; [reflexivity | left; reflexivity] |].
  rewrite float_div_nonzero by assumption.
  assert (Hloss : (current_price - current_price * 0.95) / current_price == 0.05).
  { field. exact Hnz. }
  assert (Hnot : Qleb ((current_price - current_price * 0.95) / current_price) 0
                 = false).
  { apply Qleb_false. rewrite Hloss. reflexivity. }
  unfold mbind, exc_bind. rewrite Hnot.
  eexists. split; [reflexivity |]. right. rewrite Hloss. field.
Qed.

Lemma score_symbol_some (H : NumLib) (cfg : ScannerConfig)
    (cache : gmap string (Z * Q)) (market_data : MarketData.t)
    (timeframe : string) (w : World) :
  ~ MarketData.price market_data == 0 ->
  exists result,
    fst (CompositeScorer.score_symbol cfg cache market_data timeframe w)
    = Some result.
Proof.
  intros Hp. unfold CompositeScorer.score_symbol. cbv zeta.
  destruct (expected_return_total market_data
              (PressureEngine.analyze market_data None)
              (FuelEngine.analyze cfg market_data None) Hp) as [r [t Hr]].
  rewrite Hr.
  destruct (risk_reward_total (MarketData.price market_data) (Some t) r Hp)
    as [rr [Hrr _]].
  rewrite Hrr. eexists. reflexivity.
Qed.



(** ** The basic filters of the scanner *)

Lemma passes_basic_filtersb_spec (cfg : ScannerConfig) (data : MarketData.t) :
  passes_basic_filtersb cfg data = true <-> passes_basic_filters cfg data.
Proof.
  unfold passes_basic_filtersb, passes_basic_filters.
  rewrite !Bool.andb_true_iff, !Bool.negb_true_iff, !Bool.orb_false_iff.
  rewrite Qltb_false, Qgtb_false, !Qleb_false, Z.leb_gt.
  rewrite Bool.andb_false_iff, Bool.andb_false_iff.
  split.
  - intros [[[[Hlo Hhi] Hv] [[Hh Hl] Ho]] Hhalt].
    split; [split; assumption |].
    repeat (split; [assumption |]).
    intros [Hhl [Hlp Hvol]].
    destruct Hhalt as [[Hne | Hne] | Hne].
    + apply Qeq_bool_iff in Hhl. congruence.
    + apply Qeq_bool_iff in Hlp. congruence.
    + apply Z.ltb_ge in Hne. lia.
  - intros [[Hlo Hhi] [Hv [Hh [Hl [Ho Hhalt]]]]].
    repeat split; try assumption.
    destruct (Qeq_bool (MarketData.high data) (MarketData.low data)) eqn:E1;
      [| left; left; reflexivity].
    destruct (Qeq_bool (MarketData.low data) (MarketData.price data)) eqn:E2;
      [| left; right; reflexivity].
    right. apply Z.ltb_ge.
    destruct (Z.lt_ge_cases (MarketData.volume data) 1000) as [Hlt | Hge];
      [| lia].
    exfalso. apply Hhalt. apply Qeq_bool_iff in E1. apply Qeq_bool_iff in E2.
    repeat split; assumption.
Qed.

Lemma apply_basic_filters_filter (cfg : ScannerConfig)
    (market_data_list : list MarketData.t) :
  MarketScanner._apply_basic_filters cfg market_data_list
  = List.filter (passes_basic_filtersb cfg) market_data_list.
Proof.
  induction market_data_list as [| data rest IH]; [reflexivity |].
  simpl. unfold passes_basic_filtersb at 1.
  destruct (Qltb (MarketData.price data) (MIN_PRICE cfg)
            || Qgtb (MarketData.price data) (MAX_PRICE cfg));
    simpl; [exact IH |].
  destruct (MarketData.volume data <=? 0)%Z; simpl; [exact IH |].
  destruct (Qleb (MarketData.high data) 0 || Qleb (MarketData.low data) 0
            || Qleb (MarketData.open data) 0); simpl; [exact IH |].
  destruct ((Qeq_bool (MarketData.high data) (MarketData.low data)
             && Qeq_bool (MarketData.low data) (MarketData.price data))
            && (MarketData.volume data <? 1000)%Z); simpl; [exact IH |].
  rewrite IH. reflexivity.
Qed.

Lemma filter_idempotent {A : Type} (f : A -> bool) (l : list A) :
  List.filter f (List.filter f l) = List.filter f l.
Proof.
  induction l as [| x xs IH]; [reflexivity |].
  simpl. destruct (f x) eqn:E; [| exact IH].
  simpl. rewrite E, IH. reflexivity.
Qed.

(** X5.  [_apply_basic_filters] keeps, in their input order, exactly the
    snapshots with a price within [MIN_PRICE, MAX_PRICE], a positive
    volume, positive high, low and open, that do not look halted (high,
    low and price equal with a volume below 1000); filtering a filtered
    list changes nothing. *)
Theorem basic_filters_keep_exactly_the_tradable_snapshots
    (cfg : ScannerConfig) (market_data_list : list MarketData.t) :
  let kept := MarketScanner._apply_basic_filters cfg market_data_list in
  (forall data,
     In data kept <-> In data market_data_list /\ passes_basic_filters cfg data)
  /\ kept = List.filter (passes_basic_filtersb cfg) market_data_list
  /\ MarketScanner._apply_basic_filters cfg kept = kept.
Proof.
  intros kept. unfold kept.
  split; [| split].
  - intros data. rewrite apply_basic_filters_filter, List.filter_In,
      passes_basic_filtersb_spec. tauto.
  - apply apply_basic_filters_filter.
  - rewrite !apply_basic_filters_filter. apply filter_idempotent.
Qed.

(** X6.  With a positive MIN_PRICE, every snapshot that passes the basic
    filters is scored: [score_symbol] does not take its [except] branch. *)
Theorem filtered_snapshots_are_always_scored `{NumLib} (cfg : ScannerConfig)
    (market_data_list : list MarketData.t) (market_data : MarketData.t)
    (cache : gmap string (Z * Q)) (timeframe : string) (w : World) :
  0 < MIN_PRICE cfg ->
  In market_data (MarketScanner._apply_basic_filters cfg market_data_list) ->
  exists result,
    fst (CompositeScorer.score_symbol cfg cache market_data timeframe w)
    = Some result.
Proof.
  intros Hmin Hin.
  rewrite apply_basic_filters_filter in Hin.
  apply List.filter_In in Hin. destruct Hin as [_ Hpass].
  apply passes_basic_filtersb_spec in Hpass.
  destruct Hpass as [[Hlo _] _].
  apply score_symbol_some. intros Hz. lra.
Qed.

Lemma filtered_snapshots_are_always_scored_witness :
  exists result,
    fst (@CompositeScorer.score_symbol sample_lib config day_old_cache
           scenario_market_data "1h" provider_down)
    = Some result.
Proof.
  apply (@filtered_snapshots_are_always_scored sample_lib config
           [zero_price; scenario_market_data]).
  - reflexivity.
  - vm_compute. left. reflexivity.
Defined.

(** ** Scan results *)

Lemma create_scan_results_from_built (F : FormatLib) (i : Z)
    (scores : list CompositeScore.t)
    (market_data_dict : gmap string MarketData.t) :
  (forall score, In score scores ->
     is_Some (market_data_dict !! CompositeScore.symbol score)) ->
  exists results,
    CompositeScorer.create_scan_results_from i scores market_data_dict
    = Built results
    /\ length results = length scores
    /\ forall n score,
         nth_error scores n = Some score ->
         exists r market_data,
           nth_error results n = Some r
           /\ market_data_dict !! CompositeScore.symbol score = Some market_data
           /\ ScanResult.rank r = (i + Z.of_nat n + 1)%Z
           /\ ScanResult.symbol r = CompositeScore.symbol score
           /\ ScanResult.score r = CompositeScore.total_score score
           /\ ScanResult.current_price r = MarketData.price market_data
           /\ ScanResult.probability_reach r
              = CompositeScore.probability_reach score
           /\ ScanResult.timeframe r
              = CompositeScorer._estimate_timeframe
                  (CompositeScore.probability_reach score)
           /\ ScanResult.squeeze_factors r
              = CompositeScorer._identify_squeeze_factors score
           /\ ScanResult.entry_zone r
              = (MarketData.price market_data * 0.99,
                 MarketData.price market_data * 1.01)
           /\ ScanResult.stop_loss r = MarketData.price market_data * 0.95.
Proof.
  revert i. induction scores as [| score rest IH]; intros i Hall.
  - exists []. split; [reflexivity |]. split; [reflexivity |].
    intros n s Hn. destruct n; discriminate.
  - destruct (Hall score (or_introl eq_refl)) as [md Hmd].
    destruct (IH (i + 1)%Z) as [results [Hres [Hlen Hnth]]].
    { intros s Hs. apply Hall. right. exact Hs. }
    cbn [CompositeScorer.create_scan_results_from]. rewrite Hmd, Hres.
    eexists. split; [reflexivity |]. split; [simpl; rewrite Hlen; reflexivity |].
    intros n s Hn. destruct n as [| n].
    + injection Hn as <-. eexists. exists md.
      split; [reflexivity |]. split; [exact Hmd |].
      cbv beta iota delta [ScanResult.rank ScanResult.symbol ScanResult.score
        ScanResult.current_price ScanResult.probability_reach
        ScanResult.timeframe ScanResult.squeeze_factors ScanResult.entry_zone
        ScanResult.stop_loss].
      split; [lia |]. repeat split.
    + simpl in Hn. destruct (Hnth n s Hn) as [r [md' Hr]].
      exists r, md'. simpl nth_error.
      destruct Hr as [H1 [H2 [H3 Hrest]]].
      split; [exact H1 |]. split; [exact H2 |]. split; [lia | exact Hrest].
Qed.

(** X7.  When every score has its snapshot in the dictionary,
    [create_scan_results] returns one result per score, in the order of
    the scores, with ranks 1, 2, ..., each carrying the symbol, total score
    and probability of its score and the price of its snapshot. *)
Theorem scan_results_are_ranked_in_input_order `{FormatLib}
    (scores : list CompositeScore.t)
    (market_data_dict : gmap string MarketData.t) :
  (forall score, In score scores ->
     is_Some (market_data_dict !! CompositeScore.symbol score)) ->
  exists results,
    CompositeScorer.create_scan_results scores market_data_dict = Built results
    /\ length results = length scores
    /\ forall n score,
         nth_error scores n = Some score ->
         exists r market_data,
           nth_error results n = Some r
           /\ market_data_dict !! CompositeScore.symbol score = Some market_data
           /\ ScanResult.rank r = (Z.of_nat n + 1)%Z
           /\ ScanResult.symbol r = CompositeScore.symbol score
           /\ ScanResult.score r = CompositeScore.total_score score
           /\ ScanResult.probability_reach r
              = CompositeScore.probability_reach score
           /\ ScanResult.current_price r = MarketData.price market_data.
Proof.
  intros Hall.
  destruct (create_scan_results_from_built _ 0 scores market_data_dict Hall)
    as [results [Hres [Hlen Hnth]]].
  exists results. split; [exact Hres |]. split; [exact Hlen |].
  intros n score Hn. destruct (Hnth n score Hn) as [r [md Hr]].
  exists r, md.
  destruct Hr as [H1 [H2 [H3 [H4 [H5 [H6 [H7 _]]]]]]].
  repeat (split; [assumption |]). exact H6.
Qed.

Lemma scan_results_are_ranked_in_input_order_witness :
  exists results,
    @CompositeScorer.create_scan_results sample_format
      (CompositeScorer.filter_and_rank config ranking_input)
      (MarketScanner.market_data_dict scan_snapshots)
    = Built results
    /\ map ScanResult.rank results = [1; 2; 3]%Z
    /\ map ScanResult.symbol results = ["CCC"; "AAA"; "DDD"]%string.
Proof.
  destruct (@scan_results_are_ranked_in_input_order sample_format
              (CompositeScorer.filter_and_rank config ranking_input)
              (MarketScanner.market_data_dict scan_snapshots))
    as [results [Hres _]].
  - intros score Hin. vm_compute in Hin.
    destruct Hin as [<- | [<- | [<- | []]]]; vm_compute; eauto.
  - exists results. split; [exact Hres |].
    vm_compute in Hres. apply (f_equal (fun k => match k with
                                                 | Built l => l
                                                 | KeyError _ => []
                                                 end)) in Hres.
    subst results. split; reflexivity.
Defined.

Lemma create_scan_results_from_key_error (F : FormatLib) (i : Z)
    (scores : list CompositeScore.t)
    (market_data_dict : gmap string MarketData.t) (key : string) :
  CompositeScorer.create_scan_results_from i scores market_data_dict
  = KeyError key ->
  market_data_dict !! key = None
  /\ exists score, In score scores /\ CompositeScore.symbol score = key.
Proof.
  revert i. induction scores as [| score rest IH]; intros i Herr.
  - discriminate.
  - cbn [CompositeScorer.create_scan_results_from] in Herr.
    destruct (market_data_dict !! CompositeScore.symbol score) as [md |] eqn:E.
    + destruct (CompositeScorer.create_scan_results_from (i + 1) rest
                  market_data_dict) as [results | k] eqn:Er; [discriminate |].
      injection Herr as ->.
      destruct (IH _ Er) as [Hnone [s [Hin Hs]]].
      split; [exact Hnone |]. exists s. split; [right; exact Hin | exact Hs].
    + injection Herr as <-. split; [exact E |].
      exists score. split; [left; reflexivity | reflexivity].
Qed.

(** X8.  [create_scan_results] fails with KeyError exactly when some score
    has no snapshot in the dictionary; the key of the error is the symbol
    of such a score. *)
Theorem scan_results_key_error_iff_missing_snapshot `{FormatLib}
    (scores : list CompositeScore.t)
    (market_data_dict : gmap string MarketData.t) :
  ((exists score,
      In score scores
      /\ market_data_dict !! CompositeScore.symbol score = None)
   <-> exists key,
         CompositeScorer.create_scan_results scores market_data_dict
         = KeyError key)
  /\ forall key,
       CompositeScorer.create_scan_results scores market_data_dict
       = KeyError key ->
       market_data_dict !! key = None
       /\ exists score, In score scores /\ CompositeScore.symbol score = key.
Proof.
  split.
  - split.
    + intros [score [Hin Hnone]].
      destruct (CompositeScorer.create_scan_results scores market_data_dict)
        as [results | key] eqn:E; [| exists key; reflexivity].
      exfalso. unfold CompositeScorer.create_scan_results in E.
      revert results E. generalize 0%Z.
      induction scores as [| s rest IH]; intros i results E; [destruct Hin |].
      cbn [CompositeScorer.create_scan_results_from] in E.
      destruct (market_data_dict !! CompositeScore.symbol s) as [md |] eqn:Es;
        [| discriminate].
      destruct (CompositeScorer.create_scan_results_from (i + 1) rest
                  market_data_dict) as [rs | k] eqn:Er; [| discriminate].
      destruct Hin as [-> | Hin]; [congruence |].
      eapply IH; [exact Hin | exact Er].
    + intros [key Herr].
      apply create_scan_results_from_key_error in Herr.
      destruct Herr as [Hnone [score [Hin Hs]]].
      exists score. split; [exact Hin |]. rewrite Hs. exact Hnone.
  - intros key Herr. apply create_scan_results_from_key_error in Herr.
    exact Herr.
Qed.

Lemma create_scan_results_from_In (F : FormatLib) (i : Z)
    (scores : list CompositeScore.t)
    (market_data_dict : gmap string MarketData.t)
    (results : list ScanResult.t) (r : ScanResult.t) :
  CompositeScorer.create_scan_results_from i scores market_data_dict
  = Built results ->
  In r results ->
  exists score market_data,
    In score scores
    /\ market_data_dict !! CompositeScore.symbol score = Some market_data
    /\ ScanResult.symbol r = CompositeScore.symbol score
    /\ ScanResult.current_price r = MarketData.price market_data
    /\ ScanResult.probability_reach r = CompositeScore.probability_reach score
    /\ ScanResult.timeframe r
       = CompositeScorer._estimate_timeframe
           (CompositeScore.probability_reach score)
    /\ ScanResult.squeeze_factors r
       = CompositeScorer._identify_squeeze_factors score
    /\ ScanResult.entry_zone r
       = (MarketData.price market_data * 0.99,
          MarketData.price market_data * 1.01)
    /\ ScanResult.stop_loss r = MarketData.price market_data * 0.95.
Proof.
  revert i results. induction scores as [| score rest IH];
    intros i results Hres Hin.
  - apply (f_equal (fun k => match k with
                             | Built l => l
                             | KeyError _ => []
                             end)) in Hres.
    simpl in Hres. subst results. destruct Hin.
  - cbn [CompositeScorer.create_scan_results_from] in Hres.
    destruct (market_data_dict !! CompositeScore.symbol score) as [md |] eqn:E;
      [| discriminate].
    destruct (CompositeScorer.create_scan_results_from (i + 1) rest
                market_data_dict) as [rs | k] eqn:Er; [| discriminate].
    apply (f_equal (fun k => match k with
                             | Built l => l
                             | KeyError _ => []
                             end)) in Hres.
    subst results. destruct Hin as [<- | Hin].
    + exists score, md. split; [left; reflexivity |]. split; [exact E |].
      repeat split.
    + destruct (IH _ _ Er Hin) as [s [md' [Hs Hrest]]].
      exists s, md'. split; [right; exact Hs | exact Hrest].
Qed.



Lemma estimate_timeframe_fast_iff (probability : Q) :
  CompositeScorer._estimate_timeframe probability = "20-60 minutes"%string
  <-> 0.8 < probability.
Proof.
  unfold CompositeScorer._estimate_timeframe.
  rewrite <- Qgtb_true.
  destruct (Qgtb probability 0.8); [tauto |].
  destruct (Qgtb probability 0.7); [split; discriminate |].
  destruct (Qgtb probability 0.6); split; discriminate.
Qed.

Lemma high_probability_factor_iff (score : CompositeScore.t) :
  In "high_probability"%string (CompositeScorer._identify_squeeze_factors score)
  <-> 0.8 < CompositeScore.probability_reach score.
Proof.
  unfold CompositeScorer._identify_squeeze_factors.
  rewrite <- Qgtb_true.
  destruct (Qgtb (CompositeScore.ignition_score score) 70);
    destruct (Qgtb (CompositeScore.pressure_score score) 70);
    destruct (Qgtb (CompositeScore.fuel_score score) 70);
    destruct (Qgtb (CompositeScore.probability_reach score) 0.8);
    destruct (Qgtb (CompositeScore.expected_return score) 0.15);
    simpl; split; intros Hx; try reflexivity; try discriminate;
    repeat (destruct Hx as [Hx | Hx]; try discriminate); try contradiction;
    tauto.
Qed.

(** X10.  In every scan result the time frame is "20-60 minutes" exactly
    when the squeeze factors contain "high_probability", and exactly when
    the probability is above 0.8. *)
Theorem fast_timeframe_iff_high_probability_factor `{FormatLib}
    (scores : list CompositeScore.t)
    (market_data_dict : gmap string MarketData.t)
    (results : list ScanResult.t) (r : ScanResult.t) :
  CompositeScorer.create_scan_results scores market_data_dict = Built results ->
  In r results ->
  (ScanResult.timeframe r = "20-60 minutes"%string
   <-> In "high_probability"%string (ScanResult.squeeze_factors r))
  /\ (ScanResult.timeframe r = "20-60 minutes"%string
      <-> 0.8 < ScanResult.probability_reach r).
Proof.
  intros Hres Hin.
  destruct (create_scan_results_from_In _ 0 scores market_data_dict results r
              Hres Hin)
    as [score [md [_ [_ [_ [_ [Hp [Ht [Hf _]]]]]]]]].
  rewrite Ht, Hf, Hp.
  rewrite estimate_timeframe_fast_iff, high_probability_factor_iff. tauto.
Qed.

Lemma fast_timeframe_iff_high_probability_factor_witness :
  exists r results,
    @CompositeScorer.create_scan_results sample_format
      (CompositeScorer.filter_and_rank config ranking_input)
      (MarketScanner.market_data_dict scan_snapshots)
    = Built results
    /\ In r results
    /\ (ScanResult.timeframe r = "20-60 minutes"%string
        <-> 0.8 < ScanResult.probability_reach r).
Proof.
  destruct (@CompositeScorer.create_scan_results sample_format
              (CompositeScorer.filter_and_rank config ranking_input)
              (MarketScanner.market_data_dict scan_snapshots))
    as [[| r rest] | key] eqn:E; try (vm_compute in E; discriminate).
  exists r, (r :: rest). split; [reflexivity |].
  split; [left; reflexivity |].
  destruct (@fast_timeframe_iff_high_probability_factor sample_format _ _ _ r E
              (or_introl eq_refl)) as [_ Hiff].
  exact Hiff.
Defined.

(** ** The report step of a scan *)

Lemma find_snoc {A : Type} (f : A -> bool) (l : list A) (x : A) :
  List.find f (l ++ [x])
  = match List.find f l with
    | Some y => Some y
    | None => if f x then Some x else None
    end.
Proof.
  induction l as [| y ys IH]; [reflexivity |].
  simpl. destruct (f y); [reflexivity | exact IH].
Qed.

Lemma market_data_dict_fold (snapshots : list MarketData.t)
    (d : gmap string MarketData.t) (key : string) :
  fold_left (fun d md => <[MarketData.symbol md := md]> d) snapshots d !! key
  = match last_snapshot_of key snapshots with
    | Some md => Some md
    | None => d !! key
    end.
Proof.
  revert d. induction snapshots as [| md rest IH]; intros d; [reflexivity |].
  simpl fold_left. rewrite IH. unfold last_snapshot_of. simpl rev.
  rewrite find_snoc.
  destruct (List.find _ (rev rest)); [reflexivity |].
  destruct (String.eqb (MarketData.symbol md) key) eqn:E.
  - apply String.eqb_eq in E. subst key. apply lookup_insert_eq.
  - apply String.eqb_neq in E. apply lookup_insert_ne. exact E.
Qed.

(** X11.  The dictionary [run_scan] builds from the filtered snapshots
    maps a symbol to the last snapshot of the list with that symbol, and
    has no entry for a symbol that is not in the list. *)
Theorem market_data_dict_holds_the_last_snapshot
    (filtered_data : list MarketData.t) (key : string) :
  MarketScanner.market_data_dict filtered_data !! key
  = last_snapshot_of key filtered_data
  /\ (forall md,
        MarketScanner.market_data_dict filtered_data !! key = Some md ->
        In md filtered_data /\ MarketData.symbol md = key)
  /\ ((forall md, In md filtered_data -> MarketData.symbol md <> key) ->
      MarketScanner.market_data_dict filtered_data !! key = None).
Proof.
  assert (Hl : MarketScanner.market_data_dict filtered_data !! key
               = last_snapshot_of key filtered_data).
  { unfold MarketScanner.market_data_dict. rewrite market_data_dict_fold.
    destruct (last_snapshot_of key filtered_data); [reflexivity |].
    apply lookup_empty. }
  split; [exact Hl |]. split.
  - intros md Hmd. rewrite Hl in Hmd. unfold last_snapshot_of in Hmd.
    apply List.find_some in Hmd. destruct Hmd as [Hin Heq].
    split; [apply in_rev; exact Hin | apply String.eqb_eq; exact Heq].
  - intros Hnone. rewrite Hl. unfold last_snapshot_of.
    destruct (List.find _ (rev filtered_data)) as [md |] eqn:E;
      [| reflexivity].
    apply List.find_some in E. destruct E as [Hin Heq].
    exfalso. apply (Hnone md); [apply in_rev; exact Hin |].
    apply String.eqb_eq. exact Heq.
Qed.

Lemma market_data_dict_covers (filtered_data : list MarketData.t)
    (md : MarketData.t) :
  In md filtered_data ->
  is_Some (MarketScanner.market_data_dict filtered_data
           !! MarketData.symbol md).
Proof.
  intros Hin. unfold MarketScanner.market_data_dict.
  rewrite market_data_dict_fold. unfold last_snapshot_of.
  destruct (List.find _ (rev filtered_data)) as [md' |] eqn:E; [eauto |].
  exfalso.
  pose proof (List.find_none _ _ E md (proj1 (in_rev _ _) Hin)) as Hf.
  simpl in Hf. rewrite String.eqb_refl in Hf. discriminate.
Qed.

Lemma In_firstn {A : Type} (n : nat) (l : list A) (x : A) :
  In x (firstn n l) -> In x l.
Proof.
  intros Hin. rewrite <- (firstn_skipn n l). apply in_or_app. left. exact Hin.
Qed.

Lemma filter_and_rank_subset (cfg : ScannerConfig)
    (scores : list CompositeScore.t) (s : CompositeScore.t) :
  In s (CompositeScorer.filter_and_rank cfg scores) -> In s scores.
Proof.
  unfold CompositeScorer.filter_and_rank, py_slice_to. intros Hin.
  assert (Hs : In s (sorted_desc CompositeScorer.ranking_key
                       (CompositeScorer.filter_loop cfg scores))).
  { destruct (0 <=? MAX_SYMBOLS_PER_SCAN cfg)%Z;
      eapply In_firstn; exact Hin. }
  eapply Permutation_in in Hs; [| apply sorted_desc_perm].
  rewrite filter_loop_filter in Hs. apply List.filter_In in Hs. tauto.
Qed.

(** X12.  The report step of [run_scan] cannot fail with KeyError: when
    every score carries the symbol of one of the filtered snapshots,
    [create_scan_results] on the ranked scores and the dictionary of the
    filtered snapshots returns one result per ranked score, each with the
    price of a filtered snapshot of its symbol. *)
Theorem report_step_never_misses_a_snapshot `{FormatLib} (cfg : ScannerConfig)
    (filtered_data : list MarketData.t) (scores : list CompositeScore.t) :
  (forall s, In s scores ->
     exists md, In md filtered_data
                /\ MarketData.symbol md = CompositeScore.symbol s) ->
  exists results,
    CompositeScorer.create_scan_results
      (CompositeScorer.filter_and_rank cfg scores)
      (MarketScanner.market_data_dict filtered_data)
    = Built results
    /\ length results = length (CompositeScorer.filter_and_rank cfg scores)
    /\ forall r, In r results ->
         exists md, In md filtered_data
                    /\ MarketData.symbol md = ScanResult.symbol r
                    /\ MarketData.price md = ScanResult.current_price r.
Proof.
  intros Hsym.
  destruct (create_scan_results_from_built _ 0
              (CompositeScorer.filter_and_rank cfg scores)
              (MarketScanner.market_data_dict filtered_data))
    as [results [Hres [Hlen _]]].
  { intros s Hs. apply filter_and_rank_subset in Hs.
    destruct (Hsym s Hs) as [md [Hin Heq]]. rewrite <- Heq.
    apply market_data_dict_covers. exact Hin. }
  exists results. split; [exact Hres |]. split; [exact Hlen |].
  intros r Hr.
  destruct (create_scan_results_from_In _ 0 _ _ results r Hres Hr)
    as [score [md [_ [Hmd [Hs [Hp _]]]]]].
  unfold MarketScanner.market_data_dict in Hmd.
  rewrite market_data_dict_fold in Hmd. unfold last_snapshot_of in Hmd.
  destruct (List.find _ (rev filtered_data)) as [md' |] eqn:E.
  - injection Hmd as ->. apply List.find_some in E. destruct E as [Hin Heq].
    exists md. split; [apply in_rev; exact Hin |].
    split; [| symmetry; exact Hp].
    rewrite Hs. apply String.eqb_eq. exact Heq.
  - rewrite lookup_empty in Hmd. discriminate.
Qed.

Lemma report_step_never_misses_a_snapshot_witness :
  exists results,
    @CompositeScorer.create_scan_results sample_format
      (CompositeScorer.filter_and_rank config
         [candidate "AAA" 80 0.70 2 true; candidate "DDD" 90 0.80 1 true])
      (MarketScanner.market_data_dict scan_snapshots)
    = Built results
    /\ length results
       = length (CompositeScorer.filter_and_rank config
                   [candidate "AAA" 80 0.70 2 true;
                    candidate "DDD" 90 0.80 1 true]).
Proof.
  destruct (@report_step_never_misses_a_snapshot sample_format config
              scan_snapshots
              [candidate "AAA" 80 0.70 2 true; candidate "DDD" 90 0.80 1 true])
    as [results [Hres [Hlen _]]].
  - intros s [<- | [<- | []]].
    + exists (MarketData.mk "AAA" 10 50000 10 11 9 10 0).
      split; [simpl; tauto | reflexivity].
    + exists (MarketData.mk "DDD" 30 70000 30 31 29 30 0).
      split; [simpl; tauto | reflexivity].
  - exists results. split; [exact Hres | exact Hlen].
Defined.

(** ** More on the benchmark estimator *)

Lemma max_expectation_range (timeframe : string) (m : Q) :
  BTCBenchmark._get_max_expectation_for_timeframe timeframe = Ok m ->
  0.05 <= m <= 0.20.
Proof.
  unfold BTCBenchmark._get_max_expectation_for_timeframe. intros Hm.
  apply exc_bind_ok in Hm. destruct Hm as [periods [_ Hm]].
  apply Ok_inj in Hm. subst m.
  destruct (periods <=? 1)%Z; [lra |].
  destruct (periods <=? 2)%Z; [lra |].
  destruct (periods <=? 4)%Z; lra.
Qed.

Lemma calculate_expected_return_range (H : NumLib) (btc_data : DataFrame)
    (timeframe : string) (r : Q) :
  BTCBenchmark._calculate_expected_return btc_data timeframe = Ok r ->
  0.01 <= r <= 0.20.
Proof.
  unfold BTCBenchmark._calculate_expected_return. intros Hr.
  apply exc_bind_ok in Hr. destruct Hr as [periods [_ Hr]].
  destruct (df_len btc_data <? periods * 2)%Z.
  - apply Ok_inj in Hr. subst r. lra.
  - apply exc_bind_ok in Hr. destruct Hr as [m [Hm Hr]].
    apply Ok_inj in Hr. subst r.
    apply max_expectation_range in Hm.
    split.
    + apply py_min_glb; [apply py_max_ge_r | lra].
    + eapply Qle_trans; [apply py_min_le_r | lra].
Qed.

(** X13.  The benchmark stays between 1% and 20%: when every cached value
    lies in [0.01, 0.20], the value [get_expected_return] returns does, and
    so does every value of the cache it leaves.  From an empty cache on,
    the benchmark is therefore always positive. *)
Theorem benchmark_stays_between_1_and_20_percent `{NumLib}
    (cache : gmap string (Z * Q)) (timeframe : string) (w : World) :
  (forall key cached_time v,
     cache !! key = Some (cached_time, v) -> 0.01 <= v <= 0.20) ->
  let o := BTCBenchmark.get_expected_return cache timeframe w in
  0.01 <= returned o <= 0.20
  /\ forall key cached_time v,
       cache_after o !! key = Some (cached_time, v) -> 0.01 <= v <= 0.20.
Proof.
  intros Hinv o. unfold o, BTCBenchmark.get_expected_return.
  destruct (BTCBenchmark.cache_check cache timeframe (now_at_check w))
    as [v |] eqn:Hc.
  - cbn [returned cache_after]. split; [| exact Hinv].
    unfold BTCBenchmark.cache_check in Hc.
    destruct (cache !! BTCBenchmark.cache_key timeframe) as [[t v'] |] eqn:E;
      [| discriminate].
    destruct (timedelta_seconds (now_at_check w - t)
              <? BTCBenchmark.cache_duration)%Z; [| discriminate].
    injection Hc as <-. eapply Hinv. exact E.
  - unfold try_except, BTCBenchmark.compute_body.
    destruct (BTCBenchmark._fetch_btc_data w) as [df |];
      [| cbn [returned cache_after]; split; [lra | exact Hinv]].
    unfold mbind, exc_bind.
    destruct (df_bool df) as [[|] | e]; cbn [negb];
      try (cbn [returned cache_after]; split; [lra | exact Hinv]).
    destruct (BTCBenchmark._calculate_expected_return df timeframe)
      as [r | e] eqn:Er;
      [| cbn [returned cache_after]; split; [lra | exact Hinv]].
    pose proof (calculate_expected_return_range _ df timeframe r Er) as Hr.
    cbn [returned cache_after]. split; [exact Hr |].
    intros key t v Hk.
    destruct (decide (BTCBenchmark.cache_key timeframe = key)) as [<- | Hne].
    + rewrite lookup_insert_eq in Hk. injection Hk as _ <-. exact Hr.
    + rewrite lookup_insert_ne in Hk by exact Hne. eapply Hinv. exact Hk.
Qed.

Lemma benchmark_stays_between_1_and_20_percent_witness :
  0.01 <= returned (@BTCBenchmark.get_expected_return lenient_lib ∅ "4h"
                      provider_up) <= 0.20.
Proof.
  apply (@benchmark_stays_between_1_and_20_percent lenient_lib ∅ "4h"
           provider_up).
  intros key t v Hk. rewrite lookup_empty in Hk. discriminate.
Defined.

Lemma timeframe_map_misses (timeframe : string) :
  str_contains "h" timeframe = false ->
  str_contains "m" timeframe = false ->
  str_contains "d" timeframe = false ->
  BTCBenchmark.timeframe_map !! timeframe = None.
Proof.
  intros Hh Hm Hd. unfold BTCBenchmark.timeframe_map.
  rewrite lookup_insert_ne by (intros <-; discriminate).
  rewrite lookup_insert_ne by (intros <-; discriminate).
  rewrite lookup_insert_ne by (intros <-; discriminate).
  rewrite lookup_insert_ne by (intros <-; discriminate).
  rewrite lookup_insert_ne by (intros <-; discriminate).
  apply lookup_empty.
Qed.

(** X14.  A time frame without the letter h that contains an m or lacks a
    d counts as one period, with the ceiling of 5%: minutes are one hour,
    and the lookup table of [_get_periods_for_timeframe] never decides,
    since each of its keys contains one of the three letters. *)
Theorem timeframes_without_hours_or_days_are_one_period (timeframe : string) :
  str_contains "h" timeframe = false ->
  str_contains "m" timeframe = true \/ str_contains "d" timeframe = false ->
  BTCBenchmark._get_periods_for_timeframe timeframe = Ok 1%Z
  /\ BTCBenchmark._get_max_expectation_for_timeframe timeframe = Ok 0.05.
Proof.
  intros Hh Hmd.
  assert (Hp : BTCBenchmark._get_periods_for_timeframe timeframe = Ok 1%Z).
  { unfold BTCBenchmark._get_periods_for_timeframe. rewrite Hh.
    destruct (str_contains "m" timeframe) eqn:Hm; [reflexivity |].
    destruct Hmd as [Habs | Hd]; [discriminate |].
    rewrite Hd. rewrite timeframe_map_misses by assumption. reflexivity. }
  split; [exact Hp |].
  unfold BTCBenchmark._get_max_expectation_for_timeframe. rewrite Hp.
  reflexivity.
Qed.

Lemma timeframes_without_hours_or_days_are_one_period_witness :
  BTCBenchmark._get_periods_for_timeframe "20m" = Ok 1%Z
  /\ BTCBenchmark._get_max_expectation_for_timeframe "20m" = Ok 0.05.
Proof.
  apply (timeframes_without_hours_or_days_are_one_period "20m").
  - reflexivity.
  - left. reflexivity.
Defined.

Lemma cache_key_injective (t1 t2 : string) :
  BTCBenchmark.cache_key t1 = BTCBenchmark.cache_key t2 -> t1 = t2.
Proof.
  unfold BTCBenchmark.cache_key. intros Heq.
  cbv in Heq. congruence.
Qed.

(** X15.  A call for one time frame leaves the cache entries of every
    other time frame, and every other key, as they were. *)
Theorem other_timeframes_keep_their_cache_entry `{NumLib}
    (cache : gmap string (Z * Q)) (timeframe other : string) (w : World) :
  other <> timeframe ->
  cache_after (BTCBenchmark.get_expected_return cache timeframe w)
    !! BTCBenchmark.cache_key other
  = cache !! BTCBenchmark.cache_key other
  /\ forall key,
       key <> BTCBenchmark.cache_key timeframe ->
       cache_after (BTCBenchmark.get_expected_return cache timeframe w) !! key
       = cache !! key.
Proof.
  intros Hne.
  assert (Hframe : forall key,
            key <> BTCBenchmark.cache_key timeframe ->
            cache_after (BTCBenchmark.get_expected_return cache timeframe w)
              !! key = cache !! key).
  { intros key Hk. unfold BTCBenchmark.get_expected_return.
    destruct (BTCBenchmark.cache_check cache timeframe (now_at_check w));
      [reflexivity |].
    unfold try_except, BTCBenchmark.compute_body.
    destruct (BTCBenchmark._fetch_btc_data w) as [df |]; [| reflexivity].
    unfold mbind, exc_bind.
    destruct (df_bool df) as [[|] | e]; try reflexivity. cbn [negb].
    destruct (BTCBenchmark._calculate_expected_return df timeframe);
      [| reflexivity].
    cbn [cache_after]. apply lookup_insert_ne. congruence. }
  split; [| exact Hframe].
  apply Hframe. intros Heq. apply cache_key_injective in Heq. contradiction.
Qed.

Lemma other_timeframes_keep_their_cache_entry_witness :
  cache_after (@BTCBenchmark.get_expected_return lenient_lib day_old_cache
                 "4h" provider_up)
    !! BTCBenchmark.cache_key "1h"
  = day_old_cache !! BTCBenchmark.cache_key "1h".
Proof.
  destruct (@other_timeframes_keep_their_cache_entry lenient_lib day_old_cache
              "4h" "1h" provider_up) as [Hkept _].
  - discriminate.
  - exact Hkept.
Defined.



Lemma cache_miss_is_not_a_hit (H : NumLib) (cache : gmap string (Z * Q))
    (timeframe : string) (w : World) :
  BTCBenchmark.cache_check cache timeframe (now_at_check w) = None ->
  path (BTCBenchmark.get_expected_return cache timeframe w) <> CacheHit.
Proof.
  intros Hmiss. unfold BTCBenchmark.get_expected_return. rewrite Hmiss.
  unfold try_except, BTCBenchmark.compute_body.
  destruct (BTCBenchmark._fetch_btc_data w) as [df |]; simpl; [| discriminate].
  destruct (df_bool df) as [[|] | e]; simpl; try discriminate.
  destruct (BTCBenchmark._calculate_expected_return df timeframe); simpl;
    discriminate.
Qed.

(** X18.  [get_benchmark_summary] and [get_expected_return] read the cache
    alike: at one clock reading, the summary shows a value exactly in the
    case in which [get_expected_return] answers from the cache, and the
    value it shows is the one returned; in every other case it reads
    "fetching...". *)
Theorem summary_shows_what_the_cache_would_return `{NumLib} `{FormatLib}
    (cache : gmap string (Z * Q)) (timeframe : string) (w : World) :
  let o := BTCBenchmark.get_expected_return cache timeframe w in
  (path o = CacheHit ->
   BTCBenchmark.get_benchmark_summary cache timeframe (now_at_check w)
   = ("BTC " ++ timeframe ++ " benchmark: " ++ fmt_pct1 (returned o))%string)
  /\ (path o <> CacheHit ->
      BTCBenchmark.get_benchmark_summary cache timeframe (now_at_check w)
      = ("BTC " ++ timeframe ++ " benchmark: fetching...")%string).
Proof.
  intros o. unfold o.
  destruct (BTCBenchmark.cache_check cache timeframe (now_at_check w))
    as [v |] eqn:Hc.
  - assert (Ho : BTCBenchmark.get_expected_return cache timeframe w
                 = {| returned := v; cache_after := cache; path := CacheHit |}).
    { unfold BTCBenchmark.get_expected_return. rewrite Hc. reflexivity. }
    rewrite Ho. cbn [path returned].
    split; [| intros Habs; contradiction].
    intros _. unfold BTCBenchmark.get_benchmark_summary.
    unfold BTCBenchmark.cache_check in Hc.
    destruct (cache !! BTCBenchmark.cache_key timeframe) as [[t v'] |];
      [| discriminate].
    destruct (timedelta_seconds (now_at_check w - t)
              <? BTCBenchmark.cache_duration)%Z; [| discriminate].
    injection Hc as ->. reflexivity.
  - pose proof (cache_miss_is_not_a_hit _ cache timeframe w Hc) as Hmiss.
    split; [intros Habs; contradiction |].
    intros _. unfold BTCBenchmark.get_benchmark_summary.
    unfold BTCBenchmark.cache_check in Hc.
    destruct (cache !! BTCBenchmark.cache_key timeframe) as [[t v'] |];
      [| reflexivity].
    destruct (timedelta_seconds (now_at_check w - t)
              <? BTCBenchmark.cache_duration)%Z; [discriminate | reflexivity].
Qed.

(** ** More on the pressure engine *)







Section MinMaxBy.
Context {A : Type} (key : A -> Q).


Lemma py_max_by_spec (best : A) (l : list A) :
  In (py_max_by key best l) (best :: l)
  /\ forall x, In x (best :: l) -> key x <= key (py_max_by key best l).
Proof.
  revert best. induction l as [| y ys IH]; intros best.
  - simpl. split; [left; reflexivity |].
    intros x [<- | []]. lra.
  - simpl py_max_by.
    destruct (Qltb (key best) (key y)) eqn:E.
    + apply Qltb_true in E. destruct (IH y) as [Hin Hmax]. split.
      * destruct Hin as [<- | Hin]; [right; left; reflexivity |].
        right. right. exact Hin.
      * intros x [<- | [<- | Hx]].
        -- pose proof (Hmax y (or_introl eq_refl)). lra.
        -- apply Hmax. left. reflexivity.
        -- apply Hmax. right. exact Hx.
    + apply Qltb_false in E. destruct (IH best) as [Hin Hmax]. split.
      * destruct Hin as [<- | Hin]; [left; reflexivity |].
        right. right. exact Hin.
      * intros x [<- | [<- | Hx]].
        -- apply Hmax. left. reflexivity.
        -- pose proof (Hmax best (or_introl eq_refl)). lra.
        -- apply Hmax. right. exact Hx.
Qed.
End MinMaxBy.


Section PainLevels.
Context (f : Q -> Q) (f_compat : forall s s', s == s' -> f s == f s').



End PainLevels.


(** X20.  [_find_target_wall] returns no wall exactly for an empty list,
    and otherwise one of the walls: when some wall is within 15% of the
    price with a probability above 0.3, the result is such a wall, and no
    such wall has a larger product of probability and gamma; when no wall
    qualifies, the result is the first (strongest) wall. *)
Theorem target_wall_is_the_best_candidate (current_price : Q)
    (walls : list GammaWall.t) :
  let candidate w :=
    GammaWall.distance_from_price w < 0.15
    /\ 0.3 < GammaWall.probability_reach w in
  match PressureEngine._find_target_wall current_price walls with
  | None => walls = []
  | Some target =>
      In target walls
      /\ ((exists w, In w walls /\ candidate w) ->
          candidate target
          /\ forall w, In w walls -> candidate w ->
               GammaWall.probability_reach w * GammaWall.gamma_value w
               <= GammaWall.probability_reach target
                  * GammaWall.gamma_value target)
      /\ ((forall w, In w walls -> ~ candidate w) ->
          exists rest, walls = target :: rest)
  end.
Proof.
  intros candidate. unfold PressureEngine._find_target_wall.
  destruct walls as [| strongest rest]; [reflexivity |].
  set (is_candidate := fun wall =>
         Qltb (GammaWall.distance_from_price wall) 0.15
         && Qgtb (GammaWall.probability_reach wall) 0.3).
  assert (Hspec : forall w, is_candidate w = true <-> candidate w).
  { intros w. unfold is_candidate, candidate.
    rewrite Bool.andb_true_iff, Qltb_true, Qgtb_true. tauto. }
  destruct (List.filter is_candidate (strongest :: rest)) as [| c cs] eqn:Ef.
  - split; [left; reflexivity |]. split.
    + intros [w [Hw Hc]]. exfalso.
      assert (Hin : In w (List.filter is_candidate (strongest :: rest))).
      { apply List.filter_In. split; [exact Hw | apply Hspec; exact Hc]. }
      rewrite Ef in Hin. destruct Hin.
    + intros _. exists rest. reflexivity.
  - set (k := fun w => GammaWall.probability_reach w * GammaWall.gamma_value w).
    destruct (py_max_by_spec k c cs) as [Hin Hmax].
    rewrite <- Ef in Hin. apply List.filter_In in Hin.
    destruct Hin as [Hin Hc].
    split; [exact Hin |]. split.
    + intros _. split; [apply Hspec; exact Hc |].
      intros w Hw Hcw. apply (Hmax w). rewrite <- Ef.
      apply List.filter_In. split; [exact Hw | apply Hspec; exact Hcw].
    + intros Hnone. exfalso. apply (Hnone _ Hin). apply Hspec. exact Hc.
Qed.

Lemma gamma_walls_loop_facts (H : NumLib) (current_price : Q)
    (options_data : OptionsData.t) (todo : list Q) (walls : list GammaWall.t) :
  PressureEngine.gamma_walls_loop current_price options_data todo = Ok walls ->
  (length walls <= length todo)%nat
  /\ Forall (fun w =>
               1000 < GammaWall.gamma_value w
               /\ GammaWall.gamma_value w = Qabs (GammaWall.net_positioning w)
               /\ In (GammaWall.strike w) todo
               /\ ~ current_price == 0
               /\ GammaWall.distance_from_price w
                  = Qabs (GammaWall.strike w - current_price) / current_price
               /\ PressureEngine._calculate_probability_reach current_price
                    (GammaWall.strike w) options_data
                  = Ok (GammaWall.probability_reach w))
            walls.
Proof.
  revert walls. induction todo as [| strike rest IH]; intros walls Hloop.
  - apply Ok_inj in Hloop. subst walls. split; [apply Nat.le_refl | constructor].
  - rewrite gamma_walls_loop_cons in Hloop.
    apply exc_bind_ok in Hloop. destruct Hloop as [distance [Hd Hloop]].
    cbv zeta in Hloop.
    assert (Hnz : ~ current_price == 0
                  /\ distance = Qabs (strike - current_price) / current_price).
    { unfold float_div in Hd.
      destruct (Qeq_bool current_price 0) eqn:E; [discriminate |].
      apply Ok_inj in Hd. split; [| symmetry; exact Hd].
      intros Hz. apply Qeq_bool_iff in Hz. congruence. }
    destruct Hnz as [Hnz Hdist].
    assert (Hweaken : forall ws,
              Forall (fun w =>
                 1000 < GammaWall.gamma_value w
                 /\ GammaWall.gamma_value w = Qabs (GammaWall.net_positioning w)
                 /\ In (GammaWall.strike w) rest
                 /\ ~ current_price == 0
                 /\ GammaWall.distance_from_price w
                    = Qabs (GammaWall.strike w - current_price) / current_price
                 /\ PressureEngine._calculate_probability_reach current_price
                      (GammaWall.strike w) options_data
                    = Ok (GammaWall.probability_reach w)) ws ->
              Forall (fun w =>
                 1000 < GammaWall.gamma_value w
                 /\ GammaWall.gamma_value w = Qabs (GammaWall.net_positioning w)
                 /\ In (GammaWall.strike w) (strike :: rest)
                 /\ ~ current_price == 0
                 /\ GammaWall.distance_from_price w
                    = Qabs (GammaWall.strike w - current_price) / current_price
                 /\ PressureEngine._calculate_probability_reach current_price
                      (GammaWall.strike w) options_data
                    = Ok (GammaWall.probability_reach w)) ws).
    { intros ws Hws. eapply List.Forall_impl; [| exact Hws].
      intros w [H1 [H2 [H3 H4]]].
      split; [exact H1 |]. split; [exact H2 |].
      split; [right; exact H3 | exact H4]. }
    destruct (Qgtb _ 1000) eqn:Eg.
    + apply exc_bind_ok in Hloop. destruct Hloop as [probability [Hp Hloop]].
      apply exc_bind_ok in Hloop. destruct Hloop as [walls' [Hrest Hloop]].
      apply Ok_inj in Hloop. subst walls.
      destruct (IH _ Hrest) as [Hlen Hall]. split; [simpl; lia |].
      constructor; [| apply Hweaken; exact Hall].
      cbv beta iota delta [GammaWall.gamma_value GammaWall.net_positioning
        GammaWall.strike GammaWall.distance_from_price
        GammaWall.probability_reach].
      apply Qgtb_true in Eg.
      split; [exact Eg |]. split; [reflexivity |].
      split; [left; reflexivity |]. split; [exact Hnz |].
      split; [exact Hdist | exact Hp].
    + destruct (IH _ Hloop) as [Hlen Hall].
      split; [simpl; lia | apply Hweaken; exact Hall].
Qed.

(** X21.  The walls [_find_gamma_walls] returns are ordered by descending
    gamma value; each has a gamma value above 1000 that is the absolute
    value of its net positioning, sits on a strike of the chain, has a
    distance of |strike - price| / price and a probability that is 1 (at
    the price) or within [0.01, 0.99]; there are no more walls than
    strikes. *)
Theorem gamma_walls_are_significant_and_sorted `{NumLib}
    (market_data : MarketData.t) (options_data : OptionsData.t)
    (walls : list GammaWall.t) :
  PressureEngine._find_gamma_walls market_data options_data = Ok walls ->
  descending GammaWall.gamma_value walls
  /\ (length walls <= length (OptionsData.strikes options_data))%nat
  /\ forall w, In w walls ->
       1000 < GammaWall.gamma_value w
       /\ GammaWall.gamma_value w = Qabs (GammaWall.net_positioning w)
       /\ In (GammaWall.strike w) (OptionsData.strikes options_data)
       /\ GammaWall.distance_from_price w
          = Qabs (GammaWall.strike w - MarketData.price market_data)
            / MarketData.price market_data
       /\ (GammaWall.probability_reach w = 1
           \/ 0.01 <= GammaWall.probability_reach w <= 0.99).
Proof.
  unfold PressureEngine._find_gamma_walls. intros Hw.
  apply exc_bind_ok in Hw. destruct Hw as [unsorted [Hloop Hw]].
  apply Ok_inj in Hw. subst walls.
  apply gamma_walls_loop_facts in Hloop. destruct Hloop as [Hlen Hall].
  split; [apply sorted_desc_descending |].
  split; [rewrite sorted_desc_length; exact Hlen |].
  intros w Hin.
  eapply Permutation_in in Hin; [| apply sorted_desc_perm].
  rewrite List.Forall_forall in Hall.
  destruct (Hall w Hin) as [H1 [H2 [H3 [_ [H5 H6]]]]].
  split; [exact H1 |]. split; [exact H2 |]. split; [exact H3 |].
  split; [exact H5 |].
  apply probability_reach_cases in H6.
  destruct H6 as [[_ ->] | [_ Hr]]; [left; reflexivity | right; exact Hr].
Qed.

Lemma gamma_walls_are_significant_and_sorted_witness :
  exists walls,
    @PressureEngine._find_gamma_walls sample_lib scenario_market_data
      at_the_money = Ok walls
    /\ descending GammaWall.gamma_value walls
    /\ (length walls <= 1)%nat.
Proof.
  eexists. split; [vm_compute; reflexivity |].
  destruct (@gamma_walls_are_significant_and_sorted sample_lib
              scenario_market_data at_the_money _ eq_refl)
    as [Hsorted [Hlen _]].
  split; [exact Hsorted | exact Hlen].
Defined.

(** X22.  [_determine_dealer_flow] is "neutral" without walls.  It is
    "bullish" only when the strongest wall is a bullish one (dealers net
    long above the price) or both the put/call ratio is below 0.8 and max
    pain is above the price, and never when the strongest wall is a
    bearish one; symmetrically for "bearish". *)
Theorem dealer_flow_needs_two_indicators (walls : list GammaWall.t)
    (pcr : ExtFloat) (current_price max_pain : Q) :
  let flow :=
    PressureEngine._determine_dealer_flow walls pcr current_price max_pain in
  let bullish_wall w :=
    0 < GammaWall.net_positioning w /\ current_price < GammaWall.strike w in
  let bearish_wall w :=
    GammaWall.net_positioning w < 0 /\ GammaWall.strike w < current_price in
  (flow = "bullish" \/ flow = "bearish" \/ flow = "neutral")%string
  /\ (walls = [] -> flow = "neutral"%string)
  /\ (flow = "bullish"%string ->
      exists strongest rest,
        walls = strongest :: rest
        /\ (bullish_wall strongest
            \/ (ext_ltb pcr 0.8 = true /\ current_price < max_pain))
        /\ ~ bearish_wall strongest)
  /\ (flow = "bearish"%string ->
      exists strongest rest,
        walls = strongest :: rest
        /\ (bearish_wall strongest
            \/ (ext_gtb pcr 1.2 = true /\ max_pain < current_price))
        /\ ~ bullish_wall strongest).
Proof.
  intros flow bullish_wall bearish_wall. unfold flow.
  destruct walls as [| w rest].
  { simpl. split; [right; right; reflexivity |]. split; [reflexivity |].
    split; discriminate. }
  unfold PressureEngine._determine_dealer_flow.
  assert (Hbw : Qgtb (GammaWall.net_positioning w) 0
                && Qgtb (GammaWall.strike w) current_price = true
                <-> bullish_wall w).
  { unfold bullish_wall. rewrite Bool.andb_true_iff, !Qgtb_true. tauto. }
  assert (Hrw : Qltb (GammaWall.net_positioning w) 0
                && Qltb (GammaWall.strike w) current_price = true
                <-> bearish_wall w).
  { unfold bearish_wall. rewrite Bool.andb_true_iff, !Qltb_true. tauto. }
  assert (Hexw : bullish_wall w -> bearish_wall w -> False).
  { unfold bullish_wall, bearish_wall. intros [H1 _] [H2 _]. lra. }
  assert (Hmp1 : Qgtb max_pain current_price = true <-> current_price < max_pain).
  { apply Qgtb_true. }
  assert (Hmp2 : Qltb max_pain current_price = true <-> max_pain < current_price).
  { apply Qltb_true. }
  destruct (Qgtb (GammaWall.net_positioning w) 0
            && Qgtb (GammaWall.strike w) current_price) eqn:Eb;
    destruct (Qltb (GammaWall.net_positioning w) 0
              && Qltb (GammaWall.strike w) current_price) eqn:Er;
    destruct (ext_ltb pcr 0.8) eqn:E1; destruct (ext_gtb pcr 1.2) eqn:E2;
    destruct (Qgtb max_pain current_price) eqn:E3;
    destruct (Qltb max_pain current_price) eqn:E4;
    try (exfalso; apply Hexw; [apply Hbw | apply Hrw]; reflexivity);
    try (exfalso; apply Qgtb_true in E3; apply Qltb_true in E4; lra);
    cbn;
    (split; [tauto |]); (split; [discriminate |]);
    (split; [try discriminate | try discriminate]);
    try (intros _; exists w, rest; split; [reflexivity |]; split;
         [first [left; apply Hbw; reflexivity
                | left; apply Hrw; reflexivity
                | right; split; [reflexivity |]; first [apply Hmp1 | apply Hmp2];
                  reflexivity]
         | intros Hx; first [apply Hrw in Hx | apply Hbw in Hx]; discriminate]).
Qed.

(** ** More on the fuel engine *)

Lemma py_min_monotone (c a b : Q) : a <= b -> py_min c a <= py_min c b.
Proof.
  intros Hab. apply py_min_glb.
  - apply py_min_le_l.
  - eapply Qle_trans; [apply py_min_le_r | exact Hab].
Qed.

(** X23.  The squeeze score is monotone: a smaller float, a higher short
    interest, a higher borrow fee, a higher insider ownership and a higher
    relative volume never lower it. *)
Theorem squeeze_score_is_monotone (fd1 fd2 : FundamentalData.t)
    (rv1 rv2 : Q) :
  (FundamentalData.float_shares fd2 <= FundamentalData.float_shares fd1)%Z ->
  FundamentalData.short_percent fd1 <= FundamentalData.short_percent fd2 ->
  FundamentalData.borrow_fee fd1 <= FundamentalData.borrow_fee fd2 ->
  FundamentalData.insider_ownership fd1 <= FundamentalData.insider_ownership fd2 ->
  rv1 <= rv2 ->
  FuelEngine._calculate_squeeze_score fd1 rv1
  <= FuelEngine._calculate_squeeze_score fd2 rv2.
Proof.
  intros Hfs Hsp Hbf Hio Hrv. unfold FuelEngine._calculate_squeeze_score.
  apply py_min_monotone. cbv zeta.
  set (F := fun fd =>
         if (FundamentalData.float_shares fd <? 5000000)%Z then 0 + 30
         else if (FundamentalData.float_shares fd <? 10000000)%Z then 0 + 25
         else if (FundamentalData.float_shares fd <? 20000000)%Z then 0 + 15
         else 0).
  assert (H1 : F fd1 <= F fd2).
  { unfold F.
    destruct (FundamentalData.float_shares fd1 <? 5000000)%Z eqn:A1;
      destruct (FundamentalData.float_shares fd1 <? 10000000)%Z eqn:A2;
      destruct (FundamentalData.float_shares fd1 <? 20000000)%Z eqn:A3;
      destruct (FundamentalData.float_shares fd2 <? 5000000)%Z eqn:B1;
      destruct (FundamentalData.float_shares fd2 <? 10000000)%Z eqn:B2;
      destruct (FundamentalData.float_shares fd2 <? 20000000)%Z eqn:B3;
      try lra;
      rewrite ?Z.ltb_lt, ?Z.ltb_ge in *; exfalso; lia. }
  change (if (FundamentalData.float_shares fd1 <? 5000000)%Z then 0 + 30
          else if (FundamentalData.float_shares fd1 <? 10000000)%Z then 0 + 25
          else if (FundamentalData.float_shares fd1 <? 20000000)%Z then 0 + 15
          else 0) with (F fd1).
  change (if (FundamentalData.float_shares fd2 <? 5000000)%Z then 0 + 30
          else if (FundamentalData.float_shares fd2 <? 10000000)%Z then 0 + 25
          else if (FundamentalData.float_shares fd2 <? 20000000)%Z then 0 + 15
          else 0) with (F fd2).
  generalize dependent (F fd1). generalize dependent (F fd2).
  clear F. intros a2 a1 H1.
  assert (H2 :
    (if Qgtb (FundamentalData.short_percent fd1) 30 then a1 + 25
     else if Qgtb (FundamentalData.short_percent fd1) 20 then a1 + 20
     else if Qgtb (FundamentalData.short_percent fd1) 15 then a1 + 10 else a1)
    <= (if Qgtb (FundamentalData.short_percent fd2) 30 then a2 + 25
        else if Qgtb (FundamentalData.short_percent fd2) 20 then a2 + 20
        else if Qgtb (FundamentalData.short_percent fd2) 15 then a2 + 10
        else a2)).
  { destruct (Qgtb (FundamentalData.short_percent fd1) 30) eqn:A1;
      destruct (Qgtb (FundamentalData.short_percent fd1) 20) eqn:A2;
      destruct (Qgtb (FundamentalData.short_percent fd1) 15) eqn:A3;
      destruct (Qgtb (FundamentalData.short_percent fd2) 30) eqn:B1;
      destruct (Qgtb (FundamentalData.short_percent fd2) 20) eqn:B2;
      destruct (Qgtb (FundamentalData.short_percent fd2) 15) eqn:B3;
      rewrite ?Qgtb_true, ?Qgtb_false in *; lra. }
  revert H2.
  generalize (if Qgtb (FundamentalData.short_percent fd1) 30 then a1 + 25
     else if Qgtb (FundamentalData.short_percent fd1) 20 then a1 + 20
     else if Qgtb (FundamentalData.short_percent fd1) 15 then a1 + 10 else a1).
  generalize (if Qgtb (FundamentalData.short_percent fd2) 30 then a2 + 25
        else if Qgtb (FundamentalData.short_percent fd2) 20 then a2 + 20
        else if Qgtb (FundamentalData.short_percent fd2) 15 then a2 + 10
        else a2).
  clear a1 a2 H1. intros b2 b1 H2.
  assert (H3 :
    (if Qgtb (FundamentalData.borrow_fee fd1) 100 then b1 + 20
     else if Qgtb (FundamentalData.borrow_fee fd1) 50 then b1 + 15
     else if Qgtb (FundamentalData.borrow_fee fd1) 25 then b1 + 5 else b1)
    <= (if Qgtb (FundamentalData.borrow_fee fd2) 100 then b2 + 20
        else if Qgtb (FundamentalData.borrow_fee fd2) 50 then b2 + 15
        else if Qgtb (FundamentalData.borrow_fee fd2) 25 then b2 + 5 else b2)).
  { destruct (Qgtb (FundamentalData.borrow_fee fd1) 100) eqn:A1;
      destruct (Qgtb (FundamentalData.borrow_fee fd1) 50) eqn:A2;
      destruct (Qgtb (FundamentalData.borrow_fee fd1) 25) eqn:A3;
      destruct (Qgtb (FundamentalData.borrow_fee fd2) 100) eqn:B1;
      destruct (Qgtb (FundamentalData.borrow_fee fd2) 50) eqn:B2;
      destruct (Qgtb (FundamentalData.borrow_fee fd2) 25) eqn:B3;
      rewrite ?Qgtb_true, ?Qgtb_false in *; lra. }
  revert H3.
  generalize (if Qgtb (FundamentalData.borrow_fee fd1) 100 then b1 + 20
     else if Qgtb (FundamentalData.borrow_fee fd1) 50 then b1 + 15
     else if Qgtb (FundamentalData.borrow_fee fd1) 25 then b1 + 5 else b1).
  generalize (if Qgtb (FundamentalData.borrow_fee fd2) 100 then b2 + 20
        else if Qgtb (FundamentalData.borrow_fee fd2) 50 then b2 + 15
        else if Qgtb (FundamentalData.borrow_fee fd2) 25 then b2 + 5 else b2).
  clear b1 b2 H2. intros c2 c1 H3.
  assert (H4 :
    (if Qgtb rv1 5 then c1 + 15 else if Qgtb rv1 3 then c1 + 10
     else if Qgtb rv1 2 then c1 + 5 else c1)
    <= (if Qgtb rv2 5 then c2 + 15 else if Qgtb rv2 3 then c2 + 10
        else if Qgtb rv2 2 then c2 + 5 else c2)).
  { destruct (Qgtb rv1 5) eqn:A1; destruct (Qgtb rv1 3) eqn:A2;
      destruct (Qgtb rv1 2) eqn:A3; destruct (Qgtb rv2 5) eqn:B1;
      destruct (Qgtb rv2 3) eqn:B2; destruct (Qgtb rv2 2) eqn:B3;
      rewrite ?Qgtb_true, ?Qgtb_false in *; lra. }
  revert H4.
  generalize (if Qgtb rv1 5 then c1 + 15 else if Qgtb rv1 3 then c1 + 10
     else if Qgtb rv1 2 then c1 + 5 else c1).
  generalize (if Qgtb rv2 5 then c2 + 15 else if Qgtb rv2 3 then c2 + 10
        else if Qgtb rv2 2 then c2 + 5 else c2).
  clear c1 c2 H3. intros d2 d1 H4.
  destruct (Qgtb (FundamentalData.insider_ownership fd1) 40) eqn:A1;
    destruct (Qgtb (FundamentalData.insider_ownership fd1) 30) eqn:A2;
    destruct (Qgtb (FundamentalData.insider_ownership fd2) 40) eqn:B1;
    destruct (Qgtb (FundamentalData.insider_ownership fd2) 30) eqn:B2;
    rewrite ?Qgtb_true, ?Qgtb_false in *; lra.
Qed.

Lemma squeeze_score_is_monotone_witness :
  FuelEngine._calculate_squeeze_score one_share_average 1
  <= FuelEngine._calculate_squeeze_score
       (FundamentalData.mk "HUGE" 4000000 35 2000000 120 1 100000000 45) 6.
Proof.
  apply squeeze_score_is_monotone; vm_compute; discriminate.
Defined.

Lemma fuel_factors_setup (low_float high_short_interest high_borrow_cost
    volume_surge : bool) (fd : FundamentalData.t) :
  (FundamentalData.float_shares fd < 5000000 -> low_float = true)%Z ->
  (25 < FundamentalData.short_percent fd -> high_short_interest = true) ->
  In "squeeze_setup"%string
    (FuelEngine._identify_fuel_factors low_float high_short_interest
       high_borrow_cost volume_surge fd) ->
  (FundamentalData.float_shares fd < 5000000)%Z
  /\ 25 < FundamentalData.short_percent fd
  /\ In "micro_float"%string
       (FuelEngine._identify_fuel_factors low_float high_short_interest
          high_borrow_cost volume_surge fd)
  /\ (In "extreme_short_interest"%string
        (FuelEngine._identify_fuel_factors low_float high_short_interest
           high_borrow_cost volume_surge fd)
      \/ In "high_short_interest"%string
           (FuelEngine._identify_fuel_factors low_float high_short_interest
              high_borrow_cost volume_surge fd)).
Proof.
  intros Hlf Hhs. unfold FuelEngine._identify_fuel_factors. cbv zeta.
  destruct ((FundamentalData.float_shares fd <? 5000000)%Z) eqn:Ef.
  2: { cbn [andb].
       destruct low_float; destruct high_short_interest;
         destruct high_borrow_cost; destruct volume_surge;
         destruct (FundamentalData.float_shares fd <? 10000000)%Z;
         destruct (Qgtb (FundamentalData.short_percent fd) 30);
         destruct (Qgtb (FundamentalData.short_percent fd) 20);
         destruct (Qgtb (FundamentalData.borrow_fee fd) 100);
         destruct (Qgtb (FundamentalData.insider_ownership fd) 40);
         cbn; intros Hx;
         repeat (destruct Hx as [Hx | Hx]; [discriminate |]); destruct Hx. }
  apply Z.ltb_lt in Ef. rewrite (Hlf Ef).
  destruct (Qgtb (FundamentalData.short_percent fd) 25) eqn:Es.
  2: { cbn [andb].
       destruct high_short_interest; destruct high_borrow_cost;
         destruct volume_surge;
         destruct (Qgtb (FundamentalData.short_percent fd) 30);
         destruct (Qgtb (FundamentalData.short_percent fd) 20);
         destruct (Qgtb (FundamentalData.borrow_fee fd) 100);
         destruct (Qgtb (FundamentalData.insider_ownership fd) 40);
         cbn; intros Hx;
         repeat (destruct Hx as [Hx | Hx]; [discriminate |]); destruct Hx. }
  apply Qgtb_true in Es. rewrite (Hhs Es). cbn [andb].
  assert (H20 : Qgtb (FundamentalData.short_percent fd) 20 = true).
  { apply Qgtb_true. lra. }
  rewrite H20. intros _.
  split; [exact Ef |]. split; [exact Es |].
  destruct high_borrow_cost; destruct volume_surge;
    destruct (Qgtb (FundamentalData.short_percent fd) 30);
    destruct (Qgtb (FundamentalData.borrow_fee fd) 100);
    destruct (Qgtb (FundamentalData.insider_ownership fd) 40);
    cbn; tauto.
Qed.

(** X24.  With MAX_FLOAT_SIZE at 5,000,000 or more, a fuel signal that
    carries the factor "squeeze_setup" has both the low-float and the
    high-short-interest flag set, and carries "micro_float" and one of
    "extreme_short_interest" and "high_short_interest" as well. *)
Theorem squeeze_setup_comes_with_its_flags `{NumLib} (cfg : ScannerConfig)
    (market_data : MarketData.t) (fundamental_data : option FundamentalData.t) :
  (5000000 <= MAX_FLOAT_SIZE cfg)%Z ->
  let s := FuelEngine.analyze cfg market_data fundamental_data in
  In "squeeze_setup"%string (FuelSignal.fuel_factors s) ->
  FuelSignal.low_float s = true
  /\ FuelSignal.high_short_interest s = true
  /\ In "micro_float"%string (FuelSignal.fuel_factors s)
  /\ (In "extreme_short_interest"%string (FuelSignal.fuel_factors s)
      \/ In "high_short_interest"%string (FuelSignal.fuel_factors s)).
Proof.
  intros Hmax s. unfold s, FuelEngine.analyze, try_except.
  destruct (FuelEngine.analyze_body cfg market_data fundamental_data)
    as [sig | e] eqn:Hbody; [| intros []].
  unfold FuelEngine.analyze_body in Hbody.
  apply exc_bind_ok in Hbody. destruct Hbody as [rv [_ Hbody]].
  apply Ok_inj in Hbody. subst sig.
  cbv beta iota delta [FuelSignal.fuel_factors FuelSignal.low_float
    FuelSignal.high_short_interest].
  set (fd := match fundamental_data with
             | Some fd => fd
             | None => FuelEngine._generate_synthetic_fundamentals market_data
             end).
  intros Hin.
  assert (H1 : (FundamentalData.float_shares fd < 5000000)%Z ->
               (FundamentalData.float_shares fd <? MAX_FLOAT_SIZE cfg)%Z = true).
  { intros Hfs. apply Z.ltb_lt. lia. }
  assert (H2 : 25 < FundamentalData.short_percent fd ->
               Qgtb (FundamentalData.short_percent fd) 15 = true).
  { intros Hsp. apply Qgtb_true. lra. }
  destruct (fuel_factors_setup _ _ _ _ fd H1 H2 Hin) as [Hfs [Hsp [Hm Hs]]].
  split; [apply H1; exact Hfs |].
  split; [apply H2; exact Hsp |].
  split; [exact Hm | exact Hs].
Qed.

Lemma squeeze_setup_comes_with_its_flags_witness :
  In "micro_float"%string
    (FuelSignal.fuel_factors
       (@FuelEngine.analyze sample_lib config scenario_market_data
          (Some (FundamentalData.mk "AAPL" 4000000 35 1400000 120 1000000
                   600000000 45)))).
Proof.
  apply (@squeeze_setup_comes_with_its_flags sample_lib config
           scenario_market_data
           (Some (FundamentalData.mk "AAPL" 4000000 35 1400000 120 1000000
                    600000000 45))).
  - vm_compute. discriminate.
  - vm_compute. tauto.
Defined.

(** X25.  For a non-negative short interest and relative volume, the
    multipliers of [estimate_squeeze_potential] are positive and ordered:
    low <= medium <= high. *)
Theorem squeeze_potential_is_ordered (signal : FuelSignal.t)
    (fundamental_data : FundamentalData.t) :
  0 <= FundamentalData.short_percent fundamental_data ->
  0 <= FuelSignal.relative_volume signal ->
  let p := FuelEngine.estimate_squeeze_potential signal fundamental_data in
  0 < SqueezePotential.low p
  /\ SqueezePotential.low p <= SqueezePotential.medium p
  /\ SqueezePotential.medium p <= SqueezePotential.high p.
Proof.
  intros Hsp Hrv p. unfold p, FuelEngine.estimate_squeeze_potential.
  destruct (Qltb (FuelSignal.short_squeeze_score signal) 50).
  - cbn. repeat split; lra.
  - cbv zeta.
    cbv beta iota delta [SqueezePotential.low SqueezePotential.medium
      SqueezePotential.high].
    set (b := 1 + FundamentalData.short_percent fundamental_data / 100).
    set (fm := if (FundamentalData.float_shares fundamental_data <? 5000000)%Z
               then 1.5
               else if (FundamentalData.float_shares fundamental_data
                        <? 10000000)%Z then 1.3 else 1.1).
    set (vm := 1 + py_min 0.5 ((FuelSignal.relative_volume signal - 2) * 0.1)).
    assert (Hb : 0 < b).
    { unfold b.
      assert (0 <= FundamentalData.short_percent fundamental_data / 100).
      { apply Qle_shift_div_l; lra. }
      lra. }
    assert (Hfm : 0 < fm).
    { unfold fm.
      destruct (FundamentalData.float_shares fundamental_data <? 5000000)%Z;
        [lra |].
      destruct (FundamentalData.float_shares fundamental_data <? 10000000)%Z;
        lra. }
    assert (Hvm : 0 < vm).
    { unfold vm.
      assert (-0.2 <= py_min 0.5 ((FuelSignal.relative_volume signal - 2) * 0.1)).
      { apply py_min_glb; lra. }
      lra. }
    assert (HT : 0 < b * fm * vm).
    { apply Qmult_lt_0_compat; [apply Qmult_lt_0_compat |]; assumption. }
    generalize dependent (b * fm * vm). intros T HT.
    repeat split; lra.
Qed.

Lemma squeeze_potential_is_ordered_witness :
  SqueezePotential.low
    (FuelEngine.estimate_squeeze_potential scenario_fuel one_share_average)
  <= SqueezePotential.medium
       (FuelEngine.estimate_squeeze_potential scenario_fuel one_share_average).
Proof.
  apply (squeeze_potential_is_ordered scenario_fuel one_share_average);
    vm_compute; discriminate.
Defined.

(** ** More on the ignition engine *)

Lemma ignition_body_shape (H : NumLib) (cfg : ScannerConfig)
    (market_data : MarketData.t) (historical_prices : option Series)
    (s : IgnitionSignal.t) :
  IgnitionEngine.analyze_body cfg market_data historical_prices = Ok s ->
  calculate_distance_from_extremes (MarketData.price market_data)
    (MarketData.high market_data) (MarketData.low market_data)
  = Ok (IgnitionSignal.distance_from_extremes s)
  /\ IgnitionSignal.vwap_momentum s
     = Qgtb (IgnitionSignal.vwap_spread_slope s) 0.001
  /\ IgnitionSignal.expansion_energy s
     = Qgtb (IgnitionSignal.band_expansion_ratio s) 1.5
  /\ IgnitionSignal.entry_timing s
     = Qltb (IgnitionSignal.distance_from_extremes s)
         (MAX_DISTANCE_FROM_HOD_LOD cfg)
  /\ IgnitionSignal.score s
     = IgnitionEngine._calculate_ignition_score cfg
         (IgnitionSignal.vwap_spread_slope s)
         (IgnitionSignal.band_expansion_ratio s)
         (IgnitionSignal.distance_from_extremes s)
         (IgnitionSignal.vwap_momentum s) (IgnitionSignal.expansion_energy s)
         (IgnitionSignal.entry_timing s).
Proof.
  unfold IgnitionEngine.analyze_body. intros Hbody.
  apply exc_bind_ok in Hbody. destruct Hbody as [slope [_ Hbody]].
  destruct (calculate_bollinger_bands _ 20 2) as [[upper sma] lower].
  apply exc_bind_ok in Hbody. destruct Hbody as [u [_ Hbody]].
  apply exc_bind_ok in Hbody. destruct Hbody as [l [_ Hbody]].
  apply exc_bind_ok in Hbody. destruct Hbody as [avg [_ Hbody]].
  apply exc_bind_ok in Hbody. destruct Hbody as [fh [Hfh Hbody]].
  apply exc_bind_ok in Hbody. destruct Hbody as [fl [Hfl Hbody]].
  apply Ok_inj in Hbody. subst s.
  cbv beta iota delta [IgnitionSignal.distance_from_extremes
    IgnitionSignal.vwap_momentum IgnitionSignal.expansion_energy
    IgnitionSignal.entry_timing IgnitionSignal.score
    IgnitionSignal.vwap_spread_slope IgnitionSignal.band_expansion_ratio].
  split; [| repeat split].
  unfold calculate_distance_from_extremes. rewrite Hfh, Hfl. reflexivity.
Qed.

Lemma Qdiv_lt_iff (a c p : Q) : 0 < p -> (a / p < c <-> a < c * p).
Proof.
  intros Hp. split; intros Hx.
  - apply (Qmult_lt_r _ _ p Hp) in Hx.
    assert (Ha : a / p * p == a) by (field; lra).
    rewrite Ha in Hx. exact Hx.
  - apply Qlt_shift_div_r; assumption.
Qed.

Lemma py_min_lt_iff (a b c : Q) : py_min a b < c <-> a < c \/ b < c.
Proof.
  unfold py_min. destruct (Qlt_le_dec b a); split; intros Hx.
  - right. exact Hx.
  - destruct Hx; lra.
  - left. exact Hx.
  - destruct Hx; lra.
Qed.

(** X26.  For a positive price, the distance from the extremes of a
    completed ignition analysis is the one [calculate_distance_from_extremes]
    of [utils.py] computes, it is not negative, and the entry-timing flag
    is set exactly when the price is closer than
    MAX_DISTANCE_FROM_HOD_LOD times the price to the high or to the low. *)
Theorem entry_timing_means_close_to_an_extreme `{NumLib} (cfg : ScannerConfig)
    (market_data : MarketData.t) (historical_prices : option Series)
    (s : IgnitionSignal.t) :
  0 < MarketData.price market_data ->
  IgnitionEngine.analyze_body cfg market_data historical_prices = Ok s ->
  let p := MarketData.price market_data in
  calculate_distance_from_extremes p (MarketData.high market_data)
    (MarketData.low market_data)
  = Ok (IgnitionSignal.distance_from_extremes s)
  /\ 0 <= IgnitionSignal.distance_from_extremes s
  /\ (IgnitionSignal.entry_timing s = true
      <-> Qabs (p - MarketData.high market_data)
          < MAX_DISTANCE_FROM_HOD_LOD cfg * p
          \/ Qabs (p - MarketData.low market_data)
             < MAX_DISTANCE_FROM_HOD_LOD cfg * p).
Proof.
  intros Hpos Hbody p.
  destruct (ignition_body_shape _ cfg market_data historical_prices s Hbody)
    as [Hd [_ [_ [Ht _]]]].
  split; [exact Hd |].
  unfold calculate_distance_from_extremes in Hd. fold p in Hd.
  rewrite !float_div_nonzero in Hd by (unfold p; lra).
  unfold mbind, exc_bind in Hd. apply Ok_inj in Hd.
  rewrite Ht, <- Hd. clear Ht Hd.
  assert (Hdiv : forall a c, a / p < c <-> a < c * p)
    by (intros a c; apply Qdiv_lt_iff; exact Hpos).
  assert (Hnn : forall a, 0 <= a -> 0 <= a / p).
  { intros a Ha. apply Qle_shift_div_l; [exact Hpos | lra]. }
  split.
  - apply py_min_glb; apply Hnn; apply Qabs_nonneg.
  - rewrite Qltb_true, py_min_lt_iff, !Hdiv. tauto.
Qed.

Lemma entry_timing_means_close_to_an_extreme_witness :
  exists s,
    @IgnitionEngine.analyze_body sample_lib config scenario_market_data None
    = Ok s
    /\ 0 <= IgnitionSignal.distance_from_extremes s.
Proof.
  destruct (@IgnitionEngine.analyze_body sample_lib config scenario_market_data
              None) as [s | e] eqn:E; [| vm_compute in E; discriminate].
  exists s. split; [reflexivity |].
  destruct (@entry_timing_means_close_to_an_extreme sample_lib config
              scenario_market_data None s) as [_ [Hnn _]].
  - reflexivity.
  - exact E.
  - exact Hnn.
Defined.

Lemma py_min_pos (a b : Q) : 0 < a -> 0 < b -> 0 < py_min a b.
Proof. intros Ha Hb. unfold py_min. destruct (Qlt_le_dec b a); assumption. Qed.

(** X27.  With a positive MAX_DISTANCE_FROM_HOD_LOD, the score of an
    ignition signal is positive exactly when one of its three flags is set;
    a signal without a flag, as the neutral signal of a failed analysis,
    scores 0. *)
Theorem ignition_scores_only_with_a_flag `{NumLib} (cfg : ScannerConfig)
    (market_data : MarketData.t) (historical_prices : option Series) :
  0 < MAX_DISTANCE_FROM_HOD_LOD cfg ->
  let s := IgnitionEngine.analyze cfg market_data historical_prices in
  (0 < IgnitionSignal.score s
   <-> IgnitionSignal.vwap_momentum s = true
       \/ IgnitionSignal.expansion_energy s = true
       \/ IgnitionSignal.entry_timing s = true)
  /\ (IgnitionSignal.vwap_momentum s = false ->
      IgnitionSignal.expansion_energy s = false ->
      IgnitionSignal.entry_timing s = false ->
      IgnitionSignal.score s == 0).
Proof.
  intros Hmax s.
  assert (Hiff : 0 < IgnitionSignal.score s
                 <-> IgnitionSignal.vwap_momentum s = true
                     \/ IgnitionSignal.expansion_energy s = true
                     \/ IgnitionSignal.entry_timing s = true).
  { unfold s, IgnitionEngine.analyze, try_except.
    destruct (IgnitionEngine.analyze_body cfg market_data historical_prices)
      as [sig | e] eqn:Hbody.
    - destruct (ignition_body_shape _ cfg market_data historical_prices sig
                  Hbody) as [_ [Hm [He [Ht Hs]]]].
      rewrite Hs. unfold IgnitionEngine._calculate_ignition_score.
      assert (Am : IgnitionSignal.vwap_momentum sig = true ->
                   0 < py_min 40 (Qabs (IgnitionSignal.vwap_spread_slope sig)
                                  * 10000)).
      { intros Hx. rewrite Hm in Hx. apply Qgtb_true in Hx.
        apply py_min_pos; [lra |].
        assert (IgnitionSignal.vwap_spread_slope sig
                <= Qabs (IgnitionSignal.vwap_spread_slope sig))
          by apply Qle_Qabs.
        lra. }
      assert (Ae : IgnitionSignal.expansion_energy sig = true ->
                   0 < py_min 35 ((IgnitionSignal.band_expansion_ratio sig - 1)
                                  * 35)).
      { intros Hx. rewrite He in Hx. apply Qgtb_true in Hx.
        apply py_min_pos; lra. }
      assert (At : IgnitionSignal.entry_timing sig = true ->
                   0 < (MAX_DISTANCE_FROM_HOD_LOD cfg
                        - IgnitionSignal.distance_from_extremes sig)
                       / MAX_DISTANCE_FROM_HOD_LOD cfg * 25).
      { intros Hx. rewrite Ht in Hx. apply Qltb_true in Hx.
        apply Qmult_lt_0_compat; [| lra].
        apply Qlt_shift_div_l; [exact Hmax | lra]. }
      destruct (IgnitionSignal.vwap_momentum sig);
        destruct (IgnitionSignal.expansion_energy sig);
        destruct (IgnitionSignal.entry_timing sig);
        try specialize (Am eq_refl); try specialize (Ae eq_refl);
        try specialize (At eq_refl);
        (split;
         [intros Hx; first [left; reflexivity
                           | right; left; reflexivity
                           | right; right; reflexivity
                           | exfalso; vm_compute in Hx; discriminate]
         | intros Hx; first [apply py_min_pos; lra
                            | destruct Hx as [Hx | [Hx | Hx]]; discriminate]]).
    - cbn. split.
      + intros Hx. exfalso. vm_compute in Hx. discriminate.
      + intros [Hx | [Hx | Hx]]; discriminate. }
  split; [exact Hiff |].
  intros Hm He Ht.
  assert (Hle : ~ 0 < IgnitionSignal.score s).
  { intros Hx. apply Hiff in Hx. rewrite Hm, He, Ht in Hx.
    destruct Hx as [Hx | [Hx | Hx]]; discriminate. }
  pose proof (ignition_score_in_range _ cfg market_data historical_prices Hmax)
    as [Hlo _].
  fold s in Hlo. lra.
Qed.

Lemma ignition_scores_only_with_a_flag_witness :
  IgnitionSignal.score
    (@IgnitionEngine.analyze sample_lib config zero_price None) == 0.
Proof.
  destruct (@ignition_scores_only_with_a_flag sample_lib config zero_price None)
    as [_ Hzero].
  - reflexivity.
  - apply Hzero; reflexivity.
Defined.

(** ** More on ranking and the composite score *)

Section SortedAgain.
Context {A : Type} (key : A -> Q).

Lemma sorted_desc_of_descending (l : list A) :
  descending key l -> sorted_desc key l = l.
Proof.
  induction l as [| x xs IH]; [reflexivity |].
  intros Hd. inversion Hd as [| ? ? Hxs Hall]; subst.
  simpl. rewrite IH by exact Hxs.
  destruct xs as [| y ys]; [reflexivity |].
  simpl. inversion Hall as [| ? ? Hy _]; subst.
  apply Qle_bool_iff in Hy. rewrite Hy. reflexivity.
Qed.

Lemma descending_firstn (n : nat) (l : list A) :
  descending key l -> descending key (firstn n l).
Proof.
  revert l. induction n as [| n IH]; intros l Hd; [constructor |].
  destruct l as [| x xs]; [constructor |].
  inversion Hd as [| ? ? Hxs Hall]; subst. simpl. constructor.
  - apply IH, Hxs.
  - apply List.Forall_forall. intros y Hy.
    rewrite List.Forall_forall in Hall. apply Hall.
    eapply In_firstn. exact Hy.
Qed.
End SortedAgain.

Lemma filter_all_true {A : Type} (f : A -> bool) (l : list A) :
  (forall x, In x l -> f x = true) -> List.filter f l = l.
Proof.
  induction l as [| x xs IH]; [reflexivity |].
  intros Hall. simpl. rewrite (Hall x) by (left; reflexivity).
  rewrite IH; [reflexivity |].
  intros y Hy. apply Hall. right. exact Hy.
Qed.

(** X28.  With a non-negative MAX_SYMBOLS_PER_SCAN, [filter_and_rank] is
    idempotent: ranking a ranked list again changes nothing. *)
Theorem filter_and_rank_is_idempotent (cfg : ScannerConfig)
    (scores : list CompositeScore.t) :
  (0 <= MAX_SYMBOLS_PER_SCAN cfg)%Z ->
  CompositeScorer.filter_and_rank cfg (CompositeScorer.filter_and_rank cfg scores)
  = CompositeScorer.filter_and_rank cfg scores.
Proof.
  intros Hmax. apply Z.leb_le in Hmax.
  remember (CompositeScorer.filter_and_rank cfg scores) as out eqn:Hout.
  assert (Hret : forall s, In s out -> retainedb cfg s = true).
  { intros s Hin. rewrite Hout in Hin.
    unfold CompositeScorer.filter_and_rank, py_slice_to in Hin.
    rewrite Hmax in Hin. apply In_firstn in Hin.
    eapply Permutation_in in Hin; [| apply sorted_desc_perm].
    rewrite filter_loop_filter in Hin. apply List.filter_In in Hin. tauto. }
  assert (Hdesc : descending CompositeScorer.ranking_key out).
  { rewrite Hout. unfold CompositeScorer.filter_and_rank, py_slice_to.
    rewrite Hmax. apply descending_firstn, sorted_desc_descending. }
  unfold CompositeScorer.filter_and_rank at 1.
  rewrite filter_loop_filter, filter_all_true by exact Hret.
  rewrite sorted_desc_of_descending by exact Hdesc.
  rewrite Hout. unfold CompositeScorer.filter_and_rank, py_slice_to.
  rewrite Hmax, firstn_firstn, Nat.min_id. reflexivity.
Qed.

Lemma filter_and_rank_is_idempotent_witness :
  CompositeScorer.filter_and_rank config
    (CompositeScorer.filter_and_rank config ranking_input)
  = CompositeScorer.filter_and_rank config ranking_input.
Proof.
  apply (filter_and_rank_is_idempotent config ranking_input).
  vm_compute. discriminate.
Defined.

Lemma combination_bonus_at_most_33 (ignition : IgnitionSignal.t)
    (pressure : PressureSignal.t) (fuel : FuelSignal.t) :
  CompositeScorer._calculate_combination_bonus ignition pressure fuel <= 33.
Proof.
  unfold CompositeScorer._calculate_combination_bonus.
  repeat match goal with
         | |- context [if ?c then _ else _] => destruct c
         end; cbn; lra.
Qed.

(** X29.  The combination bonus lies between 0 and 33, so the weighted
    score is at least the weighted sum of the three signal scores and at
    most that sum plus 33, both capped at 100. *)
Theorem combination_bonus_adds_at_most_33 (cfg : ScannerConfig)
    (ignition : IgnitionSignal.t) (pressure : PressureSignal.t)
    (fuel : FuelSignal.t) :
  let base :=
    IgnitionSignal.score ignition * (VWAP_MOMENTUM_WEIGHT cfg / 100)
    + PressureSignal.score pressure * (OPTIONS_PRESSURE_WEIGHT cfg / 100)
    + FuelSignal.score fuel * (VOLUME_WEIGHT cfg / 100) in
  0 <= CompositeScorer._calculate_combination_bonus ignition pressure fuel <= 33
  /\ py_min 100 base
     <= CompositeScorer._calculate_weighted_score cfg ignition pressure fuel
     <= py_min 100 (base + 33).
Proof.
  intros base.
  pose proof (combination_bonus_nonneg ignition pressure fuel) as Hlo.
  pose proof (combination_bonus_at_most_33 ignition pressure fuel) as Hhi.
  split; [split; assumption |].
  unfold CompositeScorer._calculate_weighted_score. fold base.
  split; apply py_min_monotone; lra.
Qed.

(** ** Synthetic option chains *)




